(** * Credit-default homework script: cleaning, metrics and report writing

    Shallow embedding of [homework/homework.py].  The script is glue around
    pandas and scikit-learn; the embedding gives the library calls it makes
    their documented meaning on a small data model and then transcribes the
    script's own functions line by line on top of them. *)

From Stdlib Require Import ZArith QArith Qcanon Ascii Lia.
From stdpp Require Import base option list strings pretty gmap.


(** ** Exceptions and results *)

(** The Python exceptions the modelled calls can raise, and two ways of
    leaving the embedding: a reference to no object, and a library
    behaviour outside the fragment that is modelled. *)
Inductive exn :=
| KeyError (k : string)
| IndexError
| ValueError (msg : string)
| FileNotFoundError
| FileExistsError
| NotADirectoryError
| IsADirectoryError
| BadReference
| Unsupported (what : string).

Inductive result (A : Type) :=
| Ok (a : A)
| Raise (e : exn).
Arguments Ok {A} a.
Arguments Raise {A} e.

Global Instance result_ret : MRet result := λ A a, Ok a.
Global Instance result_bind : MBind result := λ A B k r,
  match r with
  | Ok a => k a
  | Raise e => Raise e
  end.

Definition is_ok {A} (r : result A) : bool :=
  match r with Ok _ => true | Raise _ => false end.

(** ** The pandas fragment used by the script *)

Module Pandas.

(** A cell holds an integer or is missing ([None] stands for NaN). *)
Definition cell := option Z.

Inductive dtype := Numeric | Category.

Record Column := mkColumn {
  cname : string;
  cdtype : dtype;
  cdata : list cell
}.

Record DataFrame := mkFrame {
  index : list Z;
  columns : list Column
}.

Record Series := mkSeries {
  sname : string;
  sindex : list Z;
  sdtype : dtype;
  sdata : list cell
}.

Record BoolSeries := mkBool {
  bindex : list Z;
  bdata : list bool
}.

Global Instance dtype_eq_dec : EqDecision dtype.
Proof. solve_decision. Defined.
Global Instance Column_eq_dec : EqDecision Column.
Proof. solve_decision. Defined.
Global Instance DataFrame_eq_dec : EqDecision DataFrame.
Proof. solve_decision. Defined.

Definition names (f : DataFrame) : list string := map cname (columns f).

(** Comparisons on cells follow IEEE: every ordered comparison with NaN is
    false, and [!=] with NaN is true. *)
Definition cell_ne (x : cell) (k : Z) : bool :=
  match x with
  | Some v => negb (v =? k)%Z
  | None => true
  end.

Definition cell_ge (x : cell) (k : Z) : bool :=
  match x with
  | Some v => (k <=? v)%Z
  | None => false
  end.

Definition notna (x : cell) : bool :=
  match x with Some _ => true | None => false end.

(** Rows selected by a boolean mask. *)
Fixpoint mask_select {A} (m : list bool) (l : list A) : list A :=
  match m, l with
  | b :: m', x :: l' =>
      if b then x :: mask_select m' l' else mask_select m' l'
  | _, _ => []
  end.

(** [DataFrame.rename(columns=m)]: labels absent from the frame are ignored. *)
Definition rename_label (m : list (string * string)) (n : string) : string :=
  match List.find (λ p, String.eqb (fst p) n) m with
  | Some p => snd p
  | None => n
  end.

Definition frame_rename (m : list (string * string)) (f : DataFrame) : DataFrame :=
  mkFrame (index f)
    (map (λ c, mkColumn (rename_label m (cname c)) (cdtype c) (cdata c))
         (columns f)).

(** [DataFrame.drop(columns=cs)]: a label that is not a column is a
    [KeyError]; every column carrying a dropped label goes. *)
Definition mem_string (s : string) (l : list string) : bool :=
  existsb (String.eqb s) l.

Definition frame_drop (cs : list string) (f : DataFrame) : result DataFrame :=
  match List.find (λ c, negb (mem_string c (names f))) cs with
  | Some c => Raise (KeyError c)
  | None =>
      Ok (mkFrame (index f)
            (List.filter (λ c, negb (mem_string (cname c) cs)) (columns f)))
  end.

(** [DataFrame.dropna()]: keep the rows in which no column is missing. *)
Definition rows_notna (f : DataFrame) : list bool :=
  foldr (λ c acc, zip_with andb (map notna (cdata c)) acc)
        (replicate (length (index f)) true) (columns f).

Definition frame_select (m : list bool) (f : DataFrame) : DataFrame :=
  mkFrame (mask_select m (index f))
    (map (λ c, mkColumn (cname c) (cdtype c) (mask_select m (cdata c)))
         (columns f)).

Definition frame_dropna (f : DataFrame) : DataFrame :=
  frame_select (rows_notna f) f.

(** [df[c]] for a label: a [KeyError] when no column has the label.  When
    several columns share the label pandas answers with a sub-frame; the
    script never reaches that on frames read from a CSV file (whose header
    is de-duplicated on load), and the embedding stops there. *)
Definition frame_getitem (c : string) (f : DataFrame) : result Series :=
  match List.filter (λ col, String.eqb (cname col) c) (columns f) with
  | [] => Raise (KeyError c)
  | [col] => Ok (mkSeries c (index f) (cdtype col) (cdata col))
  | _ => Raise (Unsupported "duplicate column label")
  end.

(** [s != k], [b1 & b2], [s.apply(g)], [s.astype("category")]. *)
Definition series_ne (s : Series) (k : Z) : BoolSeries :=
  mkBool (sindex s) (map (λ x, cell_ne x k) (sdata s)).

(** Operands with different indexes are aligned by pandas; both operands of
    the script's [&] come from one frame, and the embedding stops
    otherwise. *)
Definition bool_and (a b : BoolSeries) : result BoolSeries :=
  if decide (bindex a = bindex b)
  then Ok (mkBool (bindex a) (zip_with andb (bdata a) (bdata b)))
  else Raise (Unsupported "index alignment").

Definition series_apply (g : cell → cell) (s : Series) : Series :=
  mkSeries (sname s) (sindex s) (sdtype s) (map g (sdata s)).

Definition series_astype_category (s : Series) : Series :=
  mkSeries (sname s) (sindex s) Category (sdata s).

(** [df[b]] for a boolean Series carrying the frame's own index. *)
Definition frame_getitem_mask (b : BoolSeries) (f : DataFrame) : result DataFrame :=
  if decide (bindex b = index f)
  then if decide (length (bdata b) = length (index f))
       then Ok (frame_select (bdata b) f)
       else Raise (ValueError "Item wrong length")
  else Raise (Unsupported "index alignment").

(** [df[c] = s]: every column labelled [c] takes the values and dtype of
    [s]; a new column is appended when there is none. *)
Definition frame_setitem (c : string) (s : Series) (f : DataFrame) : result DataFrame :=
  if decide (sindex s = index f)
  then
    if decide (length (sdata s) = length (index f))
    then
      if mem_string c (names f)
      then Ok (mkFrame (index f)
                 (map (λ col, if String.eqb (cname col) c
                              then mkColumn c (sdtype s) (sdata s)
                              else col) (columns f)))
      else Ok (mkFrame (index f)
                 (columns f ++ [mkColumn c (sdtype s) (sdata s)]))
    else Raise (ValueError "Length of values does not match length of index")
  else Raise (Unsupported "index alignment").

End Pandas.
Export Pandas.

(** ** Python objects: a store of frames addressed by reference *)

(** Stateful, fallible computations: the state is threaded, an exception
    stops the computation and keeps the state reached. *)
Definition State (S A : Type) : Type := S → S * result A.

Global Instance State_ret {S} : MRet (State S) := λ A a s, (s, Ok a).
Global Instance State_bind {S} : MBind (State S) := λ A B k m s,
  match m s with
  | (s', Ok a) => k a s'
  | (s', Raise e) => (s', Raise e)
  end.

Definition lift_result {S A} (r : result A) : State S A := λ s, (s, r).

Definition loc := nat.
Abbreviation heap := (list DataFrame).
Abbreviation M := (State heap).

Definition lift {A} (r : result A) : M A := lift_result r.

Definition alloc (f : DataFrame) : M loc := λ h, (h ++ [f], Ok (length h)).

Definition load (r : loc) : M DataFrame := λ h,
  match h !! r with
  | Some f => (h, Ok f)
  | None => (h, Raise BadReference)
  end.

Definition store (r : loc) (f : DataFrame) : M unit := λ h,
  match h !! r with
  | Some _ => (<[r := f]> h, Ok tt)
  | None => (h, Raise BadReference)
  end.

(** The frame methods as the script calls them: each one except item
    assignment answers with a new object.  A Series is never assigned to
    in the script and is kept as a value. *)
Definition copy (df : loc) : M loc :=
  f ← load df; alloc f.

Definition rename (df : loc) (m : list (string * string)) : M loc :=
  f ← load df; alloc (frame_rename m f).

Definition drop (df : loc) (cs : list string) : M loc :=
  f ← load df; f' ← lift (frame_drop cs f); alloc f'.

Definition dropna (df : loc) : M loc :=
  f ← load df; alloc (frame_dropna f).

Definition getitem (df : loc) (c : string) : M Series :=
  f ← load df; lift (frame_getitem c f).

Definition getitem_mask (df : loc) (b : BoolSeries) : M loc :=
  f ← load df; f' ← lift (frame_getitem_mask b f); alloc f'.

Definition setitem (df : loc) (c : string) (s : Series) : M unit :=
  f ← load df; f' ← lift (frame_setitem c s f); store df f'.

(** ** [limpiarDatos] *)

Definition limpiarDatos (df : loc) : M (loc * loc * Series) :=
  df ← copy df;
  df ← rename df [("default payment next month", "default")];
  df ← drop df ["ID"];
  df ← dropna df;
  education ← getitem df "EDUCATION";
  marriage ← getitem df "MARRIAGE";
  keep ← lift (bool_and (series_ne education 0) (series_ne marriage 0));
  df ← getitem_mask df keep;
  education ← getitem df "EDUCATION";
  setitem df "EDUCATION"
    (series_astype_category
       (series_apply (λ x, if cell_ge x 4 then Some 4%Z else x) education));;
  x ← drop df ["default"];
  y ← getitem df "default";
  mret (df, x, y).

(** ** The scikit-learn metrics used by the script *)

(** A metric value.  The quotient that numpy rounds to a double is kept
    exact; [FNaN] is the value of an undefined mean. *)
Inductive fval :=
| FNum (q : Qc)
| FNaN.

Module Sklearn.

Definition ratio (a b : nat) : Qc :=
  Q2Qc (Qmake (Z.of_nat a) (Pos.of_nat b)).

(** [np.unique]: the distinct values in ascending order. *)
Fixpoint insert_unique (x : Z) (l : list Z) : list Z :=
  match l with
  | [] => [x]
  | y :: l' =>
      if (x <? y)%Z then x :: y :: l'
      else if (x =? y)%Z then y :: l'
      else y :: insert_unique x l'
  end.

Definition unique (l : list Z) : list Z := foldr insert_unique [] l.

Definition unique_labels (y_true y_pred : list Z) : list Z :=
  unique (y_true ++ y_pred).

Fixpoint values (l : list cell) : result (list Z) :=
  match l with
  | [] => Ok []
  | Some v :: l' => vs ← values l'; Ok (v :: vs)
  | None :: _ => Raise (ValueError "Input contains NaN")
  end.

(** The checks every metric starts with: as many predictions as labels,
    and no missing label.  A split without rows passes them, as it does in
    scikit-learn up to release 1.5; later releases refuse it with a
    ValueError.  The repository pins no release, so its source does not
    settle what happens on an empty split.  A statement that would differ
    between releases there takes splits that are not empty, or is about
    the script, whose fitted pipeline refuses to predict on a frame
    without rows. *)
Definition check_targets (y_true : Series) (y_pred : list Z) : result (list Z * list Z) :=
  if decide (length (sdata y_true) = length y_pred)
  then y ← values (sdata y_true); Ok (y, y_pred)
  else Raise (ValueError "Found input variables with inconsistent numbers of samples").

Definition count (v : Z) (l : list Z) : nat :=
  length (List.filter (λ a, (a =? v)%Z) l).

Definition count_pairs (t q : Z) (y p : list Z) : nat :=
  length (List.filter (λ ab, (fst ab =? t)%Z && (snd ab =? q)%Z) (zip y p)).

(** [confusion_matrix(y_true, y_pred)] without [labels=]: one row and one
    column per label that occurs in either argument; entry [i, j] counts
    the samples with true label [i] and predicted label [j]. *)
Definition confusion_matrix (y_true : Series) (y_pred : list Z) : result (list (list nat)) :=
  yp ← check_targets y_true y_pred;
  let labels := unique_labels yp.1 yp.2 in
  Ok (map (λ t, map (λ q, count_pairs t q yp.1 yp.2) labels) labels).

(** [cm[i, j]] on a numpy array. *)
Definition matrix_get (cm : list (list nat)) (i j : nat) : result nat :=
  match cm !! i with
  | Some row =>
      match row !! j with
      | Some v => Ok v
      | None => Raise IndexError
      end
  | None => Raise IndexError
  end.

(** The counts behind precision, recall and F1 with the defaults
    [average='binary'] and [pos_label=1]: true positives, predicted
    positives, actual positives. *)
Definition binary_counts (y_true : Series) (y_pred : list Z) : result (nat * nat * nat) :=
  yp ← check_targets y_true y_pred;
  let present := unique_labels yp.1 yp.2 in
  if decide (2 < length present)
  then Raise (ValueError "Target is multiclass but average='binary'")
  else if decide ((1%Z ∉ present) ∧ (2 ≤ length present))
  then Raise (ValueError "pos_label=1 is not a valid label")
  else Ok (count_pairs 1 1 yp.1 yp.2, count 1 yp.2, count 1 yp.1).

(** A quotient whose zero denominator yields [zero_division]. *)
Definition prf_divide (num den : nat) (zero_division : Qc) : fval :=
  if (den =? 0)%nat then FNum zero_division else FNum (ratio num den).

Definition precision_score (y_true : Series) (y_pred : list Z) (zero_division : Qc) : result fval :=
  c ← binary_counts y_true y_pred;
  Ok (prf_divide c.1.1 c.1.2 zero_division).

Definition recall_score (y_true : Series) (y_pred : list Z) (zero_division : Qc) : result fval :=
  c ← binary_counts y_true y_pred;
  Ok (prf_divide c.1.1 c.2 zero_division).

Definition f1_score (y_true : Series) (y_pred : list Z) (zero_division : Qc) : result fval :=
  c ← binary_counts y_true y_pred;
  Ok (prf_divide (2 * c.1.1) (c.2 + c.1.2) zero_division).

(** Recall of each class that has true samples, averaged; classes without
    true samples are left out, and the mean of nothing is NaN.

    Metric values are exact rationals.  For a quotient of two counts
    [FNum q] stands for the double nearest to [q], which is the double
    the code computes.  For the mean of several recalls it does not:
    numpy averages recalls that are already rounded, and the result can
    differ from the double nearest to the exact mean in the last digit.
    Of a balanced accuracy the theorems therefore use only its bounds and
    the cases where it is exactly 0 or 1. *)
Definition per_class_recall (cm : list (list nat)) : list Qc :=
  omap id
    (imap (λ i row,
             let total := sum_list row in
             if (total =? 0)%nat then None
             else Some (ratio (nth i row 0) total)) cm).

Definition mean (l : list Qc) : fval :=
  match l with
  | [] => FNaN
  | _ => FNum (Qcdiv (foldr Qcplus 0%Qc l) (Q2Qc (Qmake (Z.of_nat (length l)) 1)))
  end.

Definition balanced_accuracy_score (y_true : Series) (y_pred : list Z) : result fval :=
  cm ← confusion_matrix y_true y_pred;
  Ok (mean (per_class_recall cm)).

End Sklearn.
Export Sklearn.

(** ** JSON values and [json.dumps] *)

#[local] Set Warnings "-register-all".

Inductive json :=
| JNull
| JBool (b : bool)
| JInt (z : Z)
| JFloat (x : fval)
| JStr (s : string)
| JList (l : list json)
| JObj (kvs : list (string * json)).

(** A Python dict with string keys, in insertion order. *)
Abbreviation dict := (list (string * json)).

Definition dict_get (k : string) (d : dict) : option json :=
  match List.find (λ kv, String.eqb (fst kv) k) d with
  | Some kv => Some (snd kv)
  | None => None
  end.

Module Json.

Definition hex_digit (n : N) : ascii :=
  match n with
  | 0 => "0" | 1 => "1" | 2 => "2" | 3 => "3" | 4 => "4" | 5 => "5"
  | 6 => "6" | 7 => "7" | 8 => "8" | 9 => "9" | 10 => "a" | 11 => "b"
  | 12 => "c" | 13 => "d" | 14 => "e" | _ => "f"
  end%char%N.

(** [ensure_ascii=True]: the quote and the backslash are escaped, and so
    is every character outside the printable ASCII range.  A character of
    a Rocq string is one code point below 256. *)
Definition escape_char (c : ascii) : string :=
  let n := N_of_ascii c in
  if (n =? 34)%N then "\" +:+ String c EmptyString
  else if (n =? 92)%N then "\\"
  else if (n =? 10)%N then "\n"
  else if (n =? 13)%N then "\r"
  else if (n =? 9)%N then "\t"
  else if (n =? 8)%N then "\b"
  else if (n =? 12)%N then "\f"
  else if ((32 <=? n) && (n <=? 126))%N then String c EmptyString
  else "\u00" +:+ String (hex_digit (n / 16)) (String (hex_digit (n mod 16)) EmptyString).

Fixpoint escape (s : string) : string :=
  match s with
  | EmptyString => EmptyString
  | String c s' => escape_char c +:+ escape s'
  end.

Definition quote (s : string) : string :=
  String (ascii_of_N 34) (escape s +:+ String (ascii_of_N 34) EmptyString).

Fixpoint join (sep : string) (l : list string) : string :=
  match l with
  | [] => EmptyString
  | [x] => x
  | x :: l' => x +:+ sep +:+ join sep l'
  end.

Section dumps.
(** The text of a float ([float.__repr__], and [NaN] for a NaN) is not
    modelled; it is a parameter of the serializer. *)
Variable float_repr : fval → string.

Fixpoint dumps (j : json) : string :=
  match j with
  | JNull => "null"
  | JBool true => "true"
  | JBool false => "false"
  | JInt z => pretty z
  | JFloat x => float_repr x
  | JStr s => quote s
  | JList l => "[" +:+ join ", " (map dumps l) +:+ "]"
  | JObj kvs =>
      "{" +:+ join ", " (map (λ kv, quote (fst kv) +:+ ": " +:+ dumps (snd kv)) kvs)
          +:+ "}"
  end.

End dumps.

End Json.

(** ** A file system *)

Module Fs.

(** A relative path, one element per component; [files/output/metrics.json]
    is [["files"; "output"; "metrics.json"]]. *)
Abbreviation path := (list string).

Inductive node :=
| Dir
| File (content : string).

Abbreviation fs := (gmap path node).

(** [os.path.dirname]. *)
Definition dirname (p : path) : path := removelast p.

(** [os.makedirs(name, exist_ok=...)]: walk down from the working
    directory and create what is missing. *)
Fixpoint mkdirs (exist_ok : bool) (walked rest : path) : State fs unit :=
  match rest with
  | [] => mret tt
  | c :: rest' =>
      let p := walked ++ [c] in
      λ s,
        match s !! p with
        | None => mkdirs exist_ok p rest' (<[p := Dir]> s)
        | Some Dir =>
            match rest' with
            | [] => if exist_ok then (s, Ok tt) else (s, Raise FileExistsError)
            | _ => mkdirs exist_ok p rest' s
            end
        | Some (File _) =>
            match rest' with
            | [] => (s, Raise FileExistsError)
            | _ => (s, Raise NotADirectoryError)
            end
        end
  end.

Definition makedirs (name : path) (exist_ok : bool) : State fs unit :=
  match name with
  | [] => λ s, (s, Raise FileNotFoundError)
  | _ => mkdirs exist_ok [] name
  end.

Definition is_dir (s : fs) (p : path) : bool :=
  match p with
  | [] => true
  | _ => match s !! p with Some Dir => true | _ => false end
  end.

(** [open(p, "w")]: the file is created or truncated; the handle is the
    path itself. *)
Definition open_w (p : path) : State fs path := λ s,
  match p with
  | [] => (s, Raise IsADirectoryError)
  | _ =>
      match s !! p with
      | Some Dir => (s, Raise IsADirectoryError)
      | _ =>
          if is_dir s (dirname p) then (<[p := File EmptyString]> s, Ok p)
          else match s !! dirname p with
               | Some (File _) => (s, Raise NotADirectoryError)
               | _ => (s, Raise FileNotFoundError)
               end
      end
  end.

(** [f.write(text)] appends to what the handle has written so far. *)
Definition write (f : path) (text : string) : State fs unit := λ s,
  match s !! f with
  | Some (File content) => (<[f := File (content +:+ text)]> s, Ok tt)
  | _ => (s, Raise BadReference)
  end.

End Fs.
Export Fs.

(** [for x in l: body x]. *)
Fixpoint for_each {S A} (l : list A) (body : A → State S unit) : State S unit :=
  match l with
  | [] => mret tt
  | x :: l' => body x;; for_each l' body
  end.

(** ** [metricas], [matrizConfusion], [guardarMetricas] *)

(** A fitted model: all the script asks of it is [predict], which may use
    and change state of its own. *)
Record Model (S : Type) := mkModel {
  predict : DataFrame → State S (list Z)
}.
Arguments predict {S} _ _ _.

Section reporter.
Context {S : Type} (model : Model S).

Definition metricas (x_train : DataFrame) (y_train : Series)
    (x_test : DataFrame) (y_test : Series) : State S (dict * dict) :=
  y_train_pred ← predict model x_train;
  y_test_pred ← predict model x_test;
  metricasTrain ← lift_result (
    precision ← precision_score y_train y_train_pred 0;
    balanced_accuracy ← balanced_accuracy_score y_train y_train_pred;
    recall ← recall_score y_train y_train_pred 0;
    f1 ← f1_score y_train y_train_pred 0;
    Ok [ ("type", JStr "metrics");
         ("dataset", JStr "train");
         ("precision", JFloat precision);
         ("balanced_accuracy", JFloat balanced_accuracy);
         ("recall", JFloat recall);
         ("f1_score", JFloat f1) ]);
  metricasTest ← lift_result (
    precision ← precision_score y_test y_test_pred 0;
    balanced_accuracy ← balanced_accuracy_score y_test y_test_pred;
    recall ← recall_score y_test y_test_pred 0;
    f1 ← f1_score y_test y_test_pred 0;
    Ok [ ("type", JStr "metrics");
         ("dataset", JStr "test");
         ("precision", JFloat precision);
         ("balanced_accuracy", JFloat balanced_accuracy);
         ("recall", JFloat recall);
         ("f1_score", JFloat f1) ]);
  mret (metricasTrain, metricasTest).

Definition matrizConfusion (x_train : DataFrame) (y_train : Series)
    (x_test : DataFrame) (y_test : Series) : State S (dict * dict) :=
  y_train_pred ← predict model x_train;
  y_test_pred ← predict model x_test;
  cm_train ← lift_result (confusion_matrix y_train y_train_pred);
  cm_test ← lift_result (confusion_matrix y_test y_test_pred);
  cm_metrics_train ← lift_result (
    c00 ← matrix_get cm_train 0 0;
    c01 ← matrix_get cm_train 0 1;
    c10 ← matrix_get cm_train 1 0;
    c11 ← matrix_get cm_train 1 1;
    Ok [ ("type", JStr "cm_matrix");
         ("dataset", JStr "train");
         ("true_0", JObj [ ("predicted_0", JInt (Z.of_nat c00));
                           ("predicted_1", JInt (Z.of_nat c01)) ]);
         ("true_1", JObj [ ("predicted_0", JInt (Z.of_nat c10));
                           ("predicted_1", JInt (Z.of_nat c11)) ]) ]);
  cm_metrics_test ← lift_result (
    c00 ← matrix_get cm_test 0 0;
    c01 ← matrix_get cm_test 0 1;
    c10 ← matrix_get cm_test 1 0;
    c11 ← matrix_get cm_test 1 1;
    Ok [ ("type", JStr "cm_matrix");
         ("dataset", JStr "test");
         ("true_0", JObj [ ("predicted_0", JInt (Z.of_nat c00));
                           ("predicted_1", JInt (Z.of_nat c01)) ]);
         ("true_1", JObj [ ("predicted_0", JInt (Z.of_nat c10));
                           ("predicted_1", JInt (Z.of_nat c11)) ]) ]);
  mret (cm_metrics_train, cm_metrics_test).

End reporter.

Definition newline : string := String (ascii_of_N 10) EmptyString.

Definition default_metrics_path : path := ["files"; "output"; "metrics.json"].

(** The file is closed when the [with] block is left; the model keeps no
    state for open files, so closing shows nowhere.  [file_path] defaults
    to [default_metrics_path] in the script. *)
Section writer.
Variable float_repr : fval → string.

Definition guardarMetricas (metrics_train metrics_test cm_metrics_train
    cm_metrics_test : dict) (file_path : path) : State fs unit :=
  makedirs (dirname file_path) true;;
  let metricas_totales :=
    [metrics_train; metrics_test; cm_metrics_train; cm_metrics_test] in
  f ← open_w file_path;
  for_each metricas_totales
    (λ metrica, write f (Json.dumps float_repr (JObj metrica) +:+ newline)).

End writer.

(** ** Frames read row by row *)

Module Rows.

(** A row is its index label and its fields in column order. *)
Definition row : Type := Z * list (string * cell).

Definition label (r : row) : Z := fst r.
Definition fields (r : row) : list (string * cell) := snd r.

(** The value under a column label; a label the row does not have reads as
    missing. *)
Definition field (c : string) (r : row) : cell :=
  match List.find (λ p, String.eqb (fst p) c) (fields r) with
  | Some p => snd p
  | None => None
  end.

Record Table := mkTable {
  theader : list (string * dtype);
  trows : list row
}.

Definition head_cell (d : list cell) : cell :=
  match d with
  | x :: _ => x
  | [] => None
  end.

Definition column_tail (c : Column) : Column :=
  mkColumn (cname c) (cdtype c) (tail (cdata c)).

Fixpoint rows_of (idx : list Z) (cols : list Column) : list row :=
  match idx with
  | [] => []
  | l :: idx' =>
      (l, map (λ c, (cname c, head_cell (cdata c))) cols)
        :: rows_of idx' (map column_tail cols)
  end.

Definition frame_rows (f : DataFrame) : list row :=
  rows_of (index f) (columns f).

(** [len(df)] and [len(s)]. *)
Definition nrows (f : DataFrame) : nat := length (index f).
Definition series_length (s : Series) : nat := length (sindex s).

Definition to_table (f : DataFrame) : Table :=
  mkTable (map (λ c, (cname c, cdtype c)) (columns f)) (frame_rows f).

Definition series_rows (s : Series) : list (Z * cell) :=
  zip (sindex s) (sdata s).

End Rows.
Export Rows.

(** ** The cleaning steps as the specification words them

    Each step is written on rows, independently of the column-wise code
    above, so that the two can be compared. *)

Module Cleaner.

Definition on_fields (g : list (string * cell) → list (string * cell)) (r : row) : row :=
  (label r, g (fields r)).

(** 1. Rename the label column. *)
Definition rename_key {V} (old new : string) (kv : string * V) : string * V :=
  (if String.eqb (fst kv) old then new else fst kv, snd kv).

Definition rename_label_column (t : Table) : Table :=
  mkTable (map (rename_key "default payment next month" "default") (theader t))
          (map (on_fields (map (rename_key "default payment next month" "default")))
               (trows t)).

(** 2. Drop the row identifier. *)
Definition without_key {V} (k : string) (kvs : list (string * V)) : list (string * V) :=
  List.filter (λ kv, negb (String.eqb (fst kv) k)) kvs.

Definition drop_identifier (t : Table) : Table :=
  mkTable (without_key "ID" (theader t))
          (map (on_fields (without_key "ID")) (trows t)).

(** 3. Drop every row with a missing value. *)
Definition complete (r : row) : bool :=
  forallb (λ kv, notna (snd kv)) (fields r).

Definition drop_missing (t : Table) : Table :=
  mkTable (theader t) (List.filter complete (trows t)).

(** 4. Drop every row whose education or marital-status code is 0. *)
Definition available (r : row) : bool :=
  cell_ne (field "EDUCATION" r) 0 && cell_ne (field "MARRIAGE" r) 0.

Definition drop_unavailable (t : Table) : Table :=
  mkTable (theader t) (List.filter available (trows t)).

(** 5. Collapse education codes from 4 upwards into 4 and mark the column
    categorical. *)
Definition collapse (x : cell) : cell :=
  match x with
  | Some v => if (4 <=? v)%Z then Some 4%Z else Some v
  | None => None
  end.

Definition collapse_field (kv : string * cell) : string * cell :=
  if String.eqb (fst kv) "EDUCATION" then (fst kv, collapse (snd kv)) else kv.

Definition mark_categorical (kd : string * dtype) : string * dtype :=
  if String.eqb (fst kd) "EDUCATION" then (fst kd, Category) else kd.

Definition collapse_education (t : Table) : Table :=
  mkTable (map mark_categorical (theader t))
          (map (on_fields (map collapse_field)) (trows t)).

(** 6. Split into the feature table and the label vector. *)
Definition features (t : Table) : Table :=
  mkTable (without_key "default" (theader t))
          (map (on_fields (without_key "default")) (trows t)).

Definition labels (t : Table) : list (Z * cell) :=
  map (λ r, (label r, field "default" r)) (trows t).

Definition clean (t : Table) : Table * Table * list (Z * cell) :=
  let t := rename_label_column t in
  let t := drop_identifier t in
  let t := drop_missing t in
  let t := drop_unavailable t in
  let t := collapse_education t in
  (t, features t, labels t).

(** Per input row: what steps 1 and 2 make of it, whether steps 3 and 4
    keep it, and what step 5 makes of a kept row. *)
Definition prepared (r : row) : row :=
  on_fields (without_key "ID")
    (on_fields (map (rename_key "default payment next month" "default")) r).

Definition survives (r : row) : bool :=
  complete (prepared r) && available (prepared r).

Definition recoded (r : row) : row :=
  on_fields (map collapse_field) r.

Definition cleaned (r : row) : row := recoded (prepared r).

End Cleaner.

(** ** What the cleaner expects of its input *)

Definition rectangular (f : DataFrame) : Prop :=
  Forall (λ c, length (cdata c) = length (index f)) (columns f).

(** The columns the script names are present, labels are unique as in a
    frame read from CSV, and the target label [default] is still free. *)
Definition expected_columns (f : DataFrame) : Prop :=
  NoDup (names f) ∧
  "ID" ∈ names f ∧ "EDUCATION" ∈ names f ∧ "MARRIAGE" ∈ names f ∧
  "default payment next month" ∈ names f ∧ "default" ∉ names f.

Definition raw_dataset (f : DataFrame) : Prop :=
  rectangular f ∧ expected_columns f.

Global Instance raw_dataset_dec f : Decision (raw_dataset f).
Proof. unfold raw_dataset, rectangular, expected_columns. apply _. Defined.

(** ** The value computed by [limpiarDatos]

    The same calls, read on frame values without the store.  The store only
    decides where the results live; [limpiarDatos_value] below ties the two
    together. *)

Definition clean_value (raw : DataFrame) : result (DataFrame * DataFrame * Series) :=
  let f := frame_rename [("default payment next month", "default")] raw in
  f ← frame_drop ["ID"] f;
  let f := frame_dropna f in
  education ← frame_getitem "EDUCATION" f;
  marriage ← frame_getitem "MARRIAGE" f;
  keep ← bool_and (series_ne education 0) (series_ne marriage 0);
  f ← frame_getitem_mask keep f;
  education ← frame_getitem "EDUCATION" f;
  f ← frame_setitem "EDUCATION"
        (series_astype_category
           (series_apply (λ x, if cell_ge x 4 then Some 4%Z else x) education)) f;
  x ← frame_drop ["default"] f;
  y ← frame_getitem "default" f;
  mret (f, x, y).

(** ** Auxiliary notions for the proofs *)

(** [frames_kept n Q m]: started on a store of at least [n] objects, [m]
    leaves the first [n] as they were, and a returned value satisfies [Q]. *)
Definition frames_kept {A} (n : nat) (Q : A → Prop) (m : M A) : Prop :=
  ∀ h h' r, n ≤ length h → m h = (h', r) →
    take n h' = take n h ∧ n ≤ length h' ∧ ∀ a, r = Ok a → Q a.

Abbreviation heads cols :=
  (map (λ col : Column, (cname col, head_cell (cdata col))) cols).

Abbreviation select_column m :=
  (λ col : Column, mkColumn (cname col) (cdtype col) (mask_select m (cdata col))).

Abbreviation labelled c := (λ col : Column, String.eqb (cname col) c).

Definition all_length (n : nat) (cols : list Column) : Prop :=
  Forall (λ col, length (cdata col) = n) cols.

Definition set_field (c : string) (v : cell) (kv : string * cell) : string * cell :=
  if String.eqb (fst kv) c then (c, v) else kv.

Definition drop_column (k : string) (f : DataFrame) : DataFrame :=
  mkFrame (index f)
    (List.filter (λ col, negb (String.eqb (cname col) k)) (columns f)).

(** What every stage after the identifier is dropped relies on. *)
Definition ready (f : DataFrame) : Prop :=
  rectangular f ∧ NoDup (names f) ∧
  "EDUCATION" ∈ names f ∧ "MARRIAGE" ∈ names f ∧ "default" ∈ names f.

(** ** Sample data *)

(** Five raw rows: one clean, one with education 0, one with education 6,
    one with a missing education, one with marital status 0. *)
Definition sample_raw : DataFrame :=
  mkFrame [0; 1; 2; 3; 4]%Z
    [ mkColumn "ID" Numeric [Some 1; Some 2; Some 3; Some 4; Some 5]%Z;
      mkColumn "EDUCATION" Numeric [Some 1; Some 0; Some 6; None; Some 3]%Z;
      mkColumn "MARRIAGE" Numeric [Some 1; Some 1; Some 2; Some 1; Some 0]%Z;
      mkColumn "default payment next month" Numeric
        [Some 1; Some 0; Some 0; Some 1; Some 0]%Z ].

(** ** Notions used to state the reporter's and the writer's properties *)

(** Labels and predictions of a split: as many of one as of the other,
    every label 0 or 1. *)
Definition binary_targets (y_true : Series) (y_pred : list Z) : Prop :=
  length (sdata y_true) = length y_pred ∧
  Forall (λ c, c = Some 0%Z ∨ c = Some 1%Z) (sdata y_true) ∧
  Forall (λ v, v = 0%Z ∨ v = 1%Z) y_pred.

Global Instance binary_targets_dec y p : Decision (binary_targets y p).
Proof. unfold binary_targets. apply _. Defined.

(** What [predict] answers does not depend on the model's own state. *)
Definition deterministic {S} (model : Model S) : Prop :=
  ∀ x s s', (predict model x s).2 = (predict model x s').2.

(** Lines 170-171 of the script: the two reporter calls, one after the
    other on the same model. *)
Definition report {S} (model : Model S) (x_train : DataFrame) (y_train : Series)
    (x_test : DataFrame) (y_test : Series) : State S ((dict * dict) * (dict * dict)) :=
  metrics ← metricas model x_train y_train x_test y_test;
  cm_metrics ← matrizConfusion model x_train y_train x_test y_test;
  mret (metrics, cm_metrics).

(** A labelled series over the index 0, 1, ... *)
Definition labels_series (l : list Z) : Series :=
  mkSeries "default" (map Z.of_nat (seq 0 (length l))) Numeric (map Some l).

(** A model that predicts class 0 for every row and counts its calls. *)
Definition all_zero_model : Model nat :=
  mkModel nat (λ x n, (S n, Ok (replicate (nrows x) 0%Z))).

(** Three rows of features, all that the sample models look at. *)
Definition sample_x : DataFrame :=
  mkFrame [0; 1; 2]%Z [ mkColumn "LIMIT_BAL" Numeric [Some 10; Some 20; Some 30]%Z ].

(** The text of a file, line by line. *)
Fixpoint lines (s : string) : list string :=
  match s with
  | EmptyString => []
  | String c s' =>
      if Ascii.eqb c (ascii_of_N 10) then EmptyString :: lines s'
      else match lines s' with
           | [] => [String c EmptyString]
           | l :: ls => String c l :: ls
           end
  end.

Definition printable_char (c : ascii) : bool :=
  ((32 <=? N_of_ascii c) && (N_of_ascii c <=? 126))%N.

Fixpoint printable (s : string) : bool :=
  match s with
  | EmptyString => true
  | String c s' => printable_char c && printable s'
  end.

(** The record [metricas] builds for one split, and the one
    [matrizConfusion] builds from one matrix. *)
Definition scalar_record (dataset : string) (y_true : Series) (y_pred : list Z) : result dict :=
  precision ← precision_score y_true y_pred 0;
  balanced_accuracy ← balanced_accuracy_score y_true y_pred;
  recall ← recall_score y_true y_pred 0;
  f1 ← f1_score y_true y_pred 0;
  Ok [ ("type", JStr "metrics");
       ("dataset", JStr dataset);
       ("precision", JFloat precision);
       ("balanced_accuracy", JFloat balanced_accuracy);
       ("recall", JFloat recall);
       ("f1_score", JFloat f1) ].

Definition cm_record (dataset : string) (cm : list (list nat)) : result dict :=
  c00 ← matrix_get cm 0 0;
  c01 ← matrix_get cm 0 1;
  c10 ← matrix_get cm 1 0;
  c11 ← matrix_get cm 1 1;
  Ok [ ("type", JStr "cm_matrix");
       ("dataset", JStr dataset);
       ("true_0", JObj [ ("predicted_0", JInt (Z.of_nat c00));
                         ("predicted_1", JInt (Z.of_nat c01)) ]);
       ("true_1", JObj [ ("predicted_0", JInt (Z.of_nat c10));
                         ("predicted_1", JInt (Z.of_nat c11)) ]) ].

(** The four cells of a confusion-matrix record, when it has them. *)
Definition cm_cells (d : dict) : option (Z * Z * Z * Z) :=
  match dict_get "true_0" d, dict_get "true_1" d with
  | Some (JObj r0), Some (JObj r1) =>
      match dict_get "predicted_0" r0, dict_get "predicted_1" r0,
            dict_get "predicted_0" r1, dict_get "predicted_1" r1 with
      | Some (JInt a), Some (JInt b), Some (JInt c), Some (JInt d) =>
          Some (a, b, c, d)
      | _, _, _, _ => None
      end
  | _, _ => None
  end.

(** Class [v] occurs among the true labels or the predictions. *)
Definition occurs (v : Z) (y_true : Series) (y_pred : list Z) : Prop :=
  Some v ∈ sdata y_true ∨ v ∈ y_pred.

Definition both_classes (y_true : Series) (y_pred : list Z) : Prop :=
  occurs 0 y_true y_pred ∧ occurs 1 y_true y_pred.

Global Instance both_classes_dec y p : Decision (both_classes y p).
Proof. unfold both_classes, occurs. apply _. Defined.

Definition is_file (n : option node) : bool :=
  match n with
  | Some (File _) => true
  | _ => false
  end.

(** The metrics file can be written at [file_path]: it lies in some
    directory, no file stands where a directory of the path has to be, and
    the path itself is not a directory. *)
Definition writable (s : fs) (file_path : path) : Prop :=
  dirname file_path ≠ [] ∧
  Forall (λ k, is_file (s !! take k (dirname file_path)) = false)
         (seq 1 (length (dirname file_path))) ∧
  s !! file_path ≠ Some Dir.

Global Instance node_eq_dec : EqDecision node.
Proof. solve_decision. Defined.

Global Instance writable_dec s p : Decision (writable s p).
Proof. unfold writable. apply _. Defined.

(** A stand-in for the text of a float, for the examples. *)
Definition sample_float_repr (x : fval) : string :=
  match x with
  | FNum _ => "0.5"
  | FNaN => "NaN"
  end.

(** A file system that already holds the output directory and a stale
    metrics file. *)
Definition sample_fs : fs :=
  <[ default_metrics_path := File "stale" ]>
    (<[ ["files"; "output"] := Dir ]> (<[ ["files"] := Dir ]> ∅)).

Definition sample_metrics : dict :=
  [ ("type", JStr "metrics"); ("dataset", JStr "train");
    ("precision", JFloat (FNum 0%Qc)) ].

Definition sample_cm : dict :=
  [ ("type", JStr "cm_matrix"); ("dataset", JStr "train");
    ("true_0", JObj [ ("predicted_0", JInt 2); ("predicted_1", JInt 0) ]) ].

(** The ten-row split of the specification's end-to-end scenario: rows 3
    and 7 have education 0. *)
Definition scenario_raw : DataFrame :=
  mkFrame [0; 1; 2; 3; 4; 5; 6; 7; 8; 9]%Z
    [ mkColumn "ID" Numeric (map (λ n, Some (Z.of_nat n)) (seq 1 10));
      mkColumn "LIMIT_BAL" Numeric (replicate 10 (Some 20000%Z));
      mkColumn "EDUCATION" Numeric
        [Some 1; Some 2; Some 3; Some 0; Some 4; Some 5; Some 6; Some 0; Some 2; Some 1]%Z;
      mkColumn "MARRIAGE" Numeric
        [Some 1; Some 2; Some 3; Some 1; Some 2; Some 3; Some 1; Some 2; Some 3; Some 1]%Z;
      mkColumn "default payment next month" Numeric
        [Some 0; Some 1; Some 0; Some 1; Some 0; Some 1; Some 0; Some 1; Some 0; Some 1]%Z ].

(** ** Further notions: errors and edges of the cleaner *)

(** What the stages between the two column drops rely on. *)
Definition usable (f : DataFrame) : Prop :=
  rectangular f ∧ NoDup (names f) ∧
  "EDUCATION" ∈ names f ∧ "MARRIAGE" ∈ names f.

(** A sample without identifier column, and one whose label column already
    has its short name. *)
Definition sample_no_id : DataFrame :=
  mkFrame [0; 1]%Z
    [ mkColumn "EDUCATION" Numeric [Some 1; Some 2]%Z;
      mkColumn "MARRIAGE" Numeric [Some 1; Some 2]%Z;
      mkColumn "default payment next month" Numeric [Some 1; Some 0]%Z ].

Definition sample_no_label : DataFrame :=
  mkFrame [0; 1]%Z
    [ mkColumn "ID" Numeric [Some 1; Some 2]%Z;
      mkColumn "EDUCATION" Numeric [Some 1; Some 2]%Z;
      mkColumn "MARRIAGE" Numeric [Some 1; Some 2]%Z ].

Definition sample_renamed : DataFrame :=
  mkFrame [0; 1; 2]%Z
    [ mkColumn "ID" Numeric [Some 1; Some 2; Some 3]%Z;
      mkColumn "EDUCATION" Numeric [Some 1; Some 0; Some 7]%Z;
      mkColumn "MARRIAGE" Numeric [Some 1; Some 2; Some 3]%Z;
      mkColumn "default" Numeric [Some 1; Some 0; Some 1]%Z ].

(** Column labels are still unique once the label column has its short
    name. *)
Definition unique_when_renamed (f : DataFrame) : Prop :=
  NoDup (names (frame_rename [("default payment next month", "default")] f)).

Global Instance unique_when_renamed_dec f : Decision (unique_when_renamed f).
Proof. unfold unique_when_renamed. apply _. Defined.

Definition sample_no_marriage : DataFrame :=
  mkFrame [0; 1]%Z
    [ mkColumn "ID" Numeric [Some 1; Some 2]%Z;
      mkColumn "EDUCATION" Numeric [Some 1; Some 2]%Z;
      mkColumn "default payment next month" Numeric [Some 1; Some 0]%Z ].

(** The label a column has after the renaming step. *)
Definition short_label (n : string) : string :=
  if String.eqb n "default payment next month" then "default" else n.

(** ** Further notions: the reporter's records *)

(** A metric value between 0 and 1. *)
Definition in_unit (x : fval) : Prop :=
  match x with
  | FNum q => Qcle 0 q ∧ Qcle q 1
  | FNaN => False
  end.

(** The four metric values of a scalar record, when it has them. *)
Definition scalar_values (m : dict) : option (fval * fval * fval * fval) :=
  match dict_get "precision" m, dict_get "balanced_accuracy" m,
        dict_get "recall" m, dict_get "f1_score" m with
  | Some (JFloat p), Some (JFloat b), Some (JFloat r), Some (JFloat f) =>
      Some (p, b, r, f)
  | _, _, _, _ => None
  end.

(** The number of rows with true label [t] and predicted label [q],
    counted row by row. *)
Fixpoint tally (t q : Z) (y : list cell) (p : list Z) : Z :=
  match y, p with
  | c :: y', v :: p' =>
      ((if decide (c = Some t ∧ v = q) then 1 else 0) + tally t q y' p')%Z
  | _, _ => 0%Z
  end.

(** [x] is the quotient [num / den], or 0 where [den] is 0: stated by
    cross-multiplication in the rationals. *)
Definition quotient (x : fval) (num den : Z) : Prop :=
  match x with
  | FNum q =>
      if decide (den = 0%Z) then q = 0%Qc
      else (q * Q2Qc (inject_Z den) = Q2Qc (inject_Z num))%Qc
  | FNaN => False
  end.

(** The records of one split agree: the cells of the confusion-matrix
    record [c] are the tallies of the split, and precision, recall and F1
    in the scalar record [m] are the quotients of these cells.  Balanced
    accuracy is left out (see [mean]). *)
Definition records_agree (m c : dict) (y : Series) (p : list Z) : Prop :=
  let tn := tally 0 0 (sdata y) p in
  let fp := tally 0 1 (sdata y) p in
  let fn := tally 1 0 (sdata y) p in
  let tp := tally 1 1 (sdata y) p in
  cm_cells c = Some (tn, fp, fn, tp) ∧
  ∃ precision balanced_accuracy recall f1,
    scalar_values m = Some (precision, balanced_accuracy, recall, f1) ∧
    quotient precision tp (fp + tp) ∧
    quotient recall tp (fn + tp) ∧
    quotient f1 (2 * tp) (2 * tp + fp + fn).

(** A model that predicts what it is told: the first feature column. *)
Definition echo_model : Model nat :=
  mkModel nat (λ x n,
    (S n, values (match columns x with
                  | col :: _ => cdata col
                  | [] => []
                  end))).

Definition sample_echo_x : DataFrame :=
  mkFrame [0; 1; 2; 3]%Z [ mkColumn "PAY_0" Numeric [Some 1; Some 0; Some 0; Some 1]%Z ].

(** Every metric value of a scalar record lies between 0 and 1. *)
Definition unit_record (m : dict) : Prop :=
  match scalar_values m with
  | Some (p, b, r, f) => in_unit p ∧ in_unit b ∧ in_unit r ∧ in_unit f
  | None => False
  end.

(** The natural number [n] as a rational. *)
Definition Qc_of_nat (n : nat) : Qc := Q2Qc (Qmake (Z.of_nat n) 1).

(** ** [guardar] *)

Definition model_path : path := ["files"; "models"; "model.pkl.gz"].

Section saver.
Context {Obj : Type}.
(** The bytes of the gzip-compressed pickle of an object are not
    modelled; they are a parameter of the saver. *)
Variable pickle_gz : Obj → string.

Definition guardar (model : Obj) : State fs unit :=
  makedirs ["files"; "models"] true;;
  file ← open_w model_path;
  write file (pickle_gz model).

End saver.

(** ** The script: lines 155 to 174

    The script works on the frames it holds and on the files around it. *)

Definition test_path : path := ["files"; "input"; "test_data.csv.zip"].
Definition train_path : path := ["files"; "input"; "train_data.csv.zip"].

Abbreviation World := (heap * fs)%type.

Definition on_frames {A} (m : M A) : State World A := λ w,
  let '(h, r) := m w.1 in ((h, w.2), r).

Definition on_disk {A} (m : State fs A) : State World A := λ w,
  let '(d, r) := m w.2 in ((w.1, d), r).

Section script.
Context {S Pipe : Type}.
(** Parsing a zipped CSV file, building the estimator and fitting it by
    grid search are the work of pandas and scikit-learn and are not
    modelled: the script is read for any such functions.  A fitted model
    is its [predict] together with the state it starts from. *)
Variable read_csv : path → fs → result DataFrame.
Variable pipeline : Pipe.
Variable hiperParametros : Pipe → DataFrame → Series → result (Model S * S).
Variable pickle_gz : Model S * S → string.
Variable float_repr : fval → string.

Definition read (p : path) : State World loc :=
  f ← (λ w : World, (w, read_csv p w.2));
  on_frames (alloc f).

Definition script : State World unit :=
  test ← read test_path;
  train ← read train_path;
  out_test ← on_frames (limpiarDatos test);
  out_train ← on_frames (limpiarDatos train);
  modelo_pipe ← mret pipeline;
  x_train ← on_frames (load out_train.1.2);
  modelo_optimizado ← lift_result (hiperParametros modelo_pipe x_train out_train.2);
  on_disk (guardar pickle_gz modelo_optimizado);;
  x_test ← on_frames (load out_test.1.2);
  reports ← lift_result
    (report modelo_optimizado.1 x_train out_train.2 x_test out_test.2
       modelo_optimizado.2).2;
  on_disk (guardarMetricas float_repr reports.1.1 reports.1.2 reports.2.1
             reports.2.2 default_metrics_path).

End script.

(** Three raw rows that all survive cleaning and all carry label 0. *)
Definition sample_single_class : DataFrame :=
  mkFrame [0; 1; 2]%Z
    [ mkColumn "ID" Numeric [Some 1; Some 2; Some 3]%Z;
      mkColumn "EDUCATION" Numeric [Some 1; Some 2; Some 5]%Z;
      mkColumn "MARRIAGE" Numeric [Some 1; Some 2; Some 1]%Z;
      mkColumn "default payment next month" Numeric [Some 0; Some 0; Some 0]%Z ].

(** A reader that finds the same frame at every path. *)
Definition read_always (f : DataFrame) (p : path) (s : fs) : result DataFrame := Ok f.

(** A fit that answers with the model predicting class 0 throughout. *)
Definition fit_all_zero (p : unit) (x : DataFrame) (y : Series) : result (Model nat * nat) :=
  Ok (all_zero_model, 0).

(** What cleaning makes of [sample_raw] and of [sample_single_class]. *)
Definition sample_clean_x : DataFrame :=
  mkFrame [0; 2]%Z
    [ mkColumn "EDUCATION" Category [Some 1; Some 4]%Z;
      mkColumn "MARRIAGE" Numeric [Some 1; Some 2]%Z ].

Definition sample_clean_d : DataFrame :=
  mkFrame [0; 2]%Z
    [ mkColumn "EDUCATION" Category [Some 1; Some 4]%Z;
      mkColumn "MARRIAGE" Numeric [Some 1; Some 2]%Z;
      mkColumn "default" Numeric [Some 1; Some 0]%Z ].

Definition sample_clean_y : Series :=
  mkSeries "default" [0; 2]%Z Numeric [Some 1; Some 0]%Z.

Definition single_class_x : DataFrame :=
  mkFrame [0; 1; 2]%Z
    [ mkColumn "EDUCATION" Category [Some 1; Some 2; Some 4]%Z;
      mkColumn "MARRIAGE" Numeric [Some 1; Some 2; Some 1]%Z ].

Definition single_class_d : DataFrame :=
  mkFrame [0; 1; 2]%Z
    [ mkColumn "EDUCATION" Category [Some 1; Some 2; Some 4]%Z;
      mkColumn "MARRIAGE" Numeric [Some 1; Some 2; Some 1]%Z;
      mkColumn "default" Numeric [Some 0; Some 0; Some 0]%Z ].

Definition single_class_y : Series :=
  mkSeries "default" [0; 1; 2]%Z Numeric [Some 0; Some 0; Some 0]%Z.

(** ** JSON text, read back

    A reader for the grammar of RFC 8259, written from the grammar and
    not from [Json.dumps]: whitespace between tokens, the six structural
    characters, the three literals, strings with their escapes, numbers.
    A number is kept as its text.  A character of a Rocq string is one
    code point below 256, so an escape [\uXXXX] above that is refused. *)

Module JsonText.

Inductive tree :=
| TNull
| TBool (b : bool)
| TNum (text : string)
| TStr (s : string)
| TArr (items : list tree)
| TObj (members : list (string * tree)).

Definition dquote : ascii := ascii_of_N 34.

Definition is_ws (c : ascii) : bool :=
  let n := N_of_ascii c in
  ((n =? 32) || (n =? 9) || (n =? 10) || (n =? 13))%N.

Definition is_digit (c : ascii) : bool :=
  let n := N_of_ascii c in ((48 <=? n) && (n <=? 57))%N.

Definition hex_value (c : ascii) : option N :=
  let n := N_of_ascii c in
  if ((48 <=? n) && (n <=? 57))%N then Some (n - 48)%N
  else if ((97 <=? n) && (n <=? 102))%N then Some (n - 87)%N
  else if ((65 <=? n) && (n <=? 70))%N then Some (n - 55)%N
  else None.

Fixpoint skip_ws (s : string) : string :=
  match s with
  | String c s' => if is_ws c then skip_ws s' else s
  | EmptyString => EmptyString
  end.

Fixpoint skip_digits (s : string) : string :=
  match s with
  | String c s' => if is_digit c then skip_digits s' else s
  | EmptyString => EmptyString
  end.

(** One digit or more. *)
Definition digits1 (s : string) : option string :=
  match s with
  | String c s' => if is_digit c then Some (skip_digits s') else None
  | EmptyString => None
  end.

(** [int = zero / ( digit1-9 *DIGIT )]. *)
Definition int_part (s : string) : option string :=
  match s with
  | String c s' =>
      if Ascii.eqb c "0" then Some s'
      else if is_digit c then Some (skip_digits s')
      else None
  | EmptyString => None
  end.

(** [frac = decimal-point 1*DIGIT], optional. *)
Definition frac_part (s : string) : option string :=
  match s with
  | String c s' => if Ascii.eqb c "." then digits1 s' else Some s
  | EmptyString => Some s
  end.

(** [exp = e [ minus / plus ] 1*DIGIT], optional. *)
Definition exp_part (s : string) : option string :=
  match s with
  | String c s' =>
      if Ascii.eqb c "e" || Ascii.eqb c "E" then
        match s' with
        | String c' s'' =>
            if Ascii.eqb c' "+" || Ascii.eqb c' "-" then digits1 s'' else digits1 s'
        | EmptyString => None
        end
      else Some s
  | EmptyString => Some s
  end.

(** What follows the longest number at the head of [s]. *)
Definition number_rest (s : string) : option string :=
  let s1 := match s with
            | String c s' => if Ascii.eqb c "-" then s' else s
            | EmptyString => s
            end in
  r1 ← int_part s1; r2 ← frac_part r1; exp_part r2.

(** The first [n] characters. *)
Fixpoint first (n : nat) (s : string) : string :=
  match n, s with
  | S n', String c s' => String c (first n' s')
  | _, _ => EmptyString
  end.

Definition number (s : string) : option (string * string) :=
  r ← number_rest s;
  Some (first (String.length s - String.length r) s, r).

(** The text is one number and nothing else. *)
Definition is_number (s : string) : bool :=
  match number_rest s with
  | Some EmptyString => true
  | _ => false
  end.

Definition simple_escape (e : ascii) : option ascii :=
  if Ascii.eqb e dquote then Some dquote
  else if Ascii.eqb e "\" then Some "\"%char
  else if Ascii.eqb e "/" then Some "/"%char
  else if Ascii.eqb e "b" then Some (ascii_of_N 8)
  else if Ascii.eqb e "f" then Some (ascii_of_N 12)
  else if Ascii.eqb e "n" then Some (ascii_of_N 10)
  else if Ascii.eqb e "r" then Some (ascii_of_N 13)
  else if Ascii.eqb e "t" then Some (ascii_of_N 9)
  else None.

(** The characters of a string after its opening quote, up to and
    including the closing quote. *)
Fixpoint string_body (s : string) : option (string * string) :=
  match s with
  | EmptyString => None
  | String c s' =>
      if Ascii.eqb c dquote then Some (EmptyString, s')
      else if Ascii.eqb c "\" then
        match s' with
        | EmptyString => None
        | String e s'' =>
            match simple_escape e with
            | Some d => tr ← string_body s''; Some (String d tr.1, tr.2)
            | None =>
                if Ascii.eqb e "u" then
                  match s'' with
                  | String h1 (String h2 (String h3 (String h4 s4))) =>
                      match hex_value h1, hex_value h2, hex_value h3, hex_value h4 with
                      | Some a, Some b, Some c', Some d =>
                          let n := (((a * 16 + b) * 16 + c') * 16 + d)%N in
                          if (n <? 256)%N
                          then tr ← string_body s4; Some (String (ascii_of_N n) tr.1, tr.2)
                          else None
                      | _, _, _, _ => None
                      end
                  | _ => None
                  end
                else None
            end
        end
      else if (32 <=? N_of_ascii c)%N
      then tr ← string_body s'; Some (String c tr.1, tr.2)
      else None
  end.

Fixpoint literal (w s : string) : option string :=
  match w with
  | EmptyString => Some s
  | String c w' =>
      match s with
      | String d s' => if Ascii.eqb c d then literal w' s' else None
      | EmptyString => None
      end
  end.

Section loops.
Variable value : string → option (tree * string).

(** [value *( ws "," ws value ) ws "]"], at most [k] values. *)
Fixpoint elements (k : nat) (s : string) : option (list tree * string) :=
  match k with
  | 0 => None
  | S k' =>
      vr ← value s;
      match skip_ws vr.2 with
      | String c r =>
          if Ascii.eqb c "," then
            lr ← elements k' (skip_ws r); Some (vr.1 :: lr.1, lr.2)
          else if Ascii.eqb c "]" then Some ([vr.1], r)
          else None
      | EmptyString => None
      end
  end.

(** [member *( ws "," ws member ) ws "}"] with
    [member = string ws ":" ws value], at most [k] members. *)
Fixpoint members (k : nat) (s : string) : option (list (string * tree) * string) :=
  match k with
  | 0 => None
  | S k' =>
      match s with
      | String c s1 =>
          if Ascii.eqb c dquote then
            kr ← string_body s1;
            match skip_ws kr.2 with
            | String c2 r2 =>
                if Ascii.eqb c2 ":" then
                  vr ← value (skip_ws r2);
                  match skip_ws vr.2 with
                  | String c4 r4 =>
                      if Ascii.eqb c4 "," then
                        lr ← members k' (skip_ws r4);
                        Some ((kr.1, vr.1) :: lr.1, lr.2)
                      else if Ascii.eqb c4 "}" then Some ([(kr.1, vr.1)], r4)
                      else None
                  | EmptyString => None
                  end
                else None
            | EmptyString => None
            end
          else None
      | EmptyString => None
      end
  end.

End loops.

(** One value at the head of [s], nested at most [n] deep. *)
Fixpoint value (n : nat) (s : string) : option (tree * string) :=
  match n with
  | 0 => None
  | S n' =>
      match s with
      | EmptyString => None
      | String c s' =>
          if Ascii.eqb c "{" then
            match skip_ws s' with
            | String c' r =>
                if Ascii.eqb c' "}" then Some (TObj [], r)
                else lr ← members (value n') (String.length s) (skip_ws s');
                     Some (TObj lr.1, lr.2)
            | EmptyString => None
            end
          else if Ascii.eqb c "[" then
            match skip_ws s' with
            | String c' r =>
                if Ascii.eqb c' "]" then Some (TArr [], r)
                else lr ← elements (value n') (String.length s) (skip_ws s');
                     Some (TArr lr.1, lr.2)
            | EmptyString => None
            end
          else if Ascii.eqb c dquote then
            tr ← string_body s'; Some (TStr tr.1, tr.2)
          else if Ascii.eqb c "t" then r ← literal "true" s; Some (TBool true, r)
          else if Ascii.eqb c "f" then r ← literal "false" s; Some (TBool false, r)
          else if Ascii.eqb c "n" then r ← literal "null" s; Some (TNull, r)
          else tr ← number s; Some (TNum tr.1, tr.2)
      end
  end.

(** A whole text: one value, whitespace around it, nothing else.  No
    value nests deeper than the text is long. *)
Definition loads (s : string) : option tree :=
  tr ← value (S (String.length s)) (skip_ws s);
  match skip_ws tr.2 with
  | EmptyString => Some tr.1
  | String _ _ => None
  end.

Definition is_object (t : option tree) : bool :=
  match t with
  | Some (TObj _) => true
  | _ => false
  end.

End JsonText.

(** What may follow a value in a JSON text written by [Json.dumps]:
    nothing, a comma, or a closing bracket. *)
Definition closes (r : string) : bool :=
  match r with
  | EmptyString => true
  | String c _ => Ascii.eqb c "," || Ascii.eqb c "}" || Ascii.eqb c "]"
  end.

(** The JSON value a record is, with numbers as [Json.dumps] writes
    them. *)
Section tree_of.
Variable float_repr : fval → string.

Fixpoint tree_of (j : json) : JsonText.tree :=
  match j with
  | JNull => JsonText.TNull
  | JBool b => JsonText.TBool b
  | JInt z => JsonText.TNum (pretty z)
  | JFloat x => JsonText.TNum (float_repr x)
  | JStr s => JsonText.TStr s
  | JList l => JsonText.TArr (map tree_of l)
  | JObj kvs => JsonText.TObj (map (λ kv, (fst kv, tree_of (snd kv))) kvs)
  end.

(** [value] reads back what [Json.dumps] wrote for [j], whatever closing
    text follows. *)
Definition reads (value : string → option (JsonText.tree * string)) (j : json) : Prop :=
  ∀ rest, closes rest = true →
    value (Json.dumps float_repr j +:+ rest) = Some (tree_of j, rest).

End tree_of.

(** No NaN anywhere in a value. *)
Fixpoint finite (j : json) : bool :=
  match j with
  | JFloat FNaN => false
  | JList l => forallb finite l
  | JObj kvs => forallb (λ kv, finite (snd kv)) kvs
  | _ => true
  end.

(** How deep a value nests. *)
Fixpoint depth (j : json) : nat :=
  match j with
  | JList l => S (foldr (λ v d, Nat.max (depth v) d) 0 l)
  | JObj kvs => S (foldr (λ kv d, Nat.max (depth (snd kv)) d) 0 kvs)
  | _ => 0
  end.

(** * Proofs *)

(** ** The store *)

Section store.
Implicit Types (h : heap) (f : DataFrame) (r : loc).

Lemma lookup_snoc h f : (h ++ [f]) !! length h = Some f.
Proof. by rewrite list_lookup_middle. Qed.

Lemma bind_ok {A B} (m : M A) (k : A → M B) h h' a :
  m h = (h', Ok a) → (m ≫= k) h = k a h'.
Proof. intros E. unfold mbind, State_bind. by rewrite E. Qed.

Lemma bind_raise {A B} (m : M A) (k : A → M B) h h' e :
  m h = (h', Raise e) → (m ≫= k) h = (h', Raise e).
Proof. intros E. unfold mbind, State_bind. by rewrite E. Qed.

Lemma load_ok h r f : h !! r = Some f → load r h = (h, Ok f).
Proof. intros E. unfold load. by rewrite E. Qed.

Lemma store_ok h r f f' : h !! r = Some f → store r f' h = (<[r := f']> h, Ok tt).
Proof. intros E. unfold store. by rewrite E. Qed.

Lemma copy_ok h r f : h !! r = Some f → copy r h = (h ++ [f], Ok (length h)).
Proof. intros E. unfold copy. by rewrite (bind_ok _ _ _ _ _ (load_ok _ _ _ E)). Qed.

Lemma rename_ok h r f m :
  h !! r = Some f → rename r m h = (h ++ [frame_rename m f], Ok (length h)).
Proof. intros E. unfold rename. by rewrite (bind_ok _ _ _ _ _ (load_ok _ _ _ E)). Qed.

Lemma drop_ok h r f cs f' :
  h !! r = Some f → frame_drop cs f = Ok f' →
  drop r cs h = (h ++ [f'], Ok (length h)).
Proof.
  intros E D. unfold drop.
  rewrite (bind_ok _ _ _ _ _ (load_ok _ _ _ E)).
  by rewrite (bind_ok (lift (frame_drop cs f)) _ h h f'); [|unfold lift; rewrite D].
Qed.

Lemma dropna_ok h r f :
  h !! r = Some f → dropna r h = (h ++ [frame_dropna f], Ok (length h)).
Proof. intros E. unfold dropna. by rewrite (bind_ok _ _ _ _ _ (load_ok _ _ _ E)). Qed.

Lemma getitem_ok h r f c s :
  h !! r = Some f → frame_getitem c f = Ok s → getitem r c h = (h, Ok s).
Proof.
  intros E G. unfold getitem.
  rewrite (bind_ok _ _ _ _ _ (load_ok _ _ _ E)). unfold lift. by rewrite G.
Qed.

Lemma getitem_mask_ok h r f b f' :
  h !! r = Some f → frame_getitem_mask b f = Ok f' →
  getitem_mask r b h = (h ++ [f'], Ok (length h)).
Proof.
  intros E G. unfold getitem_mask.
  rewrite (bind_ok _ _ _ _ _ (load_ok _ _ _ E)).
  by rewrite (bind_ok (lift (frame_getitem_mask b f)) _ h h f'); [|unfold lift; rewrite G].
Qed.

Lemma setitem_ok h r f c s f' :
  h !! r = Some f → frame_setitem c s f = Ok f' →
  setitem r c s h = (<[r := f']> h, Ok tt).
Proof.
  intros E S. unfold setitem.
  rewrite (bind_ok _ _ _ _ _ (load_ok _ _ _ E)).
  rewrite (bind_ok (lift (frame_setitem c s f)) _ h h f'); [|by unfold lift; rewrite S].
  by apply store_ok with f.
Qed.

End store.

(** [limpiarDatos] leaves its results where the value-level reading says. *)
Lemma limpiarDatos_value (h : heap) (r : loc) (raw d x : DataFrame) (y : Series) :
  h !! r = Some raw →
  clean_value raw = Ok (d, x, y) →
  ∃ h' ld lx,
    limpiarDatos r h = (h', Ok (ld, lx, y)) ∧
    h' !! ld = Some d ∧ h' !! lx = Some x ∧
    length h ≤ ld ∧ length h ≤ lx ∧ ld ≠ lx.
Proof.
  intros Hr. unfold clean_value.
  destruct (frame_drop ["ID"] _) as [f2|] eqn:E2; [|done]. simpl.
  destruct (frame_getitem "EDUCATION" (frame_dropna f2)) as [e3|] eqn:E3; [|done]. simpl.
  destruct (frame_getitem "MARRIAGE" (frame_dropna f2)) as [m3|] eqn:E4; [|done]. simpl.
  destruct (bool_and _ _) as [keep|] eqn:E5; [|done]. simpl.
  destruct (frame_getitem_mask keep _) as [f4|] eqn:E6; [|done]. simpl.
  destruct (frame_getitem "EDUCATION" f4) as [e4|] eqn:E7; [|done]. simpl.
  destruct (frame_setitem _ _ f4) as [f5|] eqn:E8; [|done]. simpl.
  destruct (frame_drop ["default"] f5) as [x'|] eqn:E9; [|done]. simpl.
  destruct (frame_getitem "default" f5) as [y'|] eqn:E10; [|done]. simpl.
  intros [= -> -> ->].
  unfold limpiarDatos.
  erewrite bind_ok; [|by apply copy_ok].
  erewrite bind_ok; [|apply rename_ok, lookup_snoc].
  erewrite bind_ok; [|eapply drop_ok; [apply lookup_snoc|exact E2]].
  erewrite bind_ok; [|apply dropna_ok, lookup_snoc].
  erewrite bind_ok; [|eapply getitem_ok; [apply lookup_snoc|exact E3]].
  erewrite bind_ok; [|eapply getitem_ok; [apply lookup_snoc|exact E4]].
  erewrite bind_ok; [|unfold lift; rewrite E5; reflexivity].
  erewrite bind_ok; [|eapply getitem_mask_ok; [apply lookup_snoc|exact E6]].
  erewrite bind_ok; [|eapply getitem_ok; [apply lookup_snoc|exact E7]].
  erewrite bind_ok; [|eapply setitem_ok; [apply lookup_snoc|exact E8]].
  set (h4 := ((((h ++ [raw]) ++ _) ++ _) ++ _)).
  assert (Hd : <[length h4 := d]> (h4 ++ [f4]) !! length h4 = Some d).
  { apply list_lookup_insert_eq. rewrite length_app. simpl. lia. }
  erewrite bind_ok; [|eapply drop_ok; [exact Hd|exact E9]].
  assert (Hd' : (<[length h4 := d]> (h4 ++ [f4]) ++ [x]) !! length h4 = Some d).
  { rewrite lookup_app_l; [done|]. rewrite length_insert, length_app. simpl. lia. }
  erewrite bind_ok; [|eapply getitem_ok; [exact Hd'|exact E10]].
  eexists _, _, _. split; [reflexivity|].
  split; [done|]. split; [apply lookup_snoc|].
  rewrite (length_insert (h4 ++ [f4])). unfold h4. rewrite !length_app. simpl. lia.
Qed.
(** ** Which objects a computation may touch *)

Section frames_kept.
Context (n : nat).

Lemma kept_ret {A} (Q : A → Prop) (a : A) : Q a → frames_kept n Q (mret a).
Proof. intros HQ h h' r Hn E. cbv [mret State_ret] in E. naive_solver. Qed.

Lemma kept_bind {A B} (Q : A → Prop) (Q' : B → Prop) (m : M A) (k : A → M B) :
  frames_kept n Q m → (∀ a, Q a → frames_kept n Q' (k a)) →
  frames_kept n Q' (m ≫= k).
Proof.
  intros Hm Hk h h' r Hn. unfold mbind, State_bind.
  destruct (m h) as [h1 [a|e]] eqn:E; intros E'.
  - destruct (Hm _ _ _ Hn E) as (T1 & L1 & Qa).
    destruct (Hk a (Qa a eq_refl) _ _ _ L1 E') as (T2 & L2 & Qb).
    split; [congruence|done].
  - destruct (Hm _ _ _ Hn E) as (T1 & L1 & _).
    injection E' as <- <-. done.
Qed.

Lemma kept_lift {A} (r : result A) : frames_kept n (λ _, True) (lift r).
Proof. intros h h' r' Hn [= <- <-]. done. Qed.

Lemma kept_load (l : loc) : frames_kept n (λ _, True) (load l).
Proof. intros h h' r Hn. unfold load. destruct (h !! l); intros [= <- <-]; done. Qed.

Lemma kept_alloc (f : DataFrame) : frames_kept n (λ l, n ≤ l) (alloc f).
Proof.
  intros h h' r Hn [= <- <-]. split; [by rewrite take_app_le|].
  split; [rewrite length_app; lia|]. by intros a [= <-].
Qed.

Lemma kept_store (l : loc) (f : DataFrame) :
  n ≤ l → frames_kept n (λ _, True) (store l f).
Proof.
  intros Hl h h' r Hn. unfold store.
  destruct (h !! l); intros [= <- <-]; [|done].
  split; [by rewrite take_insert_ge|]. by rewrite length_insert.
Qed.

Lemma kept_copy l : frames_kept n (λ l', n ≤ l') (copy l).
Proof. eapply kept_bind; [apply kept_load|]. intros f _. apply kept_alloc. Qed.

Lemma kept_rename l m : frames_kept n (λ l', n ≤ l') (rename l m).
Proof. eapply kept_bind; [apply kept_load|]. intros f _. apply kept_alloc. Qed.

Lemma kept_drop l cs : frames_kept n (λ l', n ≤ l') (drop l cs).
Proof.
  eapply kept_bind; [apply kept_load|]. intros f _.
  eapply kept_bind; [apply kept_lift|]. intros f' _. apply kept_alloc.
Qed.

Lemma kept_dropna l : frames_kept n (λ l', n ≤ l') (dropna l).
Proof. eapply kept_bind; [apply kept_load|]. intros f _. apply kept_alloc. Qed.

Lemma kept_getitem l c : frames_kept n (λ _, True) (getitem l c).
Proof. eapply kept_bind; [apply kept_load|]. intros f _. apply kept_lift. Qed.

Lemma kept_getitem_mask l b : frames_kept n (λ l', n ≤ l') (getitem_mask l b).
Proof.
  eapply kept_bind; [apply kept_load|]. intros f _.
  eapply kept_bind; [apply kept_lift|]. intros f' _. apply kept_alloc.
Qed.

Lemma kept_setitem l c s : n ≤ l → frames_kept n (λ _, True) (setitem l c s).
Proof.
  intros Hl. eapply kept_bind; [apply kept_load|]. intros f _.
  eapply kept_bind; [apply kept_lift|]. intros f' _. by apply kept_store.
Qed.

(** The item assignment in [limpiarDatos] lands on the object made by the
    row selection just before it, never on an object of the caller. *)
Lemma kept_limpiarDatos (r : loc) :
  frames_kept n (λ out, n ≤ out.1.1 ∧ n ≤ out.1.2) (limpiarDatos r).
Proof.
  unfold limpiarDatos.
  eapply kept_bind; [apply kept_copy|]. intros df1 _.
  eapply kept_bind; [apply kept_rename|]. intros df2 _.
  eapply kept_bind; [apply kept_drop|]. intros df3 _.
  eapply kept_bind; [apply kept_dropna|]. intros df4 _.
  eapply kept_bind; [apply kept_getitem|]. intros e _.
  eapply kept_bind; [apply kept_getitem|]. intros m _.
  eapply kept_bind; [apply kept_lift|]. intros keep _.
  eapply kept_bind; [apply kept_getitem_mask|]. intros df5 H5.
  eapply kept_bind; [apply kept_getitem|]. intros e' _.
  eapply kept_bind; [by apply kept_setitem|]. intros _ _.
  eapply kept_bind; [apply kept_drop|]. intros x Hx.
  eapply kept_bind; [apply kept_getitem|]. intros y _.
  by apply kept_ret.
Qed.

End frames_kept.

(** ** Masks *)

Section mask.
Context {A B : Type}.
Implicit Types (m : list bool) (l : list A).

Lemma mask_select_nil_r m : mask_select m (@nil A) = [].
Proof. by destruct m. Qed.

Lemma mask_select_filter (p : A → bool) l :
  mask_select (map p l) l = List.filter p l.
Proof. induction l as [|x l IH]; simpl; [done|]. rewrite IH. by destruct (p x). Qed.

Lemma mask_select_length m l (l' : list B) :
  length l = length m → length l' = length m →
  length (mask_select m l) = length (mask_select m l').
Proof.
  revert l l'. induction m as [|b m IH]; intros [|x l] [|x' l']; simpl; try done.
  intros [= Hl] [= Hl']. destruct b; simpl; auto.
Qed.

Lemma mask_select_sublist m l : mask_select m l `sublist_of` l.
Proof.
  revert l. induction m as [|b m IH]; intros [|x l]; simpl; try done.
  - apply sublist_nil_l.
  - destruct b; [by apply sublist_skip|by apply sublist_cons].
Qed.

End mask.

Lemma filter_sublist {A} (p : A → bool) (l : list A) : List.filter p l `sublist_of` l.
Proof.
  induction l as [|x l IH]; simpl; [done|].
  destruct (p x); [by apply sublist_skip|by apply sublist_cons].
Qed.

Lemma filter_map_comm {A B} (g : A → B) (p : B → bool) (q : A → bool) (l : list A) :
  (∀ a, p (g a) = q a) →
  List.filter p (map g l) = map g (List.filter q l).
Proof.
  intros E. induction l as [|a l IH]; simpl; [done|].
  rewrite E, IH. by destruct (q a).
Qed.

(** ** Reading frames by rows *)


Section rows.
Implicit Types (idx : list Z) (cols : list Column) (c : string).


Lemma all_length_tail n cols :
  all_length (S n) cols → all_length n (map column_tail cols).
Proof.
  unfold all_length. rewrite Forall_fmap. intros H. eapply Forall_impl; [exact H|].
  intros [nm dt [|x d]]; simpl; [done|]. by intros [= ->].
Qed.

Lemma rows_of_length idx cols : length (rows_of idx cols) = length idx.
Proof. revert cols. induction idx; intros; simpl; [done|]. by f_equal. Qed.

Lemma rows_of_labels idx cols : map label (rows_of idx cols) = idx.
Proof. revert cols. induction idx; intros; simpl; [done|]. by f_equal. Qed.

Lemma rows_of_keys idx cols r :
  r ∈ rows_of idx cols → map fst (fields r) = map cname cols.
Proof.
  revert cols. induction idx as [|l idx IH]; intros cols; simpl.
  - by intros ?%elem_of_nil.
  - intros [->|Hr]%elem_of_cons.
    + unfold fields. simpl. by rewrite map_map.
    + rewrite (IH _ Hr), map_map. done.
Qed.

(** Relabelling columns relabels the fields of every row. *)
Lemma rows_of_relabel (g : string → string) idx cols :
  rows_of idx (map (λ col, mkColumn (g (cname col)) (cdtype col) (cdata col)) cols)
  = map (Cleaner.on_fields (map (λ kv, (g (fst kv), snd kv)))) (rows_of idx cols).
Proof.
  revert cols. induction idx as [|l idx IH]; intros cols; simpl; [done|].
  f_equal.
  - unfold Cleaner.on_fields. simpl. by rewrite !map_map.
  - rewrite <- IH. f_equal. by rewrite !map_map.
Qed.

(** Dropping columns by label drops the fields of every row. *)
Lemma rows_of_filter (p : string → bool) idx cols :
  rows_of idx (List.filter (λ col, p (cname col)) cols)
  = map (Cleaner.on_fields (List.filter (λ kv, p (fst kv)))) (rows_of idx cols).
Proof.
  revert cols. induction idx as [|l idx IH]; intros cols; simpl; [done|].
  f_equal.
  - unfold Cleaner.on_fields. simpl. f_equal. symmetry. by apply filter_map_comm.
  - rewrite <- IH. f_equal. symmetry. by apply filter_map_comm.
Qed.


(** Selecting by a mask column-wise selects whole rows. *)
Lemma rows_of_select (m : list bool) idx cols :
  length m = length idx → all_length (length idx) cols →
  rows_of (mask_select m idx) (map (select_column m) cols)
  = mask_select m (rows_of idx cols).
Proof.
  revert idx cols. induction m as [|b m IH]; intros [|l idx] cols; try done.
  intros [= Hm] Hc.
  assert (Ht : map (select_column m) (map column_tail cols)
               = map column_tail (map (select_column (true :: m)) cols)
             ∧ map (select_column m) (map column_tail cols)
               = map (select_column (false :: m)) cols
             ∧ heads (map (select_column (true :: m)) cols) = heads cols).
  { rewrite !map_map. split_and!; apply Forall_fmap_ext_1;
      (eapply Forall_impl; [exact Hc|]); by intros [nm dt [|x d]]. }
  destruct Ht as (Ht1 & Ht2 & Ht3). apply all_length_tail in Hc.
  destruct b.
  - set (sc := map (select_column (true :: m)) cols) in *. simpl.
    rewrite Ht3, <- Ht1. f_equal. by apply IH.
  - set (sc := map (select_column (false :: m)) cols) in *. simpl.
    rewrite <- Ht2. by apply IH.
Qed.

(** The mask of [dropna] marks the rows without a missing field. *)
Lemma notna_mask_cons n cols :
  all_length (S n) cols →
  foldr (λ col acc, zip_with andb (map notna (cdata col)) acc)
        (replicate (S n) true) cols
  = forallb (λ kv, notna (snd kv)) (heads cols)
      :: foldr (λ col acc, zip_with andb (map notna (cdata col)) acc)
               (replicate n true) (map column_tail cols).
Proof.
  induction 1 as [|[nm dt [|x d]] cols Hx Hc IH]; simpl in *; try done.
  by rewrite IH.
Qed.

Lemma notna_mask_rows idx cols :
  all_length (length idx) cols →
  foldr (λ col acc, zip_with andb (map notna (cdata col)) acc)
        (replicate (length idx) true) cols
  = map Cleaner.complete (rows_of idx cols).
Proof.
  revert cols. induction idx as [|l idx IH]; intros cols Hc.
  - clear Hc. simpl. induction cols as [|col cols IHc]; simpl; [done|].
    rewrite IHc. by destruct (map notna (cdata col)).
  - change (length (l :: idx)) with (S (length idx)) in *.
    rewrite notna_mask_cons by done. simpl. f_equal. apply IH.
    by apply all_length_tail.
Qed.

End rows.

(** ** Columns looked up by label *)

Section by_label.
Implicit Types (idx : list Z) (cols : list Column) (c : string).


Lemma mem_string_spec c (l : list string) : mem_string c l = true ↔ c ∈ l.
Proof.
  unfold mem_string. rewrite existsb_exists, list_elem_of_In. split.
  - by intros (x & Hx & ->%String.eqb_eq).
  - intros Hc. exists c. by rewrite String.eqb_refl.
Qed.

Lemma labelled_none c cols :
  c ∉ map cname cols → List.filter (labelled c) cols = [].
Proof.
  induction cols as [|col cols IH]; simpl; [done|].
  rewrite not_elem_of_cons. intros [Hne Hc].
  destruct (String.eqb_spec (cname col) c); [done|auto].
Qed.

Lemma labelled_unique c cols :
  NoDup (map cname cols) → c ∈ map cname cols →
  ∃ col, List.filter (labelled c) cols = [col] ∧ cname col = c.
Proof.
  induction cols as [|col cols IH]; simpl.
  - by intros _ ?%elem_of_nil.
  - rewrite NoDup_cons. intros [Hn Hd] Hc.
    destruct (String.eqb_spec (cname col) c) as [<-|Hne].
    + exists col. by rewrite labelled_none.
    + apply elem_of_cons in Hc as [Hc|Hc]; [done|]. by apply IH.
Qed.

Lemma labelled_elem c cols col :
  List.filter (labelled c) cols = [col] → col ∈ cols ∧ cname col = c.
Proof.
  intros E. assert (H : In col (List.filter (labelled c) cols)) by (rewrite E; by left).
  apply filter_In in H as [H1 H2]. by rewrite list_elem_of_In, <- String.eqb_eq.
Qed.

Lemma frame_getitem_unique c f col :
  List.filter (labelled c) (columns f) = [col] →
  frame_getitem c f = Ok (mkSeries c (index f) (cdtype col) (cdata col)).
Proof. intros E. unfold frame_getitem. by rewrite E. Qed.

Lemma field_heads c cols col (l : Z) :
  List.filter (labelled c) cols = [col] →
  field c (l, heads cols) = head_cell (cdata col).
Proof.
  unfold field, fields. simpl. induction cols as [|col0 cols IH]; simpl; [done|].
  destruct (String.eqb (cname col0) c); [by intros [= ->]|done].
Qed.

(** The values of a uniquely labelled column are the fields of that label,
    row by row. *)
Lemma rows_of_column c idx cols col :
  List.filter (labelled c) cols = [col] →
  all_length (length idx) cols →
  map (field c) (rows_of idx cols) = cdata col.
Proof.
  revert cols col. induction idx as [|l idx IH]; intros cols col E Hc.
  - destruct (labelled_elem _ _ _ E) as [Hin _].
    unfold all_length in Hc. rewrite Forall_forall in Hc.
    specialize (Hc _ Hin). by destruct (cdata col).
  - simpl. rewrite (field_heads _ _ _ _ E).
    rewrite (IH _ (column_tail col)).
    + destruct (labelled_elem _ _ _ E) as [Hin _].
      unfold all_length in Hc. rewrite Forall_forall in Hc.
      specialize (Hc _ Hin). simpl. by destruct (cdata col).
    + rewrite (filter_map_comm column_tail _ (labelled c)) by done. by rewrite E.
    + by apply all_length_tail.
Qed.

(** Replacing the values of the columns labelled [c] replaces that field in
    every row. *)

Lemma rows_of_assign c (dt : dtype) (data : list cell) idx cols :
  length data = length idx →
  rows_of idx (map (λ col, if String.eqb (cname col) c
                           then mkColumn c dt data else col) cols)
  = zip_with (λ r v, Cleaner.on_fields (map (set_field c v)) r)
             (rows_of idx cols) data.
Proof.
  revert cols data. induction idx as [|l idx IH]; intros cols [|v data]; try done.
  intros [= Hl]. simpl. f_equal.
  - unfold Cleaner.on_fields. simpl. f_equal. rewrite !map_map.
    apply map_ext. intros col. unfold set_field. simpl.
    by destruct (String.eqb (cname col) c).
  - rewrite <- IH by done. f_equal. rewrite !map_map.
    apply map_ext. intros col. simpl. by destruct (String.eqb (cname col) c).
Qed.

Lemma find_unique_key (c : string) (kvs : list (string * cell)) kv :
  NoDup (map fst kvs) → kv ∈ kvs → fst kv = c →
  List.find (λ p, String.eqb (fst p) c) kvs = Some kv.
Proof.
  induction kvs as [|kv0 kvs IH]; simpl.
  - by intros _ ?%elem_of_nil.
  - rewrite NoDup_cons. intros [Hn Hd] [->|Hin]%elem_of_cons Hc.
    + by rewrite <- Hc, String.eqb_refl.
    + destruct (String.eqb_spec (fst kv0) c) as [E|_]; [|by apply IH].
      exfalso. apply Hn. rewrite E, <- Hc. by apply list_elem_of_fmap_2.
Qed.

(** With unique labels, writing [g] of the EDUCATION field back into that
    field is the per-field collapse of the specification. *)
Lemma set_field_collapse (r : row) :
  NoDup (map fst (fields r)) →
  Cleaner.on_fields
    (map (set_field "EDUCATION"
            ((λ x, if cell_ge x 4 then Some 4%Z else x) (field "EDUCATION" r)))) r
  = Cleaner.on_fields (map Cleaner.collapse_field) r.
Proof.
  intros Hn. unfold Cleaner.on_fields. f_equal.
  apply map_ext_in. intros kv Hin%list_elem_of_In.
  unfold set_field, Cleaner.collapse_field.
  destruct (String.eqb_spec (fst kv) "EDUCATION") as [E|_]; [|done].
  unfold field. rewrite (find_unique_key _ _ _ Hn Hin E), E.
  f_equal. by destruct (snd kv).
Qed.

End by_label.

(** ** Each frame operation, read on the table *)


Section operations.
Implicit Types (f : DataFrame) (c k : string).

Lemma rename_label_single old new n :
  rename_label [(old, new)] n = if String.eqb n old then new else n.
Proof. unfold rename_label. simpl. rewrite (String.eqb_sym old n). by destruct (String.eqb n old). Qed.

Lemma frame_rename_names m f :
  names (frame_rename m f) = map (rename_label m) (names f).
Proof. unfold names, frame_rename. simpl. by rewrite !map_map. Qed.

Lemma frame_rename_rect m f : rectangular f → rectangular (frame_rename m f).
Proof. unfold rectangular, frame_rename. simpl. by rewrite Forall_fmap. Qed.

Lemma frame_rename_table f :
  to_table (frame_rename [("default payment next month", "default")] f)
  = Cleaner.rename_label_column (to_table f).
Proof.
  unfold to_table, Cleaner.rename_label_column, frame_rows, frame_rename. simpl.
  f_equal.
  - rewrite !map_map. apply map_ext. intros col. unfold Cleaner.rename_key. simpl.
    by rewrite rename_label_single.
  - rewrite rows_of_relabel. apply map_ext. intros r.
    unfold Cleaner.on_fields. f_equal. apply map_ext. intros kv.
    unfold Cleaner.rename_key. by rewrite rename_label_single.
Qed.

Lemma renamed_NoDup old new (l : list string) :
  NoDup l → new ∉ l → NoDup (map (rename_label [(old, new)]) l).
Proof.
  intros Hd Hn. apply (NoDup_fmap_2_strong _ l); [|done].
  intros a b Ha Hb. rewrite !rename_label_single.
  destruct (String.eqb_spec a old), (String.eqb_spec b old); congruence.
Qed.

Lemma renamed_elem old new (l : list string) c :
  c ∈ l → c ≠ old → c ∈ map (rename_label [(old, new)]) l.
Proof.
  intros Hc Hne. apply list_elem_of_fmap. exists c. split; [|done].
  rewrite rename_label_single. by destruct (String.eqb_spec c old).
Qed.

Lemma renamed_target old new (l : list string) :
  old ∈ l → new ∈ map (rename_label [(old, new)]) l.
Proof.
  intros Hc. apply list_elem_of_fmap. exists old. split; [|done].
  by rewrite rename_label_single, String.eqb_refl.
Qed.

Lemma frame_drop_single k f :
  k ∈ names f → frame_drop [k] f = Ok (drop_column k f).
Proof.
  intros Hk%mem_string_spec. unfold frame_drop. simpl. rewrite Hk. simpl.
  unfold drop_column. do 2 f_equal. apply filter_ext. intros col.
  unfold mem_string. simpl. by rewrite orb_false_r.
Qed.

Lemma frame_drop_missing k f :
  k ∉ names f → frame_drop [k] f = Raise (KeyError k).
Proof.
  intros Hk. unfold frame_drop. simpl.
  destruct (mem_string k (names f)) eqn:E; [|done].
  by apply mem_string_spec in E.
Qed.

Lemma drop_column_names k f :
  names (drop_column k f) = List.filter (λ n, negb (String.eqb n k)) (names f).
Proof. unfold names, drop_column. simpl. symmetry. by apply filter_map_comm. Qed.

Lemma drop_column_elem k f c : c ∈ names f → c ≠ k → c ∈ names (drop_column k f).
Proof.
  intros Hc Hne. rewrite drop_column_names, list_elem_of_In, filter_In.
  rewrite <- list_elem_of_In. split; [done|]. by destruct (String.eqb_spec c k).
Qed.

Lemma drop_column_NoDup k f : NoDup (names f) → NoDup (names (drop_column k f)).
Proof. rewrite drop_column_names. intros H. eapply sublist_NoDup; [done|apply filter_sublist]. Qed.

Lemma drop_column_rect k f : rectangular f → rectangular (drop_column k f).
Proof.
  unfold rectangular, drop_column. simpl. rewrite !Forall_forall.
  intros H col Hin%list_elem_of_In%filter_In. apply H, list_elem_of_In, Hin.
Qed.

Lemma drop_column_table k f :
  to_table (drop_column k f)
  = mkTable (Cleaner.without_key k (theader (to_table f)))
            (map (Cleaner.on_fields (Cleaner.without_key k)) (trows (to_table f))).
Proof.
  unfold to_table, drop_column, frame_rows, Cleaner.without_key. simpl. f_equal.
  - symmetry. by apply filter_map_comm.
  - by rewrite (rows_of_filter (λ n, negb (String.eqb n k))).
Qed.

Lemma frame_select_names m f : names (frame_select m f) = names f.
Proof. unfold names, frame_select. simpl. by rewrite map_map. Qed.

Lemma frame_select_rect m f :
  rectangular f → length m = length (index f) → rectangular (frame_select m f).
Proof.
  unfold rectangular, frame_select. simpl. rewrite Forall_fmap.
  intros H Hm. eapply Forall_impl; [exact H|]. simpl.
  intros col Hc. apply mask_select_length; congruence.
Qed.

Lemma frame_select_table m f :
  rectangular f → length m = length (index f) →
  to_table (frame_select m f)
  = mkTable (theader (to_table f)) (mask_select m (trows (to_table f))).
Proof.
  intros Hr Hm. unfold to_table, frame_select, frame_rows. simpl. f_equal.
  - by rewrite map_map.
  - by apply rows_of_select.
Qed.

Lemma frame_rows_length f : length (frame_rows f) = length (index f).
Proof. apply rows_of_length. Qed.

Lemma rows_notna_rows f :
  rectangular f → rows_notna f = map Cleaner.complete (frame_rows f).
Proof. intros Hr. by apply notna_mask_rows. Qed.

Lemma frame_dropna_table f :
  rectangular f → to_table (frame_dropna f) = Cleaner.drop_missing (to_table f).
Proof.
  intros Hr. unfold frame_dropna. rewrite frame_select_table; [|done|].
  - unfold Cleaner.drop_missing. f_equal. simpl.
    by rewrite rows_notna_rows, mask_select_filter.
  - by rewrite rows_notna_rows, length_map, frame_rows_length.
Qed.

Lemma frame_dropna_rect f : rectangular f → rectangular (frame_dropna f).
Proof.
  intros Hr. apply frame_select_rect; [done|].
  by rewrite rows_notna_rows, length_map, frame_rows_length.
Qed.

Lemma frame_getitem_rows c f :
  rectangular f → NoDup (names f) → c ∈ names f →
  ∃ dt, frame_getitem c f
        = Ok (mkSeries c (index f) dt (map (field c) (frame_rows f))).
Proof.
  intros Hr Hd Hc. destruct (labelled_unique c _ Hd Hc) as (col & E & _).
  exists (cdtype col). rewrite (frame_getitem_unique _ _ _ E).
  unfold frame_rows. by rewrite (rows_of_column c (index f) (columns f) col).
Qed.

End operations.

(** ** The stages of [limpiarDatos] against the steps of the specification *)


Lemma zip_with_map_diag {A B C D} (h : B → C → D) (g1 : A → B) (g2 : A → C) (l : list A) :
  zip_with h (map g1 l) (map g2 l) = map (λ a, h (g1 a) (g2 a)) l.
Proof. induction l; simpl; [done|]. by f_equal. Qed.

Lemma zip_with_map_r {A B C} (h : A → B → C) (g : A → B) (l : list A) :
  zip_with h l (map g l) = map (λ a, h a (g a)) l.
Proof. induction l; simpl; [done|]. by f_equal. Qed.

Lemma result_bind_ok {A B} (a : A) (k : A → result B) : Ok a ≫= k = k a.
Proof. reflexivity. Qed.

Section stages.
Implicit Types (f : DataFrame).

Lemma stage_rename_drop raw :
  raw_dataset raw →
  ∃ f, frame_drop ["ID"]
         (frame_rename [("default payment next month", "default")] raw) = Ok f
       ∧ ready f
       ∧ to_table f
         = Cleaner.drop_identifier (Cleaner.rename_label_column (to_table raw)).
Proof.
  intros (Hr & Hd & HID & HE & HM & HL & Hfree).
  set (f1 := frame_rename _ raw).
  assert (Hn1 : names f1 = map (rename_label [("default payment next month", "default")]) (names raw))
    by apply frame_rename_names.
  exists (drop_column "ID" f1). unfold ready. split_and!.
  - apply frame_drop_single. rewrite Hn1. by apply renamed_elem.
  - by apply drop_column_rect, frame_rename_rect.
  - apply drop_column_NoDup. rewrite Hn1. by apply renamed_NoDup.
  - apply drop_column_elem; [|done]. rewrite Hn1. by apply renamed_elem.
  - apply drop_column_elem; [|done]. rewrite Hn1. by apply renamed_elem.
  - apply drop_column_elem; [|done]. rewrite Hn1. by apply renamed_target.
  - rewrite drop_column_table. unfold f1. by rewrite frame_rename_table.
Qed.

Lemma stage_dropna f :
  ready f →
  ready (frame_dropna f)
  ∧ to_table (frame_dropna f) = Cleaner.drop_missing (to_table f).
Proof.
  intros (Hr & Hd & HE & HM & HL). split; [|by apply frame_dropna_table].
  unfold ready, frame_dropna. rewrite frame_select_names.
  split_and!; try done. by apply frame_dropna_rect.
Qed.

Lemma stage_select f :
  ready f →
  ∃ e m keep f',
    frame_getitem "EDUCATION" f = Ok e ∧
    frame_getitem "MARRIAGE" f = Ok m ∧
    bool_and (series_ne e 0) (series_ne m 0) = Ok keep ∧
    frame_getitem_mask keep f = Ok f' ∧
    ready f' ∧ to_table f' = Cleaner.drop_unavailable (to_table f).
Proof.
  intros (Hr & Hd & HE & HM & HL).
  destruct (frame_getitem_rows "EDUCATION" f Hr Hd HE) as [dte Ee].
  destruct (frame_getitem_rows "MARRIAGE" f Hr Hd HM) as [dtm Em].
  set (mask := map Cleaner.available (frame_rows f)).
  assert (Hlen : length mask = length (index f))
    by (unfold mask; by rewrite length_map, frame_rows_length).
  eexists _, _, (mkBool (index f) mask), (frame_select mask f).
  split; [exact Ee|]. split; [exact Em|]. unfold ready. split_and!.
  - unfold bool_and, series_ne. simpl. rewrite decide_True by done.
    do 2 f_equal. rewrite !map_map. apply zip_with_map_diag.
  - unfold frame_getitem_mask. simpl. by rewrite !decide_True.
  - by apply frame_select_rect.
  - by rewrite frame_select_names.
  - by rewrite frame_select_names.
  - by rewrite frame_select_names.
  - by rewrite frame_select_names.
  - rewrite frame_select_table by done. unfold Cleaner.drop_unavailable.
    f_equal. unfold mask. simpl. apply mask_select_filter.
Qed.

Lemma stage_collapse f :
  ready f →
  ∃ e f',
    frame_getitem "EDUCATION" f = Ok e ∧
    frame_setitem "EDUCATION"
      (series_astype_category
         (series_apply (λ x, if cell_ge x 4 then Some 4%Z else x) e)) f = Ok f' ∧
    ready f' ∧ to_table f' = Cleaner.collapse_education (to_table f).
Proof.
  intros (Hr & Hd & HE & HM & HL).
  destruct (frame_getitem_rows "EDUCATION" f Hr Hd HE) as [dte Ee].
  set (g := λ x : cell, if cell_ge x 4 then Some 4%Z else x).
  set (data := map g (map (field "EDUCATION") (frame_rows f))).
  set (f' := mkFrame (index f)
               (map (λ col, if String.eqb (cname col) "EDUCATION"
                            then mkColumn "EDUCATION" Category data else col)
                    (columns f))).
  assert (Hlen : length data = length (index f))
    by (unfold data; by rewrite !length_map, frame_rows_length).
  assert (Hn : names f' = names f).
  { unfold names, f'. simpl. rewrite map_map. apply map_ext. intros col.
    by destruct (String.eqb_spec (cname col) "EDUCATION"). }
  eexists _, f'. split; [exact Ee|]. unfold ready. split_and!.
  - unfold frame_setitem. simpl. rewrite !decide_True by done.
    apply mem_string_spec in HE. by rewrite HE.
  - unfold rectangular, f'. simpl. rewrite Forall_fmap.
    eapply Forall_impl; [exact Hr|]. simpl. intros col Hc.
    by destruct (String.eqb (cname col) "EDUCATION").
  - by rewrite Hn.
  - by rewrite Hn.
  - by rewrite Hn.
  - by rewrite Hn.
  - unfold to_table, Cleaner.collapse_education, frame_rows, f'. simpl. f_equal.
    + rewrite !map_map. apply map_ext. intros col.
      unfold Cleaner.mark_categorical. simpl.
      by destruct (String.eqb_spec (cname col) "EDUCATION") as [->|].
    + rewrite rows_of_assign by done. unfold data. rewrite map_map.
      rewrite zip_with_map_r. apply map_ext_in. intros r Hin%list_elem_of_In.
      apply set_field_collapse. by rewrite (rows_of_keys _ _ _ Hin).
Qed.

Lemma stage_split f :
  ready f →
  ∃ x y,
    frame_drop ["default"] f = Ok x ∧ frame_getitem "default" f = Ok y ∧
    to_table x = Cleaner.features (to_table f) ∧
    series_rows y = Cleaner.labels (to_table f) ∧
    rectangular x ∧ index x = index f ∧
    sindex y = index f ∧ length (sdata y) = length (index f).
Proof.
  intros (Hr & Hd & HE & HM & HL).
  destruct (frame_getitem_rows "default" f Hr Hd HL) as [dt Ey].
  eexists _, _. split; [by apply frame_drop_single|]. split; [exact Ey|].
  split; [apply drop_column_table|]. split_and!.
  - unfold series_rows, Cleaner.labels. simpl.
    rewrite <- (rows_of_labels (index f) (columns f)) at 1.
    apply (zip_with_map_diag pair).
  - by apply drop_column_rect.
  - done.
  - done.
  - simpl. by rewrite length_map, frame_rows_length.
Qed.

End stages.

(** The value-level reading succeeds on a raw dataset, and its three
    results are the three results of the specification's six steps. *)
Lemma clean_value_table (raw : DataFrame) :
  raw_dataset raw →
  ∃ d x y,
    clean_value raw = Ok (d, x, y) ∧
    (to_table d, to_table x, series_rows y) = Cleaner.clean (to_table raw) ∧
    rectangular d ∧ rectangular x ∧ index x = index d ∧
    sindex y = index d ∧ length (sdata y) = length (index d).
Proof.
  intros Hraw.
  destruct (stage_rename_drop raw Hraw) as (f2 & E2 & R2 & T2).
  destruct (stage_dropna f2 R2) as (R3 & T3).
  destruct (stage_select _ R3) as (e & m & keep & f4 & Ee & Em & Ek & E4 & R4 & T4).
  destruct (stage_collapse _ R4) as (e' & f5 & Ee' & E5 & R5 & T5).
  destruct (stage_split _ R5) as (x & y & Ex & Ey & Tx & Ty & Rx & Ix & Iy & Ly).
  exists f5, x, y. split_and!; try done.
  - unfold clean_value.
    rewrite E2, result_bind_ok, Ee, result_bind_ok, Em, result_bind_ok.
    rewrite Ek, result_bind_ok, E4, result_bind_ok, Ee', result_bind_ok.
    by rewrite E5, result_bind_ok, Ex, result_bind_ok, Ey, result_bind_ok.
  - unfold Cleaner.clean. by rewrite Tx, Ty, T5, T4, T3, T2.
  - apply R5.
Qed.

(** On a raw dataset [limpiarDatos] returns, and what it returns reads as
    the specification's result. *)
Lemma limpiarDatos_table (h : heap) (r : loc) (raw : DataFrame) :
  h !! r = Some raw → raw_dataset raw →
  ∃ h' ld lx d x y,
    limpiarDatos r h = (h', Ok (ld, lx, y)) ∧
    h' !! ld = Some d ∧ h' !! lx = Some x ∧
    (to_table d, to_table x, series_rows y) = Cleaner.clean (to_table raw) ∧
    rectangular d ∧ rectangular x ∧ index x = index d ∧
    sindex y = index d ∧ length (sdata y) = length (index d).
Proof.
  intros Hr Hraw.
  destruct (clean_value_table raw Hraw) as (d & x & y & Ev & Ht & Hrest).
  destruct (limpiarDatos_value h r raw d x y Hr Ev) as (h' & ld & lx & Hrun & Hd & Hx & _).
  by exists h', ld, lx, d, x, y.
Qed.

(** ** The specification's steps, row by row *)

Section cleaner_rows.
Import Cleaner.
Implicit Types (r : row) (t : Table) (c k : string).

Lemma filter_filter_andb {A} (p q : A → bool) (l : list A) :
  List.filter q (List.filter p l) = List.filter (λ a, p a && q a) l.
Proof.
  induction l as [|a l IH]; simpl; [done|].
  destruct (p a); simpl; [|done]. rewrite IH. by destruct (q a).
Qed.

Lemma clean_rows t :
  trows (clean t).1.1 = map cleaned (List.filter survives (trows t)).
Proof.
  unfold clean, collapse_education, drop_unavailable, drop_missing,
    drop_identifier, rename_label_column. simpl.
  rewrite filter_filter_andb, map_map.
  rewrite (filter_map_comm _ _ survives) by done.
  by rewrite map_map.
Qed.

Lemma clean_features_rows t :
  trows (clean t).1.2 = map (on_fields (without_key "default")) (trows (clean t).1.1).
Proof. reflexivity. Qed.

Lemma clean_labels t :
  (clean t).2 = map (λ r, (label r, field "default" r)) (trows (clean t).1.1).
Proof. reflexivity. Qed.

Lemma field_without_key c k r :
  c ≠ k → field c (on_fields (without_key k) r) = field c r.
Proof.
  intros Hne. unfold field, on_fields, fields, without_key. simpl.
  induction (snd r) as [|kv kvs IH]; simpl; [done|].
  destruct (String.eqb_spec (fst kv) k) as [E|E]; simpl.
  - destruct (String.eqb_spec (fst kv) c); [congruence|done].
  - by destruct (String.eqb (fst kv) c).
Qed.

Lemma field_rename_key c old new r :
  c ≠ old → c ≠ new →
  field c (on_fields (map (rename_key old new)) r) = field c r.
Proof.
  intros Ho Hn. unfold field, on_fields, fields, rename_key. simpl.
  induction (snd r) as [|kv kvs IH]; simpl; [done|].
  destruct (String.eqb_spec (fst kv) old) as [E|E].
  - destruct (String.eqb_spec new c); [congruence|].
    destruct (String.eqb_spec (fst kv) c); [congruence|done].
  - by destruct (String.eqb (fst kv) c).
Qed.

Lemma field_recoded_education r :
  field "EDUCATION" (recoded r) = collapse (field "EDUCATION" r).
Proof.
  unfold field, recoded, on_fields, fields, collapse_field. simpl.
  induction (snd r) as [|kv kvs IH]; simpl; [done|].
  destruct (String.eqb_spec (fst kv) "EDUCATION") as [E|E]; simpl.
  - by rewrite E.
  - by destruct (String.eqb_spec (fst kv) "EDUCATION").
Qed.

Lemma field_recoded_other c r :
  c ≠ "EDUCATION" → field c (recoded r) = field c r.
Proof.
  intros Hne. unfold field, recoded, on_fields, fields, collapse_field. simpl.
  induction (snd r) as [|kv kvs IH]; simpl; [done|].
  destruct (String.eqb_spec (fst kv) "EDUCATION") as [E|E]; simpl.
  - destruct (String.eqb_spec (fst kv) c); [congruence|done].
  - by destruct (String.eqb (fst kv) c).
Qed.

Lemma field_prepared c r :
  c ≠ "ID" → c ≠ "default payment next month" → c ≠ "default" →
  field c (prepared r) = field c r.
Proof.
  intros. unfold prepared.
  by rewrite field_without_key, field_rename_key.
Qed.

Lemma label_cleaned r : label (cleaned r) = label r.
Proof. reflexivity. Qed.

Lemma collapse_zero x : collapse x = Some 0%Z → x = Some 0%Z.
Proof.
  destruct x as [v|]; simpl; [|done].
  destruct (Z.leb_spec 4 v); intros [= ]; by subst.
Qed.

Lemma survives_available r :
  survives r = true →
  field "EDUCATION" r ≠ Some 0%Z ∧ field "MARRIAGE" r ≠ Some 0%Z.
Proof.
  unfold survives, available.
  rewrite !field_prepared by done.
  intros [_ [HE HM]%andb_prop]%andb_prop.
  split; intros E; [rewrite E in HE|rewrite E in HM]; done.
Qed.

End cleaner_rows.

(** * The Data Cleaner *)

Lemma triple_inv {A B C} (a a' : A) (b b' : B) (c c' : C) :
  (a, b, c) = (a', b', c') → a = a' ∧ b = b' ∧ c = c'.
Proof. by intros [= -> -> ->]. Qed.

Lemma clean_results_inv (td tx : Table) (ly : list (Z * cell)) (t : Table) :
  (td, tx, ly) = Cleaner.clean t →
  td = (Cleaner.clean t).1.1 ∧ tx = (Cleaner.clean t).1.2 ∧ ly = (Cleaner.clean t).2.
Proof. by intros <-. Qed.

(** C1. On every raw dataset with the expected columns, [limpiarDatos]
    returns the cleaned frame, X and y, and they are what the six steps of
    the specification give when applied in the stated order: rename the
    label column, drop the identifier, drop rows with a missing value, drop
    rows with education or marital status 0, collapse education codes from
    4 upwards into 4 and mark the column categorical, split off X and y. *)
Theorem limpiarDatos_steps_in_order (h : heap) (r : loc) (raw : DataFrame) :
  h !! r = Some raw → raw_dataset raw →
  ∃ h' ld lx d x y,
    limpiarDatos r h = (h', Ok (ld, lx, y)) ∧
    h' !! ld = Some d ∧ h' !! lx = Some x ∧
    let t1 := Cleaner.rename_label_column (to_table raw) in
    let t2 := Cleaner.drop_identifier t1 in
    let t3 := Cleaner.drop_missing t2 in
    let t4 := Cleaner.drop_unavailable t3 in
    let t5 := Cleaner.collapse_education t4 in
    to_table d = t5 ∧ to_table x = Cleaner.features t5 ∧
    series_rows y = Cleaner.labels t5.
Proof.
  intros Hr Hraw.
  destruct (limpiarDatos_table h r raw Hr Hraw)
    as (h' & ld & lx & d & x & y & Hrun & Hd & Hx & Ht & _).
  apply triple_inv in Ht as (Td & Tx & Ty).
  exists h', ld, lx, d, x, y. do 3 (split; [done|]). by cbv zeta.
Qed.

Lemma limpiarDatos_steps_in_order_witness :
  ([sample_raw] !! 0 = Some sample_raw ∧ raw_dataset sample_raw) ∧
  ∃ h' ld lx d x y,
    limpiarDatos 0 [sample_raw] = (h', Ok (ld, lx, y)) ∧
    h' !! ld = Some d ∧ h' !! lx = Some x ∧
    let t1 := Cleaner.rename_label_column (to_table sample_raw) in
    let t2 := Cleaner.drop_identifier t1 in
    let t3 := Cleaner.drop_missing t2 in
    let t4 := Cleaner.drop_unavailable t3 in
    let t5 := Cleaner.collapse_education t4 in
    to_table d = t5 ∧ to_table x = Cleaner.features t5 ∧
    series_rows y = Cleaner.labels t5.
Proof.
  assert (H : raw_dataset sample_raw)
    by (apply (bool_decide_unpack _); vm_compute; reflexivity).
  split; [split; [reflexivity|exact H]|].
  apply (limpiarDatos_steps_in_order [sample_raw] 0 sample_raw); [reflexivity|exact H].
Defined.



(** The rows of the cleaned frame are the cleaned surviving input rows, in
    input order; X holds the same rows without the label field, y their
    label field. *)
Lemma limpiarDatos_rows (h : heap) (r : loc) (raw : DataFrame) :
  h !! r = Some raw → raw_dataset raw →
  ∃ h' ld lx d x y,
    limpiarDatos r h = (h', Ok (ld, lx, y)) ∧
    h' !! ld = Some d ∧ h' !! lx = Some x ∧
    frame_rows d = map Cleaner.cleaned (List.filter Cleaner.survives (frame_rows raw)) ∧
    frame_rows x = map (Cleaner.on_fields (Cleaner.without_key "default")) (frame_rows d) ∧
    series_rows y = map (λ row, (label row, field "default" row)) (frame_rows d) ∧
    rectangular d ∧ rectangular x ∧ index x = index d ∧
    sindex y = index d ∧ length (sdata y) = length (index d).
Proof.
  intros Hr Hraw.
  destruct (limpiarDatos_table h r raw Hr Hraw)
    as (h' & ld & lx & d & x & y & Hrun & Hd & Hx & Ht & Hrest).
  apply clean_results_inv in Ht as (Td & Tx & Ty).
  exists h', ld, lx, d, x, y. do 3 (split; [done|]).
  change (frame_rows d) with (trows (to_table d)).
  change (frame_rows x) with (trows (to_table x)).
  rewrite Td, Tx, Ty. split; [apply clean_rows|]. done.
Qed.

(** C3. In the cleaned output the education code of a surviving row is 4
    when the input code was 4 or more, and the input code itself when that
    was 1, 2 or 3; X carries the same value. *)
Theorem limpiarDatos_collapses_education (h : heap) (r : loc) (raw : DataFrame) :
  h !! r = Some raw → raw_dataset raw →
  ∃ h' ld lx d x y,
    limpiarDatos r h = (h', Ok (ld, lx, y)) ∧
    h' !! ld = Some d ∧ h' !! lx = Some x ∧
    let kept := List.filter Cleaner.survives (frame_rows raw) in
    length (frame_rows d) = length kept ∧
    length (frame_rows x) = length kept ∧
    ∀ i row, kept !! i = Some row →
      ∃ out out',
        frame_rows d !! i = Some out ∧ frame_rows x !! i = Some out' ∧
        label out = label row ∧ label out' = label row ∧
        field "EDUCATION" out' = field "EDUCATION" out ∧
        (∀ e, field "EDUCATION" row = Some e → (4 ≤ e)%Z →
              field "EDUCATION" out = Some 4%Z) ∧
        (∀ e, field "EDUCATION" row = Some e → (1 ≤ e ≤ 3)%Z →
              field "EDUCATION" out = Some e).
Proof.
  intros Hr Hraw.
  destruct (limpiarDatos_rows h r raw Hr Hraw)
    as (h' & ld & lx & d & x & y & Hrun & Hd & Hx & Rd & Rx & _).
  exists h', ld, lx, d, x, y. do 3 (split; [done|]). cbv zeta.
  rewrite Rx, Rd. rewrite !length_map. do 2 (split; [done|]).
  intros i row Hi.
  exists (Cleaner.cleaned row),
    (Cleaner.on_fields (Cleaner.without_key "default") (Cleaner.cleaned row)).
  assert (HE : field "EDUCATION" (Cleaner.cleaned row)
               = Cleaner.collapse (field "EDUCATION" row)).
  { unfold Cleaner.cleaned. by rewrite field_recoded_education, field_prepared. }
  split_and!.
  - change (map Cleaner.cleaned ?l) with (Cleaner.cleaned <$> l).
    by rewrite list_lookup_fmap, Hi.
  - change (map ?g (map Cleaner.cleaned ?l)) with (g <$> (Cleaner.cleaned <$> l)).
    by rewrite !list_lookup_fmap, Hi.
  - done.
  - done.
  - by rewrite field_without_key.
  - intros e He Hge. rewrite HE, He. simpl.
    by destruct (Z.leb_spec 4 e); [|lia].
  - intros e He Hin. rewrite HE, He. simpl.
    by destruct (Z.leb_spec 4 e); [lia|].
Qed.

Lemma limpiarDatos_collapses_education_witness :
  ([sample_raw] !! 0 = Some sample_raw ∧ raw_dataset sample_raw) ∧
  ∃ h' ld lx d x y,
    limpiarDatos 0 [sample_raw] = (h', Ok (ld, lx, y)) ∧
    h' !! ld = Some d ∧ h' !! lx = Some x ∧
    let kept := List.filter Cleaner.survives (frame_rows sample_raw) in
    length (frame_rows d) = length kept ∧
    length (frame_rows x) = length kept ∧
    ∀ i row, kept !! i = Some row →
      ∃ out out',
        frame_rows d !! i = Some out ∧ frame_rows x !! i = Some out' ∧
        label out = label row ∧ label out' = label row ∧
        field "EDUCATION" out' = field "EDUCATION" out ∧
        (∀ e, field "EDUCATION" row = Some e → (4 ≤ e)%Z →
              field "EDUCATION" out = Some 4%Z) ∧
        (∀ e, field "EDUCATION" row = Some e → (1 ≤ e ≤ 3)%Z →
              field "EDUCATION" out = Some e).
Proof.
  assert (H : raw_dataset sample_raw)
    by (apply (bool_decide_unpack _); vm_compute; reflexivity).
  split; [split; [reflexivity|exact H]|].
  apply (limpiarDatos_collapses_education [sample_raw] 0 sample_raw); [reflexivity|exact H].
Defined.

(** C4. The cleaned frame, X and y have the same number of rows and the
    same index; every column of the cleaned frame and of X has that many
    entries; the surviving rows keep their input order; and row by row X is
    the cleaned row without its label and y is its label. *)
Theorem limpiarDatos_rows_aligned (h : heap) (r : loc) (raw : DataFrame) :
  h !! r = Some raw → raw_dataset raw →
  ∃ h' ld lx d x y,
    limpiarDatos r h = (h', Ok (ld, lx, y)) ∧
    h' !! ld = Some d ∧ h' !! lx = Some x ∧
    nrows x = nrows d ∧ series_length y = nrows d ∧
    length (sdata y) = nrows d ∧
    rectangular d ∧ rectangular x ∧
    index x = index d ∧ sindex y = index d ∧
    index d `sublist_of` index raw ∧
    (∃ kept, kept `sublist_of` frame_rows raw ∧
             frame_rows d = map Cleaner.cleaned kept) ∧
    frame_rows x
      = map (Cleaner.on_fields (Cleaner.without_key "default")) (frame_rows d) ∧
    series_rows y = map (λ row, (label row, field "default" row)) (frame_rows d).
Proof.
  intros Hr Hraw.
  destruct (limpiarDatos_rows h r raw Hr Hraw)
    as (h' & ld & lx & d & x & y & Hrun & Hd & Hx & Rd & Rx & Ry
        & Rectd & Rectx & Ix & Iy & Ly).
  exists h', ld, lx, d, x, y. do 3 (split; [done|]).
  unfold nrows, series_length. rewrite Ix, Iy. split_and!; try done.
  - rewrite <- (rows_of_labels (index d) (columns d)).
    rewrite <- (rows_of_labels (index raw) (columns raw)).
    fold (frame_rows d). fold (frame_rows raw). rewrite Rd, map_map.
    rewrite (map_ext _ label) by done.
    apply (fmap_sublist label), filter_sublist.
  - eexists. split; [apply filter_sublist|done].
Qed.

Lemma limpiarDatos_rows_aligned_witness :
  ([sample_raw] !! 0 = Some sample_raw ∧ raw_dataset sample_raw) ∧
  ∃ h' ld lx d x y,
    limpiarDatos 0 [sample_raw] = (h', Ok (ld, lx, y)) ∧
    h' !! ld = Some d ∧ h' !! lx = Some x ∧
    nrows x = nrows d ∧ series_length y = nrows d ∧
    length (sdata y) = nrows d ∧
    rectangular d ∧ rectangular x ∧
    index x = index d ∧ sindex y = index d ∧
    index d `sublist_of` index sample_raw ∧
    (∃ kept, kept `sublist_of` frame_rows sample_raw ∧
             frame_rows d = map Cleaner.cleaned kept) ∧
    frame_rows x
      = map (Cleaner.on_fields (Cleaner.without_key "default")) (frame_rows d) ∧
    series_rows y = map (λ row, (label row, field "default" row)) (frame_rows d).
Proof.
  assert (H : raw_dataset sample_raw)
    by (apply (bool_decide_unpack _); vm_compute; reflexivity).
  split; [split; [reflexivity|exact H]|].
  apply (limpiarDatos_rows_aligned [sample_raw] 0 sample_raw); [reflexivity|exact H].
Defined.

(** C9. [limpiarDatos] never writes to an object of its caller: after the
    call, failed or not, every frame the caller held is what it was, the
    input among them.  It works on a copy, which it makes first and which
    still equals the input at the end, and the frames it returns are new
    objects. *)
Theorem limpiarDatos_leaves_input (h : heap) (r : loc) (raw : DataFrame) :
  h !! r = Some raw →
  (limpiarDatos r h).1 !! r = Some raw ∧
  (∀ l f, h !! l = Some f → (limpiarDatos r h).1 !! l = Some f) ∧
  (limpiarDatos r h).1 !! length h = Some raw ∧
  (∀ ld lx y, (limpiarDatos r h).2 = Ok (ld, lx, y) →
     h !! ld = None ∧ h !! lx = None ∧ ld ≠ r ∧ lx ≠ r).
Proof.
  intros Hr.
  assert (Hcopy : (limpiarDatos r h).1 !! length h = Some raw).
  { unfold limpiarDatos. erewrite bind_ok; [|by apply copy_ok].
    match goal with
    | |- (?m (h ++ [raw])).1 !! _ = _ =>
        assert (K : frames_kept (S (length h)) (λ _, True) m)
    end.
    { eapply kept_bind; [apply kept_rename|]. intros df2 _.
      eapply kept_bind; [apply kept_drop|]. intros df3 _.
      eapply kept_bind; [apply kept_dropna|]. intros df4 _.
      eapply kept_bind; [apply kept_getitem|]. intros e _.
      eapply kept_bind; [apply kept_getitem|]. intros m _.
      eapply kept_bind; [apply kept_lift|]. intros keep _.
      eapply kept_bind; [apply kept_getitem_mask|]. intros df5 H5.
      eapply kept_bind; [apply kept_getitem|]. intros e' _.
      eapply kept_bind; [by apply kept_setitem|]. intros _ _.
      eapply kept_bind; [apply kept_drop|]. intros x _.
      eapply kept_bind; [apply kept_getitem|]. intros y _.
      by apply kept_ret. }
    match goal with
    | |- (?m (h ++ [raw])).1 !! _ = _ => destruct (m (h ++ [raw])) as [h' res] eqn:E
    end.
    destruct (K (h ++ [raw]) h' res) as (Ht & _); [rewrite length_app; simpl; lia|done|].
    simpl. rewrite <- (lookup_take_lt h' (S (length h))) by lia.
    rewrite Ht, lookup_take_lt by lia. apply lookup_snoc. }
  destruct (limpiarDatos r h) as [h' res] eqn:E.
  destruct (kept_limpiarDatos (length h) r h h' res (le_n _) E) as (Ht & Hl & HQ).
  rewrite firstn_all in Ht. simpl in *.
  assert (Hkeep : ∀ l f, h !! l = Some f → h' !! l = Some f).
  { intros l f Hlf. rewrite <- Ht in Hlf. by apply lookup_take_Some in Hlf as [? _]. }
  split; [by apply Hkeep|]. split; [done|]. split; [done|].
  intros ld lx y ->. destruct (HQ _ eq_refl) as [H1 H2]. simpl in *.
  apply lookup_lt_Some in Hr.
  split_and!; try (apply lookup_ge_None; lia); lia.
Qed.

Lemma limpiarDatos_leaves_input_witness :
  [sample_raw] !! 0 = Some sample_raw ∧
  (limpiarDatos 0 [sample_raw]).1 !! 0 = Some sample_raw ∧
  (∀ l f, [sample_raw] !! l = Some f → (limpiarDatos 0 [sample_raw]).1 !! l = Some f) ∧
  (limpiarDatos 0 [sample_raw]).1 !! length [sample_raw] = Some sample_raw ∧
  (∀ ld lx y, (limpiarDatos 0 [sample_raw]).2 = Ok (ld, lx, y) →
     [sample_raw] !! ld = None ∧ [sample_raw] !! lx = None ∧ ld ≠ 0 ∧ lx ≠ 0).
Proof.
  split; [reflexivity|].
  apply (limpiarDatos_leaves_input [sample_raw] 0 sample_raw). reflexivity.
Defined.

(** * The Metrics Reporter *)

Section counts.
Implicit Types (y p l : list Z) (v t q : Z).

Lemma count_none v l : v ∉ l → count v l = 0.
Proof.
  unfold count. induction l as [|a l IH]; simpl; [done|].
  rewrite not_elem_of_cons. intros [Hne Hl].
  destruct (Z.eqb_spec a v); [congruence|auto].
Qed.

Lemma count_pairs_le_pred t q y p : count_pairs t q y p ≤ count q p.
Proof.
  unfold count_pairs, count. revert p.
  induction y as [|a y IH]; intros [|b p]; simpl; try lia.
  specialize (IH p).
  destruct (a =? t)%Z, (b =? q)%Z; simpl; lia.
Qed.

Lemma count_pairs_le_true t q y p : count_pairs t q y p ≤ count t y.
Proof.
  unfold count_pairs, count. revert p.
  induction y as [|a y IH]; intros [|b p]; simpl; try lia.
  specialize (IH p). destruct (a =? t)%Z, (b =? q)%Z; simpl; lia.
Qed.

(** On 0/1 labels the four cells partition the samples. *)
Lemma count_pairs_total y p :
  length y = length p →
  Forall (λ v, v = 0%Z ∨ v = 1%Z) y → Forall (λ v, v = 0%Z ∨ v = 1%Z) p →
  count_pairs 0 0 y p + count_pairs 0 1 y p
  + count_pairs 1 0 y p + count_pairs 1 1 y p = length y.
Proof.
  unfold count_pairs. revert p.
  induction y as [|a y IH]; intros [|b p]; simpl; try done.
  intros [= Hl] [Ha Hy]%Forall_cons [Hb Hp]%Forall_cons.
  specialize (IH p Hl Hy Hp).
  destruct Ha as [->| ->], Hb as [->| ->]; simpl; lia.
Qed.

(** The distinct values of a 0/1 list. *)
Lemma unique_binary l :
  Forall (λ v, v = 0%Z ∨ v = 1%Z) l →
  unique l = (if decide (0%Z ∈ l) then [0%Z] else [])
             ++ (if decide (1%Z ∈ l) then [1%Z] else []).
Proof.
  induction 1 as [|a l Ha Hl IH]; simpl; [done|].
  rewrite IH. clear IH.
  destruct Ha as [->| ->];
    repeat case_decide; simpl; try done;
    repeat match goal with
           | H : _ ∈ _ :: _ |- _ => apply elem_of_cons in H as [?|?]; try done
           | H : _ ∉ _ :: _ |- _ => apply not_elem_of_cons in H as [? ?]; try done
           end.
Qed.

Lemma values_binary (cs : list cell) :
  Forall (λ c, c = Some 0%Z ∨ c = Some 1%Z) cs →
  ∃ y, values cs = Ok y ∧ cs = map Some y ∧ Forall (λ v, v = 0%Z ∨ v = 1%Z) y.
Proof.
  induction 1 as [|c cs Hc Hcs (y & E & -> & Hy)]; simpl.
  - by exists [].
  - destruct Hc as [->| ->]; rewrite E; simpl.
    + exists (0%Z :: y). split_and!; try done. constructor; auto.
    + exists (1%Z :: y). split_and!; try done. constructor; auto.
Qed.

End counts.

Lemma ratio_zero (b : nat) : ratio 0 b = 0%Qc.
Proof. apply Qc_is_canon. reflexivity. Qed.

Lemma prf_divide_zero (den : nat) : prf_divide 0 den 0 = FNum 0%Qc.
Proof. unfold prf_divide. destruct (den =? 0)%nat; [done|]. by rewrite ratio_zero. Qed.

(** What the checks of the metrics make of 0/1 targets. *)
Lemma check_targets_binary (y_true : Series) (y_pred : list Z) :
  binary_targets y_true y_pred →
  ∃ y, check_targets y_true y_pred = Ok (y, y_pred) ∧
       sdata y_true = map Some y ∧ length y = length y_pred ∧
       Forall (λ v, v = 0%Z ∨ v = 1%Z) y.
Proof.
  intros (Hl & Hy & Hp). destruct (values_binary _ Hy) as (y & E & Ey & Hb).
  exists y. unfold check_targets. rewrite decide_True by done. rewrite E.
  split_and!; try done. by rewrite <- Hl, Ey, length_map.
Qed.

Lemma binary_counts_binary (y_true : Series) (y_pred : list Z) :
  binary_targets y_true y_pred →
  ∃ y, sdata y_true = map Some y ∧
       binary_counts y_true y_pred
       = Ok (count_pairs 1 1 y y_pred, count 1 y_pred, count 1 y).
Proof.
  intros Hb. destruct (check_targets_binary _ _ Hb) as (y & E & Ey & Hl & Hy).
  exists y. split; [done|]. unfold binary_counts. rewrite E, result_bind_ok.
  simpl. unfold unique_labels. destruct Hb as (_ & _ & Hp).
  rewrite unique_binary by (by apply Forall_app).
  rewrite decide_False; [|repeat case_decide; simpl; lia].
  rewrite decide_False; [done|].
  intros [Hn Hlen]. repeat case_decide; simpl in *; try lia.
  apply Hn. apply elem_of_cons. right. by apply elem_of_cons; left.
Qed.

(** No positive prediction, or no positive label: precision, recall and F1
    are all 0. *)
Lemma scores_zero (y_true : Series) (y_pred : list Z) :
  binary_targets y_true y_pred →
  1%Z ∉ y_pred ∨ Some 1%Z ∉ sdata y_true →
  precision_score y_true y_pred 0 = Ok (FNum 0%Qc) ∧
  recall_score y_true y_pred 0 = Ok (FNum 0%Qc) ∧
  f1_score y_true y_pred 0 = Ok (FNum 0%Qc).
Proof.
  intros Hb Hz. destruct (binary_counts_binary _ _ Hb) as (y & Ey & Ec).
  assert (Htp : count_pairs 1 1 y y_pred = 0).
  { destruct Hz as [Hp|Ht].
    - pose proof (count_pairs_le_pred 1 1 y y_pred) as Hle.
      rewrite (count_none _ _ Hp) in Hle. lia.
    - pose proof (count_pairs_le_true 1 1 y y_pred) as Hle.
      rewrite count_none in Hle; [lia|]. intros Hin. apply Ht. rewrite Ey.
      by apply (list_elem_of_fmap_2 Some). }
  unfold precision_score, recall_score, f1_score.
  rewrite Ec, !result_bind_ok. simpl. rewrite Htp. simpl.
  by rewrite !prf_divide_zero.
Qed.

Section reporter_runs.
Context {S : Type} (model : Model S).
Implicit Types (x : DataFrame) (y : Series) (p : list Z) (s : S).

Lemma state_bind_ok {A B} (m : State S A) (k : A → State S B) s s' a :
  m s = (s', Ok a) → (m ≫= k) s = k a s'.
Proof. intros E. unfold mbind, State_bind. by rewrite E. Qed.

Lemma state_bind_raise {A B} (m : State S A) (k : A → State S B) s s' e :
  m s = (s', Raise e) → (m ≫= k) s = (s', Raise e).
Proof. intros E. unfold mbind, State_bind. by rewrite E. Qed.

(** Once both predictions are in, [metricas] is a computation on labels. *)
Lemma metricas_run x_train y_train x_test y_test s s1 s2 p_train p_test :
  predict model x_train s = (s1, Ok p_train) →
  predict model x_test s1 = (s2, Ok p_test) →
  metricas model x_train y_train x_test y_test s
  = (s2, m_train ← scalar_record "train" y_train p_train;
         m_test ← scalar_record "test" y_test p_test;
         Ok (m_train, m_test)).
Proof.
  intros E1 E2. unfold metricas.
  rewrite (state_bind_ok _ _ _ _ _ E1), (state_bind_ok _ _ _ _ _ E2).
  unfold mbind at 1, State_bind, lift_result.
  fold (scalar_record "train" y_train p_train).
  destruct (scalar_record "train" y_train p_train) as [m1|e]; [|reflexivity].
  unfold mbind at 1, State_bind.
  fold (scalar_record "test" y_test p_test).
  by destruct (scalar_record "test" y_test p_test).
Qed.

Lemma matrizConfusion_run x_train y_train x_test y_test s s1 s2 p_train p_test :
  predict model x_train s = (s1, Ok p_train) →
  predict model x_test s1 = (s2, Ok p_test) →
  matrizConfusion model x_train y_train x_test y_test s
  = (s2, cm_train ← confusion_matrix y_train p_train;
         cm_test ← confusion_matrix y_test p_test;
         m_train ← cm_record "train" cm_train;
         m_test ← cm_record "test" cm_test;
         Ok (m_train, m_test)).
Proof.
  intros E1 E2. unfold matrizConfusion.
  rewrite (state_bind_ok _ _ _ _ _ E1), (state_bind_ok _ _ _ _ _ E2).
  unfold mbind at 1, State_bind, lift_result.
  destruct (confusion_matrix y_train p_train) as [cm1|e]; [|done].
  unfold mbind at 1, State_bind. rewrite result_bind_ok.
  destruct (confusion_matrix y_test p_test) as [cm2|e]; [|done].
  unfold mbind at 1, State_bind. rewrite result_bind_ok.
  fold (cm_record "train" cm1).
  destruct (cm_record "train" cm1) as [m1|e]; [|done].
  unfold mbind at 1, State_bind. rewrite result_bind_ok.
  fold (cm_record "test" cm2).
  by destruct (cm_record "test" cm2).
Qed.

End reporter_runs.

Lemma confusion_matrix_ok (y_true : Series) (y_pred : list Z) (y : list Z) :
  check_targets y_true y_pred = Ok (y, y_pred) →
  confusion_matrix y_true y_pred
  = Ok (map (λ t, map (λ q, count_pairs t q y y_pred) (unique_labels y y_pred))
            (unique_labels y y_pred)).
Proof. intros E. unfold confusion_matrix. by rewrite E. Qed.

Lemma scalar_record_binary (dataset : string) (y_true : Series) (y_pred : list Z) :
  binary_targets y_true y_pred →
  ∃ precision balanced_accuracy recall f1,
    precision_score y_true y_pred 0 = Ok precision ∧
    recall_score y_true y_pred 0 = Ok recall ∧
    f1_score y_true y_pred 0 = Ok f1 ∧
    scalar_record dataset y_true y_pred
    = Ok [ ("type", JStr "metrics");
           ("dataset", JStr dataset);
           ("precision", JFloat precision);
           ("balanced_accuracy", JFloat balanced_accuracy);
           ("recall", JFloat recall);
           ("f1_score", JFloat f1) ].
Proof.
  intros Hb. destruct (binary_counts_binary _ _ Hb) as (y & Ey & Ec).
  destruct (check_targets_binary _ _ Hb) as (y' & Et & _).
  unfold scalar_record, precision_score, recall_score, f1_score,
    balanced_accuracy_score.
  rewrite Ec, (confusion_matrix_ok _ _ _ Et), !result_bind_ok.
  by eexists _, _, _, _.
Qed.

(** C5. On splits that are not empty and have 0/1 labels, [metricas]
    returns its two records, and in the record of a split without any
    positive prediction, or without any positive label, precision, recall
    and F1 are the number 0: not NaN, and no error.  A split without rows
    is left out: there the answer depends on the release of scikit-learn
    (see [check_targets]). *)
Theorem metricas_zero_division {S} (model : Model S)
    (x_train : DataFrame) (y_train : Series) (x_test : DataFrame) (y_test : Series)
    (s s1 s2 : S) (p_train p_test : list Z) :
  predict model x_train s = (s1, Ok p_train) →
  predict model x_test s1 = (s2, Ok p_test) →
  binary_targets y_train p_train → binary_targets y_test p_test →
  sdata y_train ≠ [] → sdata y_test ≠ [] →
  ∃ m_train m_test,
    metricas model x_train y_train x_test y_test s = (s2, Ok (m_train, m_test)) ∧
    (1%Z ∉ p_train ∨ Some 1%Z ∉ sdata y_train →
       dict_get "precision" m_train = Some (JFloat (FNum 0%Qc)) ∧
       dict_get "recall" m_train = Some (JFloat (FNum 0%Qc)) ∧
       dict_get "f1_score" m_train = Some (JFloat (FNum 0%Qc))) ∧
    (1%Z ∉ p_test ∨ Some 1%Z ∉ sdata y_test →
       dict_get "precision" m_test = Some (JFloat (FNum 0%Qc)) ∧
       dict_get "recall" m_test = Some (JFloat (FNum 0%Qc)) ∧
       dict_get "f1_score" m_test = Some (JFloat (FNum 0%Qc))).
Proof.
  intros E1 E2 B1 B2 _ _.
  destruct (scalar_record_binary "train" _ _ B1) as (pr1 & ba1 & re1 & f1 & P1 & R1 & F1 & S1).
  destruct (scalar_record_binary "test" _ _ B2) as (pr2 & ba2 & re2 & f2 & P2 & R2 & F2 & S2).
  eexists _, _. split.
  - rewrite (metricas_run model _ _ _ _ _ _ _ _ _ E1 E2).
    by rewrite S1, result_bind_ok, S2, result_bind_ok.
  - split; intros Hz.
    + destruct (scores_zero _ _ B1 Hz) as (P0 & R0 & F0).
      rewrite P0 in P1. rewrite R0 in R1. rewrite F0 in F1.
      injection P1 as <-. injection R1 as <-. injection F1 as <-. done.
    + destruct (scores_zero _ _ B2 Hz) as (P0 & R0 & F0).
      rewrite P0 in P2. rewrite R0 in R2. rewrite F0 in F2.
      injection P2 as <-. injection R2 as <-. injection F2 as <-. done.
Qed.

Lemma metricas_zero_division_witness :
  let y_train := labels_series [0; 1; 0]%Z in
  let y_test := labels_series [0; 0; 0]%Z in
  (predict all_zero_model sample_x 0 = (1, Ok [0; 0; 0]%Z) ∧
   predict all_zero_model sample_x 1 = (2, Ok [0; 0; 0]%Z) ∧
   binary_targets y_train [0; 0; 0]%Z ∧ binary_targets y_test [0; 0; 0]%Z ∧
   sdata y_train ≠ [] ∧ sdata y_test ≠ []) ∧
  ∃ m_train m_test,
    metricas all_zero_model sample_x y_train sample_x y_test 0
    = (2, Ok (m_train, m_test)) ∧
    (1%Z ∉ [0; 0; 0]%Z ∨ Some 1%Z ∉ sdata y_train →
       dict_get "precision" m_train = Some (JFloat (FNum 0%Qc)) ∧
       dict_get "recall" m_train = Some (JFloat (FNum 0%Qc)) ∧
       dict_get "f1_score" m_train = Some (JFloat (FNum 0%Qc))) ∧
    (1%Z ∉ [0; 0; 0]%Z ∨ Some 1%Z ∉ sdata y_test →
       dict_get "precision" m_test = Some (JFloat (FNum 0%Qc)) ∧
       dict_get "recall" m_test = Some (JFloat (FNum 0%Qc)) ∧
       dict_get "f1_score" m_test = Some (JFloat (FNum 0%Qc))).
Proof.
  intros y_train y_test.
  assert (B1 : binary_targets y_train [0; 0; 0]%Z)
    by (apply (bool_decide_unpack _); vm_compute; reflexivity).
  assert (B2 : binary_targets y_test [0; 0; 0]%Z)
    by (apply (bool_decide_unpack _); vm_compute; reflexivity).
  assert (N1 : sdata y_train ≠ []) by discriminate.
  assert (N2 : sdata y_test ≠ []) by discriminate.
  split; [split_and!; [reflexivity|reflexivity|exact B1|exact B2|exact N1|exact N2]|].
  apply (metricas_zero_division all_zero_model sample_x y_train sample_x y_test
           0 1 2 [0; 0; 0]%Z [0; 0; 0]%Z);
    [reflexivity|reflexivity|exact B1|exact B2|exact N1|exact N2].
Defined.

(** ** Determinism *)

Section determinism.
Context {S : Type} (model : Model S).
Implicit Types (x : DataFrame) (y : Series) (s : S).

Lemma metricas_state_independent x_train y_train x_test y_test :
  deterministic model →
  ∀ s s', (metricas model x_train y_train x_test y_test s).2
        = (metricas model x_train y_train x_test y_test s').2.
Proof.
  intros Hdet s s'.
  pose proof (Hdet x_train s s') as H1.
  destruct (predict model x_train s) as [s1 r1] eqn:E1.
  destruct (predict model x_train s') as [s1' r1'] eqn:E1'.
  simpl in H1. subst r1'. destruct r1 as [p1|e].
  - pose proof (Hdet x_test s1 s1') as H2.
    destruct (predict model x_test s1) as [s2 r2] eqn:E2.
    destruct (predict model x_test s1') as [s2' r2'] eqn:E2'.
    simpl in H2. subst r2'. destruct r2 as [p2|e].
    + by rewrite (metricas_run model _ _ _ _ _ _ _ _ _ E1 E2),
        (metricas_run model _ _ _ _ _ _ _ _ _ E1' E2').
    + unfold metricas.
      rewrite (state_bind_ok _ _ _ _ _ E1), (state_bind_raise _ _ _ _ _ E2).
      by rewrite (state_bind_ok _ _ _ _ _ E1'), (state_bind_raise _ _ _ _ _ E2').
  - unfold metricas.
    by rewrite (state_bind_raise _ _ _ _ _ E1), (state_bind_raise _ _ _ _ _ E1').
Qed.

Lemma matrizConfusion_state_independent x_train y_train x_test y_test :
  deterministic model →
  ∀ s s', (matrizConfusion model x_train y_train x_test y_test s).2
        = (matrizConfusion model x_train y_train x_test y_test s').2.
Proof.
  intros Hdet s s'.
  pose proof (Hdet x_train s s') as H1.
  destruct (predict model x_train s) as [s1 r1] eqn:E1.
  destruct (predict model x_train s') as [s1' r1'] eqn:E1'.
  simpl in H1. subst r1'. destruct r1 as [p1|e].
  - pose proof (Hdet x_test s1 s1') as H2.
    destruct (predict model x_test s1) as [s2 r2] eqn:E2.
    destruct (predict model x_test s1') as [s2' r2'] eqn:E2'.
    simpl in H2. subst r2'. destruct r2 as [p2|e].
    + by rewrite (matrizConfusion_run model _ _ _ _ _ _ _ _ _ E1 E2),
        (matrizConfusion_run model _ _ _ _ _ _ _ _ _ E1' E2').
    + unfold matrizConfusion.
      rewrite (state_bind_ok _ _ _ _ _ E1), (state_bind_raise _ _ _ _ _ E2).
      by rewrite (state_bind_ok _ _ _ _ _ E1'), (state_bind_raise _ _ _ _ _ E2').
  - unfold matrizConfusion.
    by rewrite (state_bind_raise _ _ _ _ _ E1), (state_bind_raise _ _ _ _ _ E1').
Qed.

(** C8. With a [predict] whose answer does not depend on the model's own
    state, the records of the reporter are a function of (X, y) alone:
    [metricas], [matrizConfusion] and the two together return the same
    records whatever state the model is in, so a second invocation right
    after the first returns what the first returned. *)
Theorem report_deterministic
    (x_train : DataFrame) (y_train : Series) (x_test : DataFrame) (y_test : Series) :
  deterministic model →
  ∀ s s',
    (metricas model x_train y_train x_test y_test s).2
      = (metricas model x_train y_train x_test y_test s').2 ∧
    (matrizConfusion model x_train y_train x_test y_test s).2
      = (matrizConfusion model x_train y_train x_test y_test s').2 ∧
    (report model x_train y_train x_test y_test s).2
      = (report model x_train y_train x_test y_test s').2 ∧
    (report model x_train y_train x_test y_test
       (report model x_train y_train x_test y_test s).1).2
      = (report model x_train y_train x_test y_test s).2.
Proof.
  intros Hdet.
  assert (Hrep : ∀ s s',
    (report model x_train y_train x_test y_test s).2
    = (report model x_train y_train x_test y_test s').2).
  { intros s s'. unfold report.
    pose proof (metricas_state_independent x_train y_train x_test y_test Hdet s s') as Hm.
    unfold mbind at 1 3, State_bind.
    destruct (metricas model x_train y_train x_test y_test s) as [sa ra].
    destruct (metricas model x_train y_train x_test y_test s') as [sa' ra'].
    simpl in Hm. subst ra'. destruct ra as [m|e]; [|done].
    pose proof (matrizConfusion_state_independent x_train y_train x_test y_test Hdet sa sa') as Hc.
    unfold mbind, State_bind.
    destruct (matrizConfusion model x_train y_train x_test y_test sa) as [sb rb].
    destruct (matrizConfusion model x_train y_train x_test y_test sa') as [sb' rb'].
    simpl in Hc. subst rb'. by destruct rb. }
  intros s s'. split_and!.
  - by apply metricas_state_independent.
  - by apply matrizConfusion_state_independent.
  - apply Hrep.
  - apply Hrep.
Qed.

End determinism.

Lemma report_deterministic_witness :
  let y := labels_series [0; 1; 0]%Z in
  deterministic all_zero_model ∧
  ∀ s s',
    (metricas all_zero_model sample_x y sample_x y s).2
      = (metricas all_zero_model sample_x y sample_x y s').2 ∧
    (matrizConfusion all_zero_model sample_x y sample_x y s).2
      = (matrizConfusion all_zero_model sample_x y sample_x y s').2 ∧
    (report all_zero_model sample_x y sample_x y s).2
      = (report all_zero_model sample_x y sample_x y s').2 ∧
    (report all_zero_model sample_x y sample_x y
       (report all_zero_model sample_x y sample_x y s).1).2
      = (report all_zero_model sample_x y sample_x y s).2.
Proof.
  intros y. split; [intros x s s'; reflexivity|].
  apply (report_deterministic all_zero_model sample_x y sample_x y).
  intros x s s'. reflexivity.
Defined.

(** ** The confusion-matrix record *)

Lemma occurs_labels (v : Z) (y_true : Series) (y_pred y : list Z) :
  sdata y_true = map Some y →
  occurs v y_true y_pred ↔ v ∈ y ++ y_pred.
Proof.
  intros E. unfold occurs. rewrite E, elem_of_app.
  change (map Some y) with (Some <$> y).
  by rewrite (list_elem_of_fmap_inj Some).
Qed.

(** On 0/1 targets the record exists exactly when the matrix has two rows
    and two columns, that is when both classes occur; its cells are then
    the four counts. *)
Lemma cm_record_binary (dataset : string) (y_true : Series) (y_pred : list Z) :
  binary_targets y_true y_pred →
  ∃ y cm,
    sdata y_true = map Some y ∧ length y = length y_pred ∧
    Forall (λ v, v = 0%Z ∨ v = 1%Z) y ∧
    confusion_matrix y_true y_pred = Ok cm ∧
    (both_classes y_true y_pred →
       cm_record dataset cm
       = Ok [ ("type", JStr "cm_matrix");
              ("dataset", JStr dataset);
              ("true_0", JObj [ ("predicted_0", JInt (Z.of_nat (count_pairs 0 0 y y_pred)));
                                ("predicted_1", JInt (Z.of_nat (count_pairs 0 1 y y_pred))) ]);
              ("true_1", JObj [ ("predicted_0", JInt (Z.of_nat (count_pairs 1 0 y y_pred)));
                                ("predicted_1", JInt (Z.of_nat (count_pairs 1 1 y y_pred))) ]) ]) ∧
    (¬ both_classes y_true y_pred →
       length cm < 2 ∧ cm_record dataset cm = Raise IndexError).
Proof.
  intros Hb. destruct (check_targets_binary _ _ Hb) as (y & Et & Ey & Hl & Hy).
  destruct Hb as (_ & _ & Hp).
  eexists y, _. do 3 (split; [done|]). split; [by apply confusion_matrix_ok|].
  unfold both_classes. rewrite !(occurs_labels _ _ _ _ Ey).
  unfold unique_labels. rewrite unique_binary by (by apply Forall_app).
  split.
  - intros [H0 H1]. by rewrite !decide_True.
  - intros Hn. destruct (decide (0%Z ∈ y ++ y_pred)), (decide (1%Z ∈ y ++ y_pred));
      try (by destruct Hn); simpl; split; try lia; done.
Qed.

(** C7, at a split with a single class.  The labels are binary and
    [metricas] reports on the split, but the matrix has one cell and the
    record is never built: [matrizConfusion] stops with an IndexError. *)
Theorem matrizConfusion_single_class_fails :
  let y := labels_series [0; 0; 0]%Z in
  binary_targets y [0; 0; 0]%Z ∧
  predict all_zero_model sample_x 0 = (1, Ok [0; 0; 0]%Z) ∧
  confusion_matrix y [0; 0; 0]%Z = Ok [[3]] ∧
  (matrizConfusion all_zero_model sample_x y sample_x y 0).2 = Raise IndexError ∧
  is_ok (metricas all_zero_model sample_x y sample_x y 0).2 = true.
Proof.
  intros y. split; [by apply (bool_decide_unpack _); vm_compute|].
  by vm_compute.
Qed.

(** Where both classes occur the record has its four cells, and they add
    up to the number of rows. *)
Lemma matrizConfusion_cells {S} (model : Model S)
    (x_train : DataFrame) (y_train : Series) (x_test : DataFrame) (y_test : Series)
    (s s1 s2 : S) (p_train p_test : list Z) :
  predict model x_train s = (s1, Ok p_train) →
  predict model x_test s1 = (s2, Ok p_test) →
  binary_targets y_train p_train → binary_targets y_test p_test →
  both_classes y_train p_train → both_classes y_test p_test →
  ∃ m_train m_test a b c d a' b' c' d',
    matrizConfusion model x_train y_train x_test y_test s
    = (s2, Ok (m_train, m_test)) ∧
    cm_cells m_train = Some (a, b, c, d) ∧
    (a + b + c + d)%Z = Z.of_nat (length p_train) ∧
    cm_cells m_test = Some (a', b', c', d') ∧
    (a' + b' + c' + d')%Z = Z.of_nat (length p_test).
Proof.
  intros E1 E2 B1 B2 C1 C2.
  destruct (cm_record_binary "train" _ _ B1) as (y1 & cm1 & Ey1 & Hl1 & Hy1 & M1 & R1 & _).
  destruct (cm_record_binary "test" _ _ B2) as (y2 & cm2 & Ey2 & Hl2 & Hy2 & M2 & R2 & _).
  specialize (R1 C1). specialize (R2 C2).
  eexists _, _, _, _, _, _, _, _, _, _. split.
  - rewrite (matrizConfusion_run model _ _ _ _ _ _ _ _ _ E1 E2).
    by rewrite M1, result_bind_ok, M2, result_bind_ok, R1, result_bind_ok, R2, result_bind_ok.
  - split; [reflexivity|]. split.
    { rewrite <- Hl1, <- (count_pairs_total y1 p_train Hl1 Hy1 (proj2 (proj2 B1))). lia. }
    split; [reflexivity|].
    rewrite <- Hl2, <- (count_pairs_total y2 p_test Hl2 Hy2 (proj2 (proj2 B2))). lia.
Qed.

(** C10. [matrizConfusion] reads rows and columns 0 and 1 of the matrix
    whatever its size.  On 0/1 targets it therefore returns its records
    exactly when both classes occur among the labels and predictions of
    the train split and of the test split; otherwise, on splits that are
    not empty, it stops with an IndexError; a split of three rows of class
    0 predicted as class 0 has a 1x1 matrix and is such a case.  Which
    error a split without rows ends in is left open: it depends on the
    release of scikit-learn (see [check_targets]). *)
Theorem matrizConfusion_needs_both_classes {S} (model : Model S)
    (x_train : DataFrame) (y_train : Series) (x_test : DataFrame) (y_test : Series)
    (s s1 s2 : S) (p_train p_test : list Z) :
  predict model x_train s = (s1, Ok p_train) →
  predict model x_test s1 = (s2, Ok p_test) →
  binary_targets y_train p_train → binary_targets y_test p_test →
  ((∃ m, matrizConfusion model x_train y_train x_test y_test s = (s2, Ok m))
     ↔ both_classes y_train p_train ∧ both_classes y_test p_test) ∧
  (sdata y_train ≠ [] → sdata y_test ≠ [] →
   ¬ (both_classes y_train p_train ∧ both_classes y_test p_test) →
     matrizConfusion model x_train y_train x_test y_test s = (s2, Raise IndexError)) ∧
  (confusion_matrix (labels_series [0; 0; 0]%Z) [0; 0; 0]%Z = Ok [[3]] ∧
   (matrizConfusion all_zero_model sample_x (labels_series [0; 0; 0]%Z)
      sample_x (labels_series [0; 0; 0]%Z) 0).2 = Raise IndexError).
Proof.
  intros E1 E2 B1 B2.
  destruct (cm_record_binary "train" _ _ B1) as (y1 & cm1 & Ey1 & _ & _ & M1 & R1 & F1).
  destruct (cm_record_binary "test" _ _ B2) as (y2 & cm2 & Ey2 & _ & _ & M2 & R2 & F2).
  rewrite (matrizConfusion_run model _ _ _ _ _ _ _ _ _ E1 E2).
  rewrite M1, result_bind_ok, M2, result_bind_ok.
  assert (Hfail : ¬ (both_classes y_train p_train ∧ both_classes y_test p_test) →
            (cm_record "train" cm1 ≫= λ m_train,
               cm_record "test" cm2 ≫= λ m_test, Ok (m_train, m_test))
            = Raise IndexError).
  { intros Hn. destruct (decide (both_classes y_train p_train)) as [C1|C1].
    - rewrite (R1 C1), result_bind_ok.
      destruct (decide (both_classes y_test p_test)) as [C2|C2]; [by destruct Hn|].
      by rewrite (proj2 (F2 C2)).
    - by rewrite (proj2 (F1 C1)). }
  split_and!.
  - split.
    + intros [m Hm].
      destruct (decide (both_classes y_train p_train ∧ both_classes y_test p_test))
        as [|Hn]; [done|].
      rewrite (Hfail Hn) in Hm. done.
    + intros [C1 C2]. rewrite (R1 C1), result_bind_ok, (R2 C2), result_bind_ok.
      by eexists.
  - intros _ _ Hn. by rewrite (Hfail Hn).
  - by vm_compute.
  - by vm_compute.
Qed.

Lemma matrizConfusion_needs_both_classes_witness :
  let y_train := labels_series [0; 1; 0]%Z in
  let y_test := labels_series [0; 0; 0]%Z in
  (predict all_zero_model sample_x 0 = (1, Ok [0; 0; 0]%Z) ∧
   predict all_zero_model sample_x 1 = (2, Ok [0; 0; 0]%Z) ∧
   binary_targets y_train [0; 0; 0]%Z ∧ binary_targets y_test [0; 0; 0]%Z) ∧
  ((∃ m, matrizConfusion all_zero_model sample_x y_train sample_x y_test 0 = (2, Ok m))
     ↔ both_classes y_train [0; 0; 0]%Z ∧ both_classes y_test [0; 0; 0]%Z) ∧
  (sdata y_train ≠ [] → sdata y_test ≠ [] →
   ¬ (both_classes y_train [0; 0; 0]%Z ∧ both_classes y_test [0; 0; 0]%Z) →
     matrizConfusion all_zero_model sample_x y_train sample_x y_test 0
     = (2, Raise IndexError)) ∧
  (confusion_matrix (labels_series [0; 0; 0]%Z) [0; 0; 0]%Z = Ok [[3]] ∧
   (matrizConfusion all_zero_model sample_x (labels_series [0; 0; 0]%Z)
      sample_x (labels_series [0; 0; 0]%Z) 0).2 = Raise IndexError).
Proof.
  intros y_train y_test.
  assert (B1 : binary_targets y_train [0; 0; 0]%Z)
    by (apply (bool_decide_unpack _); vm_compute; reflexivity).
  assert (B2 : binary_targets y_test [0; 0; 0]%Z)
    by (apply (bool_decide_unpack _); vm_compute; reflexivity).
  split; [split_and!; [reflexivity|reflexivity|exact B1|exact B2]|].
  apply (matrizConfusion_needs_both_classes all_zero_model sample_x y_train
           sample_x y_test 0 1 2 [0; 0; 0]%Z [0; 0; 0]%Z);
    [reflexivity|reflexivity|exact B1|exact B2].
Defined.

(** * The Persistence Writer *)

(** ** Text *)

#[local] Arguments String.append !_ _ / : simpl nomatch.

Section text.
Implicit Types (s t : string) (c : ascii).

Lemma string_app_assoc s t u : (s +:+ t) +:+ u = s +:+ (t +:+ u).
Proof. induction s as [|c s IH]; simpl; [done|]. by f_equal. Qed.

Lemma printable_app s t : printable (s +:+ t) = printable s && printable t.
Proof.
  induction s as [|c s IH]; simpl; [done|]. by rewrite IH, andb_assoc.
Qed.

Lemma printable_char_not_newline c :
  printable_char c = true → Ascii.eqb c (ascii_of_N 10) = false.
Proof.
  intros H. destruct (Ascii.eqb_spec c (ascii_of_N 10)) as [->|]; [|done].
  by vm_compute in H.
Qed.

Lemma lines_cons c s :
  lines (String c s)
  = if Ascii.eqb c (ascii_of_N 10) then EmptyString :: lines s
    else match lines s with
         | [] => [String c EmptyString]
         | l :: ls => String c l :: ls
         end.
Proof. reflexivity. Qed.

(** A text without line break, followed by a line break, is one line. *)
Lemma lines_app_newline s t :
  printable s = true → lines (s +:+ newline +:+ t) = s :: lines t.
Proof.
  induction s as [|c s IH]; [done|].
  intros [Hc Hs]%andb_prop.
  change (String c s +:+ newline +:+ t) with (String c (s +:+ newline +:+ t)).
  rewrite lines_cons, (printable_char_not_newline _ Hc). by rewrite (IH Hs).
Qed.

Lemma lines_newline_end s : printable s = true → lines (s +:+ newline) = [s].
Proof.
  intros Hs. change (s +:+ newline) with (s +:+ newline +:+ EmptyString).
  by rewrite lines_app_newline.
Qed.

Lemma hex_digit_printable (n : N) : printable_char (Json.hex_digit n) = true.
Proof.
  destruct n as [|p]; [done|].
  do 4 (destruct p as [p|p|]; try done).
Qed.

Lemma escape_char_printable c : printable (Json.escape_char c) = true.
Proof.
  unfold Json.escape_char.
  destruct (N.eqb_spec (N_of_ascii c) 34) as [E|_].
  { simpl. unfold printable_char. by rewrite E. }
  repeat (match goal with
          | |- context [N.eqb ?a ?b] => destruct (N.eqb a b); [done|]
          end).
  destruct (_ && _) eqn:E.
  - simpl. unfold printable_char. by rewrite E.
  - simpl. by rewrite !hex_digit_printable.
Qed.

Lemma escape_printable s : printable (Json.escape s) = true.
Proof.
  induction s as [|c s IH]; simpl; [done|].
  by rewrite printable_app, escape_char_printable, IH.
Qed.

Lemma quote_printable s : printable (Json.quote s) = true.
Proof.
  unfold Json.quote. simpl. by rewrite printable_app, escape_printable.
Qed.

Lemma pretty_N_char_printable (n : N) : printable_char (pretty_N_char n) = true.
Proof.
  destruct n as [|p]; [done|].
  do 4 (destruct p as [p|p|]; try done).
Qed.

Lemma pretty_N_go_printable (x : N) s :
  printable s = true → printable (pretty_N_go x s) = true.
Proof.
  revert s. induction (N.lt_wf_0 x) as [x _ IH]; intros s Hs.
  assert (x = 0 ∨ 0 < x)%N as [->|Hx] by lia.
  - by rewrite pretty_N_go_0.
  - rewrite pretty_N_go_step by done. apply IH.
    + by apply N.div_lt.
    + simpl. by rewrite pretty_N_char_printable.
Qed.

Lemma pretty_N_printable (x : N) : printable (pretty x) = true.
Proof.
  unfold pretty, pretty_N. case_decide; [done|]. by apply pretty_N_go_printable.
Qed.

Lemma pretty_Z_printable (z : Z) : printable (pretty z) = true.
Proof.
  unfold pretty, pretty_Z. destruct z as [|p|p]; [done|..].
  - apply pretty_N_printable.
  - change ("-" +:+ pretty p) with (String "-" (pretty p)). simpl.
    apply pretty_N_printable.
Qed.

Lemma join_printable (sep : string) (l : list string) :
  printable sep = true → Forall (λ t, printable t = true) l →
  printable (Json.join sep l) = true.
Proof.
  intros Hsep. induction 1 as [|t l Ht Hl IH]; simpl; [done|].
  destruct l as [|t' l]; [done|].
  by rewrite !printable_app, Ht, Hsep, IH.
Qed.

End text.

Section dumps_text.
Variable float_repr : fval → string.
Hypothesis float_repr_printable : ∀ x, printable (float_repr x) = true.

(** The text of a JSON value has printable characters only, hence no line
    break. *)
Lemma dumps_printable (j : json) : printable (Json.dumps float_repr j) = true.
Proof.
  revert j. fix IH 1. intros [| [|] | z | x | s | l | kvs]; simpl; try done.
  - apply pretty_Z_printable.
  - apply quote_printable.
  - change (printable (Json.join ", " (map (Json.dumps float_repr) l) +:+ "]") = true).
    rewrite printable_app, join_printable; [done|done|].
    induction l as [|j l IHl]; simpl; constructor; [apply IH|apply IHl].
  - change (printable
              (Json.join ", "
                 (map (λ kv, Json.quote (fst kv) +:+ ": "
                             +:+ Json.dumps float_repr (snd kv)) kvs) +:+ "}") = true).
    rewrite printable_app, join_printable; [done|done|].
    induction kvs as [|[k j] kvs IHl]; [constructor|].
    rewrite map_cons. constructor; [|apply IHl]. cbn [fst snd].
    by rewrite !printable_app, quote_printable, IH.
Qed.

End dumps_text.

(** ** Directories and files *)

Section files.
Implicit Types (s : fs) (p q walked rest : path).

Lemma app_ne_self {A} (l k : list A) : k ≠ [] → l ++ k ≠ l.
Proof.
  intros Hk E. apply Hk. apply (app_inv_head l). by rewrite E, app_nil_r.
Qed.

Lemma take_cons_ne_nil {A} (k : nat) (l : list A) :
  1 ≤ k → l ≠ [] → take k l ≠ [].
Proof. destruct k, l; simpl; try done. lia. Qed.

(** [makedirs] succeeds unless a file is in the way; afterwards every
    directory on the way exists, and nothing off the way has changed. *)
Lemma mkdirs_ok walked rest s :
  (∀ k, 1 ≤ k ≤ length rest → is_file (s !! (walked ++ take k rest)) = false) →
  ∃ s',
    mkdirs true walked rest s = (s', Ok tt) ∧
    (∀ k, 1 ≤ k ≤ length rest → s' !! (walked ++ take k rest) = Some Dir) ∧
    (∀ q, (∀ k, 1 ≤ k ≤ length rest → q ≠ walked ++ take k rest) →
          s' !! q = s !! q).
Proof.
  revert walked s. induction rest as [|c rest IH]; intros walked s Hfree.
  - exists s. split; [done|]. split; [simpl; intros; lia|done].
  - set (p := walked ++ [c]).
    assert (Hchain : ∀ k, walked ++ take (S k) (c :: rest) = p ++ take k rest).
    { intros k. unfold p. by rewrite <- app_assoc. }
    assert (Hp : ∀ k, 1 ≤ k ≤ length rest → p ++ take k rest ≠ p).
    { intros k Hk. apply app_ne_self, take_cons_ne_nil; [lia|].
      destruct rest; simpl in *; [lia|done]. }
    assert (Hfirst : is_file (s !! p) = false).
    { specialize (Hfree 1). simpl in Hfree. apply Hfree. lia. }
    assert (Hstep : ∀ s0, s0 !! p = Some Dir →
              (∀ q, q ≠ p → s0 !! q = s !! q) →
              ∃ s', mkdirs true p rest s0 = (s', Ok tt) ∧
                (∀ k, 1 ≤ k ≤ length (c :: rest) →
                      s' !! (walked ++ take k (c :: rest)) = Some Dir) ∧
                (∀ q, (∀ k, 1 ≤ k ≤ length (c :: rest) →
                            q ≠ walked ++ take k (c :: rest)) →
                      s' !! q = s !! q)).
    { intros s0 Hdir Hsame.
      destruct (IH p s0) as (s' & Hrun & Hdirs & Hframe).
      { intros k Hk. rewrite Hsame by (by apply Hp).
        rewrite <- Hchain. apply Hfree. simpl. lia. }
      exists s'. split; [done|]. split.
      - intros [|k] Hk; [lia|]. rewrite Hchain. destruct k as [|k].
        + simpl. rewrite app_nil_r, Hframe; [done|].
          intros k Hk'. symmetry. by apply Hp.
        + apply Hdirs. simpl in Hk. lia.
      - intros q Hq. rewrite Hframe.
        + apply Hsame. specialize (Hq 1). simpl in Hq. apply Hq. lia.
        + intros k Hk. rewrite <- Hchain. apply Hq. simpl. lia. }
    simpl. fold p. destruct (s !! p) as [[|content]|] eqn:E.
    + destruct rest as [|c' rest].
      * exists s. split; [done|]. split; [|done].
        intros k Hk. simpl in Hk. assert (k = 1) as -> by lia. exact E.
      * by apply Hstep.
    + done.
    + apply Hstep; [apply lookup_insert_eq|].
      intros q Hq. by apply lookup_insert_ne.
Qed.

Lemma write_ok s f content text :
  s !! f = Some (File content) →
  write f text s = (<[f := File (content +:+ text)]> s, Ok tt).
Proof. intros E. unfold write. by rewrite E. Qed.

Lemma dirname_shorter p : dirname p ≠ [] → length (dirname p) < length p.
Proof.
  unfold dirname. rewrite removelast_firstn_len. destruct p as [|c p]; [done|].
  intros _. rewrite length_take. simpl. lia.
Qed.

End files.

Section writer_proofs.
Variable float_repr : fval → string.
Hypothesis float_repr_printable : ∀ x, printable (float_repr x) = true.

(** What [guardarMetricas] leaves behind. *)
Lemma guardarMetricas_run (m1 m2 m3 m4 : dict) (file_path : path) (s : fs) :
  writable s file_path →
  ∃ s',
    guardarMetricas float_repr m1 m2 m3 m4 file_path s = (s', Ok tt) ∧
    s' !! file_path
      = Some (File (Json.dumps float_repr (JObj m1) +:+ newline
                    +:+ Json.dumps float_repr (JObj m2) +:+ newline
                    +:+ Json.dumps float_repr (JObj m3) +:+ newline
                    +:+ Json.dumps float_repr (JObj m4) +:+ newline)) ∧
    (∀ k, 1 ≤ k ≤ length (dirname file_path) →
          s' !! take k (dirname file_path) = Some Dir) ∧
    (∀ q, q ≠ file_path → ¬ q `prefix_of` dirname file_path → s' !! q = s !! q).
Proof.
  intros (Hdir & Hfree & Hfile).
  rewrite Forall_forall in Hfree.
  destruct (mkdirs_ok [] (dirname file_path) s) as (s1 & Hmk & Hdirs & Hframe).
  { intros k Hk. simpl. apply Hfree, elem_of_seq. lia. }
  simpl in Hdirs, Hframe.
  assert (Hlen := dirname_shorter _ Hdir).
  assert (Hne : ∀ k, file_path ≠ take k (dirname file_path)).
  { intros k E. apply (f_equal length) in E. rewrite length_take in E. lia. }
  assert (Hs1 : s1 !! file_path = s !! file_path) by (by apply Hframe).
  assert (Hparent : s1 !! dirname file_path = Some Dir).
  { rewrite <- (firstn_all (dirname file_path)) at 1. apply Hdirs.
    destruct (dirname file_path); [done|simpl; lia]. }
  set (s2 := <[file_path := File EmptyString]> s1).
  assert (Hopen : open_w file_path s1 = (s2, Ok file_path)).
  { unfold open_w. destruct file_path as [|c fp]; [done|].
    assert (Hnd : s1 !! (c :: fp) ≠ Some Dir) by (by rewrite Hs1).
    unfold is_dir. rewrite Hparent.
    destruct (dirname (c :: fp)) as [|? ?] eqn:Ed; [done|].
    by destruct (s1 !! (c :: fp)) as [[|?]|]. }
  eexists. split.
  - unfold guardarMetricas, makedirs.
    destruct (dirname file_path) as [|d ds] eqn:Ed; [done|].
    unfold mbind at 1, State_bind. rewrite Hmk.
    unfold mbind at 1, State_bind. rewrite Hopen.
    unfold for_each, s2.
    unfold mbind at 1, State_bind.
    erewrite write_ok; [|apply lookup_insert_eq].
    unfold mbind at 1, State_bind.
    erewrite write_ok; [|apply lookup_insert_eq].
    unfold mbind at 1, State_bind.
    erewrite write_ok; [|apply lookup_insert_eq].
    unfold mbind at 1, State_bind.
    erewrite write_ok; [|apply lookup_insert_eq].
    reflexivity.
  - rewrite !insert_insert_eq. split_and!.
    + rewrite lookup_insert_eq. do 2 f_equal.
      change (EmptyString +:+ ?t) with t. by rewrite !string_app_assoc.
    + intros k Hk. rewrite lookup_insert_ne by apply Hne. by apply Hdirs.
    + intros q Hq Hpre. rewrite lookup_insert_ne by done. apply Hframe.
      intros k Hk ->. apply Hpre. apply prefix_take.
Qed.

End writer_proofs.

(** * JSON text read back *)

Section json_text.
Import JsonText.
Implicit Types (s t u r rest : string) (c : ascii).

Lemma string_length_app s t :
  String.length (s +:+ t) = String.length s + String.length t.
Proof. induction s as [|c s IH]; simpl; [done|]. by rewrite IH. Qed.

Lemma string_app_nil_r s : s +:+ EmptyString = s.
Proof. induction s as [|c s IH]; simpl; [done|]. by rewrite IH. Qed.

Lemma first_app t r :
  JsonText.first (String.length (t +:+ r) - String.length r) (t +:+ r) = t.
Proof.
  rewrite string_length_app.
  replace (String.length t + String.length r - String.length r)
    with (String.length t) by lia.
  induction t as [|c t IH]; simpl.
  - by destruct r.
  - by rewrite IH.
Qed.

(** ** Numbers *)

Lemma closes_head c r :
  closes (String c r) = true →
  is_digit c = false ∧ is_ws c = false ∧ Ascii.eqb c "." = false ∧
  Ascii.eqb c "e" = false ∧ Ascii.eqb c "E" = false.
Proof.
  simpl. intros H.
  destruct (Ascii.eqb_spec c ",") as [->|_]; [done|].
  destruct (Ascii.eqb_spec c "}") as [->|_]; [done|].
  destruct (Ascii.eqb_spec c "]") as [->|_]; [done|]. done.
Qed.

Lemma skip_digits_app t rest :
  closes rest = true → skip_digits (t +:+ rest) = skip_digits t +:+ rest.
Proof.
  intros Hr. induction t as [|c t IH]; simpl.
  - destruct rest as [|c r]; [done|]. simpl.
    by destruct (closes_head _ _ Hr) as (-> & _).
  - by destruct (is_digit c).
Qed.

Lemma digits1_app t u rest :
  closes rest = true → digits1 t = Some u → digits1 (t +:+ rest) = Some (u +:+ rest).
Proof.
  intros Hr. destruct t as [|c t]; simpl; [done|].
  destruct (is_digit c); [|done]. intros [= <-]. by rewrite skip_digits_app.
Qed.

Lemma int_part_app t u rest :
  closes rest = true → int_part t = Some u → int_part (t +:+ rest) = Some (u +:+ rest).
Proof.
  intros Hr. destruct t as [|c t]; simpl; [done|].
  destruct (Ascii.eqb c "0"); [by intros [= <-]|].
  destruct (is_digit c); [|done]. intros [= <-]. by rewrite skip_digits_app.
Qed.

Lemma frac_part_app t u rest :
  closes rest = true → frac_part t = Some u → frac_part (t +:+ rest) = Some (u +:+ rest).
Proof.
  intros Hr. destruct t as [|c t]; simpl.
  - intros [= <-]. destruct rest as [|c r]; [done|]. simpl.
    by destruct (closes_head _ _ Hr) as (_ & _ & -> & _).
  - destruct (Ascii.eqb c "."); [by apply digits1_app|]. by intros [= <-].
Qed.

Lemma exp_part_app t u rest :
  closes rest = true → exp_part t = Some u → exp_part (t +:+ rest) = Some (u +:+ rest).
Proof.
  intros Hr. destruct t as [|c t]; simpl.
  - intros [= <-]. destruct rest as [|c r]; [done|]. simpl.
    by destruct (closes_head _ _ Hr) as (_ & _ & _ & -> & ->).
  - destruct (Ascii.eqb c "e" || Ascii.eqb c "E"); [|by intros [= <-]].
    destruct t as [|c' t]; simpl; [done|].
    destruct (Ascii.eqb c' "+" || Ascii.eqb c' "-").
    + by apply digits1_app.
    + apply (digits1_app (String c' t)). done.
Qed.

Lemma number_rest_app t u rest :
  closes rest = true →
  number_rest t = Some u → number_rest (t +:+ rest) = Some (u +:+ rest).
Proof.
  intros Hr. unfold number_rest.
  set (body := λ s1, int_part s1 ≫= λ r1, frac_part r1 ≫= exp_part).
  assert (Hbody : ∀ s1, body s1 = Some u → body (s1 +:+ rest) = Some (u +:+ rest)).
  { intros s1. unfold body.
    destruct (int_part s1) as [r1|] eqn:E1; [|done].
    rewrite (int_part_app _ _ _ Hr E1). simpl.
    destruct (frac_part r1) as [r2|] eqn:E2; [|done].
    rewrite (frac_part_app _ _ _ Hr E2). simpl.
    by apply exp_part_app. }
  destruct t as [|c t]; [done|].
  change (String c t +:+ rest) with (String c (t +:+ rest)). cbv beta iota.
  destruct (Ascii.eqb c "-"); intros H;
    [exact (Hbody t H)|exact (Hbody (String c t) H)].
Qed.

(** A number text followed by a closing character is read as that number,
    and the rest is left. *)
Lemma number_app t rest :
  is_number t = true → closes rest = true → number (t +:+ rest) = Some (t, rest).
Proof.
  unfold is_number, number. intros Ht Hr.
  destruct (number_rest t) as [[|? ?]|] eqn:E; try done.
  rewrite (number_rest_app _ _ _ Hr E). simpl. by rewrite first_app.
Qed.

(** A number text starts with a minus sign or a digit. *)
Lemma number_head t :
  is_number t = true →
  ∃ c t', t = String c t' ∧ (Ascii.eqb c "-" = true ∨ is_digit c = true).
Proof.
  unfold is_number, number_rest. destruct t as [|c t]; [done|].
  intros H. exists c, t. split; [done|].
  destruct (Ascii.eqb c "-"); [by left|]. right.
  simpl in H. destruct (Ascii.eqb_spec c "0") as [->|_]; [done|].
  by destruct (is_digit c).
Qed.

End json_text.

Section json_strings.
Import JsonText.
Implicit Types (s t u r rest : string) (c : ascii).

(** ** Strings *)

(** Reading back one escaped character gives the character. *)
Lemma string_body_escape_char c tail :
  string_body (Json.escape_char c +:+ tail)
  = tr ← string_body tail; Some (String c tr.1, tr.2).
Proof. destruct c as [[] [] [] [] [] [] [] []]; reflexivity. Qed.

Lemma string_body_escape s rest :
  string_body (Json.escape s +:+ String dquote rest) = Some (s, rest).
Proof.
  induction s as [|c s IH]; [done|].
  change (Json.escape (String c s)) with (Json.escape_char c +:+ Json.escape s).
  rewrite string_app_assoc, string_body_escape_char, IH. done.
Qed.

(** A quoted string followed by anything is read back as the string. *)
Lemma string_body_quote s rest :
  ∃ body, Json.quote s +:+ rest = String dquote body ∧
          string_body body = Some (s, rest).
Proof.
  exists (Json.escape s +:+ String dquote rest). split.
  - unfold Json.quote. change (ascii_of_N 34) with dquote. simpl.
    by rewrite string_app_assoc.
  - apply string_body_escape.
Qed.

(** ** Integers as stdpp prints them *)

Lemma pretty_N_char_digit (n : N) : is_digit (pretty_N_char n) = true.
Proof.
  destruct n as [|p]; [done|].
  do 4 (destruct p as [p|p|]; try done).
Qed.

Lemma pretty_N_char_lead (n : N) :
  (0 < n < 10)%N → Ascii.eqb (pretty_N_char n) "0" = false.
Proof.
  intros Hn. destruct n as [|p]; [lia|].
  do 4 (destruct p as [p|p|]; try done); lia.
Qed.

Lemma skip_digits_all s t :
  skip_digits s = EmptyString → skip_digits t = EmptyString →
  skip_digits (s +:+ t) = EmptyString.
Proof.
  induction s as [|c s IH]; simpl; [done|].
  destruct (is_digit c); [auto|done].
Qed.

(** A positive number prints as a digit other than 0 followed by
    digits. *)
Lemma pretty_N_go_digits (x : N) s :
  (0 < x)%N →
  ∃ d ds, pretty_N_go x s = String d (ds +:+ s) ∧
          is_digit d = true ∧ Ascii.eqb d "0" = false ∧
          skip_digits ds = EmptyString.
Proof.
  revert s. induction (N.lt_wf_0 x) as [x _ IH]; intros s Hx.
  rewrite pretty_N_go_step by done.
  destruct (N.eq_0_gt_0_cases (x `div` 10)) as [E|Hd].
  - rewrite E, pretty_N_go_0.
    exists (pretty_N_char (x `mod` 10)), EmptyString. split_and!; try done.
    + apply pretty_N_char_digit.
    + apply pretty_N_char_lead. apply N.div_small_iff in E; [|done].
      rewrite N.mod_small by done. lia.
  - destruct (IH (x `div` 10)%N (N.div_lt x 10 Hx eq_refl)
                (String (pretty_N_char (x `mod` 10)) s) Hd)
      as (d & ds & E & Hdig & Hlead & Hds).
    exists d, (ds +:+ String (pretty_N_char (x `mod` 10)) EmptyString).
    split_and!; try done.
    + rewrite E. f_equal. by rewrite string_app_assoc.
    + apply skip_digits_all; [done|]. simpl. by rewrite pretty_N_char_digit.
Qed.

Lemma pretty_N_number (x : N) : number_rest (pretty x) = Some EmptyString.
Proof.
  unfold pretty, pretty_N. case_decide as Hx; [done|].
  destruct (pretty_N_go_digits x EmptyString) as (d & ds & E & Hdig & Hlead & Hds);
    [lia|].
  rewrite E, string_app_nil_r. unfold number_rest.
  assert (Ascii.eqb d "-" = false) as ->.
  { destruct (Ascii.eqb_spec d "-") as [->|]; done. }
  simpl. by rewrite Hlead, Hdig, Hds.
Qed.

Lemma pretty_Z_number (z : Z) : is_number (pretty z) = true.
Proof.
  unfold is_number. destruct z as [|p|p]; [done|..].
  - change (pretty (Z.pos p)) with (pretty (N.pos p)).
    by rewrite pretty_N_number.
  - change (pretty (Z.neg p)) with (String "-" (pretty (N.pos p))).
    pose proof (pretty_N_number (N.pos p)) as H. unfold number_rest in *.
    destruct (pretty (N.pos p)) as [|c t] eqn:E; [done|].
    assert (Ascii.eqb c "-" = false) as Hc.
    { destruct (Ascii.eqb_spec c "-") as [->|]; [|done].
      exfalso. revert E. unfold pretty, pretty_N. case_decide; [done|].
      apply (pretty_N_go_ne_dash _ _ t). done. }
    rewrite Hc in H. cbn [Ascii.eqb Bool.eqb]. cbv beta iota. by rewrite H.
Qed.

End json_strings.

Section json_values.
Import JsonText.
Implicit Types (s t u r rest : string) (c : ascii).

(** ** Values *)

(** A value starts with a character of its own: not whitespace and not a
    closing bracket. *)
Lemma value_head n s x :
  value n s = Some x →
  ∃ c r, s = String c r ∧ is_ws c = false ∧
         Ascii.eqb c "]" = false ∧ Ascii.eqb c "}" = false.
Proof.
  destruct n as [|n]; [done|]. destruct s as [|c r]; [done|].
  intros H. exists c, r. split; [done|].
  assert (Hno : ∀ c0, value (S n) (String c0 r) = Some x →
            c0 ≠ " "%char ∧ c0 ≠ ascii_of_N 9 ∧ c0 ≠ ascii_of_N 10 ∧
            c0 ≠ ascii_of_N 13 ∧ c0 ≠ "]"%char ∧ c0 ≠ "}"%char).
  { intros c0 H0. split_and!; intros ->; discriminate H0. }
  destruct (Hno c H) as (H1 & H2 & H3 & H4 & H5 & H6).
  split_and!.
  - unfold is_ws.
    destruct (N.eqb_spec (N_of_ascii c) 32) as [E|_].
    { destruct H1. by rewrite <- (ascii_N_embedding c), E. }
    destruct (N.eqb_spec (N_of_ascii c) 9) as [E|_].
    { destruct H2. by rewrite <- (ascii_N_embedding c), E. }
    destruct (N.eqb_spec (N_of_ascii c) 10) as [E|_].
    { destruct H3. by rewrite <- (ascii_N_embedding c), E. }
    destruct (N.eqb_spec (N_of_ascii c) 13) as [E|_]; [|done].
    destruct H4. by rewrite <- (ascii_N_embedding c), E.
  - by destruct (Ascii.eqb_spec c "]").
  - by destruct (Ascii.eqb_spec c "}").
Qed.

Lemma skip_ws_head c r : is_ws c = false → skip_ws (String c r) = String c r.
Proof. intros H. simpl. by rewrite H. Qed.

Lemma skip_ws_space r : skip_ws (String " " r) = skip_ws r.
Proof. reflexivity. Qed.

Lemma value_solid n s x : value n s = Some x → skip_ws s = s.
Proof.
  intros (c & r & -> & Hws & _)%value_head. by apply skip_ws_head.
Qed.

(** A number text followed by a closing character is read as a number. *)
Lemma value_number n t rest :
  is_number t = true → closes rest = true →
  value (S n) (t +:+ rest) = Some (TNum t, rest).
Proof.
  intros Ht Hr. pose proof (number_app _ _ Ht Hr) as Hnum.
  destruct (number_head _ Ht) as (c & t' & -> & Hc).
  change (String c t' +:+ rest) with (String c (t' +:+ rest)) in *.
  assert (Hne : ∀ d : ascii, Ascii.eqb d "-" = false → is_digit d = false →
            Ascii.eqb c d = false).
  { intros d D1 D2. destruct (Ascii.eqb_spec c d) as [->|]; [|done].
    destruct Hc; congruence. }
  cbn [value].
  rewrite (Hne "{"%char), (Hne "["%char), (Hne dquote), (Hne "t"%char),
    (Hne "f"%char), (Hne "n"%char) by done.
  by rewrite Hnum.
Qed.

Lemma value_string n s rest :
  value (S n) (Json.quote s +:+ rest) = Some (TStr s, rest).
Proof.
  destruct (string_body_quote s rest) as (body & -> & Hb).
  cbn [value]. change (Ascii.eqb dquote "{") with false.
  change (Ascii.eqb dquote "[") with false.
  change (Ascii.eqb dquote dquote) with true. cbv iota. by rewrite Hb.
Qed.

Section floats.
Variable float_repr : fval → string.

Section loop_proofs.
Variable value : string → option (tree * string).
Hypothesis value_starts : ∀ s x, value s = Some x →
  ∃ c r, s = String c r ∧ is_ws c = false ∧
         Ascii.eqb c "]" = false ∧ Ascii.eqb c "}" = false.

Lemma elements_head k s x :
  elements value k s = Some x →
  ∃ c r, s = String c r ∧ is_ws c = false ∧ Ascii.eqb c "]" = false.
Proof.
  destruct k as [|k]; [done|]. simpl.
  destruct (value s) as [vr|] eqn:E; [|done]. intros _.
  destruct (value_starts _ _ E) as (c & r & -> & H1 & H2 & _). by exists c, r.
Qed.

Lemma elements_ok (vs : list json) (k : nat) rest :
  Forall (reads float_repr value) vs → vs ≠ [] → length vs ≤ k →
  elements value k
    (Json.join ", " (map (Json.dumps float_repr) vs) +:+ String "]" rest)
  = Some (map (tree_of float_repr) vs, rest).
Proof.
  intros Hvs. revert k. induction Hvs as [|v vs Hv Hvs IH]; intros k Hne Hk; [done|].
  destruct k as [|k]; [simpl in Hk; lia|].
  destruct vs as [|v2 vs].
  - cbn [map Json.join elements]. rewrite (Hv (String "]" rest)) by done.
    cbn [mbind option_bind fst snd]. by rewrite (skip_ws_head "]") by done.
  - change (Json.join ", " (map (Json.dumps float_repr) (v :: v2 :: vs)))
      with (Json.dumps float_repr v +:+ ", "
            +:+ Json.join ", " (map (Json.dumps float_repr) (v2 :: vs))).
    rewrite !string_app_assoc.
    set (tail := Json.join ", " (map (Json.dumps float_repr) (v2 :: vs))
                 +:+ String "]" rest).
    change (", " +:+ tail) with (String "," (String " " tail)).
    assert (Htail : elements value k tail
                    = Some (map (tree_of float_repr) (v2 :: vs), rest)).
    { apply IH; [done|]. simpl in *. lia. }
    destruct (elements_head _ _ _ Htail) as (c & r & Etail & Hws & _).
    cbn [elements]. rewrite (Hv (String "," (String " " tail))) by done.
    cbn [mbind option_bind fst snd]. rewrite (skip_ws_head ",") by done.
    change (Ascii.eqb "," ",") with true. cbv iota.
    rewrite skip_ws_space, Etail, (skip_ws_head _ _ Hws), <- Etail, Htail. done.
Qed.

Lemma members_ok (kvs : list (string * json)) (k : nat) rest :
  Forall (λ kv, reads float_repr value (snd kv)) kvs → kvs ≠ [] → length kvs ≤ k →
  members value k
    (Json.join ", "
       (map (λ kv, Json.quote (fst kv) +:+ ": " +:+ Json.dumps float_repr (snd kv)) kvs)
     +:+ String "}" rest)
  = Some (map (λ kv, (fst kv, tree_of float_repr (snd kv))) kvs, rest).
Proof.
  intros Hvs. revert k. induction Hvs as [|[key v] kvs Hv Hvs IH]; intros k Hne Hk; [done|].
  destruct k as [|k]; [simpl in Hk; lia|]. cbn [fst snd] in Hv.
  assert (Hmember : ∀ tail, closes tail = true →
            ∃ body,
              (Json.quote key +:+ ": " +:+ Json.dumps float_repr v) +:+ tail
              = String dquote body ∧
              string_body body
              = Some (key, String ":" (String " " (Json.dumps float_repr v +:+ tail))) ∧
              value (skip_ws (String " " (Json.dumps float_repr v +:+ tail)))
              = Some (tree_of float_repr v, tail)).
  { intros tail Ht.
    destruct (string_body_quote key (": " +:+ Json.dumps float_repr v +:+ tail))
      as (body & Eb & Hb).
    exists body. rewrite !string_app_assoc. split; [done|]. split; [done|].
    pose proof (Hv tail Ht) as Hval.
    destruct (value_starts _ _ Hval) as (c & r & E & Hws & _).
    by rewrite skip_ws_space, E, (skip_ws_head _ _ Hws), <- E. }
  destruct kvs as [|kv2 kvs].
  - cbn [map Json.join fst snd].
    destruct (Hmember (String "}" rest)) as (body & -> & Hb & Hval); [done|].
    cbn [members]. change (Ascii.eqb dquote dquote) with true. cbv iota.
    rewrite Hb. cbn [mbind option_bind fst snd]. rewrite (skip_ws_head ":") by done.
    change (Ascii.eqb ":" ":") with true. cbv iota.
    rewrite Hval. cbn [mbind option_bind fst snd].
    by rewrite (skip_ws_head "}") by done.
  - set (item := λ kv : string * json,
                   Json.quote (fst kv) +:+ ": " +:+ Json.dumps float_repr (snd kv)).
    change (Json.join ", " (map item ((key, v) :: kv2 :: kvs)))
      with ((Json.quote key +:+ ": " +:+ Json.dumps float_repr v) +:+ ", "
            +:+ Json.join ", " (map item (kv2 :: kvs))).
    rewrite (string_app_assoc _ (", " +:+ _)), (string_app_assoc ", ").
    set (tail := Json.join ", " (map item (kv2 :: kvs)) +:+ String "}" rest).
    change (", " +:+ tail) with (String "," (String " " tail)).
    assert (Htail : members value k tail
                    = Some (map (λ kv, (fst kv, tree_of float_repr (snd kv)))
                              (kv2 :: kvs), rest)).
    { apply IH; [done|]. simpl in *. lia. }
    assert (Hsolid : skip_ws tail = tail).
    { destruct k as [|k']; [done|]. destruct tail as [|c r]; [done|].
      simpl in Htail. destruct (Ascii.eqb_spec c dquote) as [->|]; done. }
    destruct (Hmember (String "," (String " " tail))) as (body & -> & Hb & Hval);
      [done|].
    cbn [members]. change (Ascii.eqb dquote dquote) with true. cbv iota.
    rewrite Hb. cbn [mbind option_bind fst snd]. rewrite (skip_ws_head ":") by done.
    change (Ascii.eqb ":" ":") with true. cbv iota.
    rewrite Hval. cbn [mbind option_bind fst snd].
    rewrite (skip_ws_head ",") by done.
    change (Ascii.eqb "," ",") with true. cbv iota.
    rewrite skip_ws_space, Hsolid, Htail. done.
Qed.

End loop_proofs.

End floats.

End json_values.

Section json_round_trip.
Import JsonText.
Implicit Types (s t u r rest : string) (c : ascii).

(** Induction on a JSON value, with the values inside a list or an object
    at hand. *)
Lemma json_nested_ind (P : json → Prop) :
  P JNull → (∀ b, P (JBool b)) → (∀ z, P (JInt z)) → (∀ x, P (JFloat x)) →
  (∀ s, P (JStr s)) →
  (∀ l, Forall P l → P (JList l)) →
  (∀ kvs, Forall (λ kv, P (snd kv)) kvs → P (JObj kvs)) →
  ∀ j, P j.
Proof.
  intros Hnull Hbool Hint Hfloat Hstr Hlist Hobj. fix IH 1.
  intros [| b | z | x | s | l | kvs];
    [exact Hnull|apply Hbool|apply Hint|apply Hfloat|apply Hstr| |].
  - apply Hlist. induction l as [|j l IHl]; constructor; [apply IH|apply IHl].
  - apply Hobj. induction kvs as [|[k j] kvs IHl]; constructor; [apply IH|apply IHl].
Qed.

Lemma join_count (sep : string) (items : list string) :
  0 < String.length sep →
  length items ≤ S (String.length (Json.join sep items)).
Proof.
  intros Hsep. induction items as [|x items IH]; [simpl; lia|].
  destruct items as [|y items]; [simpl; lia|].
  change (Json.join sep (x :: y :: items))
    with (x +:+ sep +:+ Json.join sep (y :: items)).
  rewrite !string_length_app. cbn [length] in *. lia.
Qed.

Lemma join_longer (sep : string) (items : list string) (x : string) :
  x ∈ items → String.length x ≤ String.length (Json.join sep items).
Proof.
  induction items as [|y items IH]; [by intros ?%elem_of_nil|].
  intros Hx. destruct items as [|z items].
  - apply elem_of_cons in Hx as [->|?%elem_of_nil]; done.
  - change (Json.join sep (y :: z :: items))
      with (y +:+ sep +:+ Json.join sep (z :: items)).
    rewrite !string_length_app.
    apply elem_of_cons in Hx as [->|Hx]; [lia|]. specialize (IH Hx). lia.
Qed.

Section floats.
Variable float_repr : fval → string.
Hypothesis float_number : ∀ q, is_number (float_repr (FNum q)) = true.

(** The reader reads back every value without NaN that [Json.dumps]
    writes, given fuel beyond its depth. *)
Lemma value_dumps (j : json) :
  finite j = true → ∀ n, depth j < n → reads float_repr (value n) j.
Proof.
  induction j as [| b | z | x | s | l IHl | kvs IHl] using json_nested_ind;
    intros Hfin n Hn rest Hrest; (destruct n as [|n]; [lia|]).
  - reflexivity.
  - destruct b; reflexivity.
  - apply value_number; [apply pretty_Z_number|done].
  - destruct x as [q|]; [|done]. apply value_number; [apply float_number|done].
  - apply value_string.
  - destruct l as [|v l]; [reflexivity|].
    set (items := map (Json.dumps float_repr) (v :: l)).
    change (Json.dumps float_repr (JList (v :: l)))
      with ("[" +:+ Json.join ", " items +:+ "]").
    change (("[" +:+ Json.join ", " items +:+ "]") +:+ rest)
      with (String "[" ((Json.join ", " items +:+ "]") +:+ rest)).
    rewrite string_app_assoc.
    change ("]" +:+ rest) with (String "]" rest).
    set (text := Json.join ", " items +:+ String "]" rest).
    assert (Hall : Forall (reads float_repr (value n)) (v :: l)).
    { cbn [finite] in Hfin. cbn [depth] in Hn.
      apply Forall_forall. intros w Hw.
      rewrite Forall_forall in IHl. apply (IHl w Hw).
      - rewrite forallb_forall in Hfin. apply Hfin. by apply list_elem_of_In.
      - assert (depth w ≤ foldr (λ v d, Nat.max (depth v) d) 0 (v :: l)); [|lia].
        clear -Hw. induction Hw as [w l'|w w' l' Hw IH]; simpl; lia. }
    assert (Hel : elements (value n) (String.length (String "[" text)) text
                  = Some (map (tree_of float_repr) (v :: l), rest)).
    { apply elements_ok; [apply value_head|done|done|].
      pose proof (join_count ", " items ltac:(simpl; lia)) as Hc. unfold items in Hc at 1.
      rewrite length_map in Hc. unfold text.
      change (String.length (String ?c ?t)) with (S (String.length t)).
      rewrite string_length_app. cbn [length] in *. lia. }
    destruct (elements_head _ (value_head n) _ _ _ Hel) as (c & r & E & Hws & Hc).
    cbn [value]. change (Ascii.eqb "[" "{") with false.
    change (Ascii.eqb "[" "[") with true. cbv iota.
    rewrite E, (skip_ws_head _ _ Hws), Hc, <- E, Hel. done.
  - destruct kvs as [|kv kvs]; [reflexivity|].
    set (item := λ kv : string * json,
                   Json.quote (fst kv) +:+ ": " +:+ Json.dumps float_repr (snd kv)).
    set (items := map item (kv :: kvs)).
    change (Json.dumps float_repr (JObj (kv :: kvs)))
      with ("{" +:+ Json.join ", " items +:+ "}").
    change (("{" +:+ Json.join ", " items +:+ "}") +:+ rest)
      with (String "{" ((Json.join ", " items +:+ "}") +:+ rest)).
    rewrite string_app_assoc.
    change ("}" +:+ rest) with (String "}" rest).
    set (text := Json.join ", " items +:+ String "}" rest).
    assert (Hall : Forall (λ kv, reads float_repr (value n) (snd kv)) (kv :: kvs)).
    { cbn [finite] in Hfin. cbn [depth] in Hn.
      apply Forall_forall. intros w Hw.
      rewrite Forall_forall in IHl. apply (IHl w Hw).
      - rewrite forallb_forall in Hfin. apply (Hfin w). by apply list_elem_of_In.
      - assert (depth (snd w)
                ≤ foldr (λ kv d, Nat.max (depth (snd kv)) d) 0 (kv :: kvs)); [|lia].
        clear -Hw. induction Hw as [w l'|w w' l' Hw IH]; simpl; lia. }
    assert (Hel : members (value n) (String.length (String "{" text)) text
                  = Some (map (λ kv, (fst kv, tree_of float_repr (snd kv)))
                            (kv :: kvs), rest)).
    { apply members_ok; [apply value_head|done|done|].
      pose proof (join_count ", " items ltac:(simpl; lia)) as Hc. unfold items in Hc at 1.
      rewrite length_map in Hc. unfold text.
      change (String.length (String ?c ?t)) with (S (String.length t)).
      rewrite string_length_app. cbn [length] in *. lia. }
    assert (Htext : ∃ r, text = String dquote r) .
    { assert (Hitem : ∃ b, item kv = String dquote b).
      { unfold item, Json.quote. change (ascii_of_N 34) with dquote.
        simpl. by eexists. }
      destruct Hitem as [b Eb]. unfold text, items. cbn [map].
      destruct (map item kvs) as [|i2 its]; cbn [Json.join]; rewrite Eb;
        simpl; by eexists. }
    destruct Htext as [r E].
    cbn [value]. change (Ascii.eqb "{" "{") with true. cbv iota.
    rewrite E, (skip_ws_head dquote) by done.
    change (Ascii.eqb dquote "}") with false. cbv iota.
    rewrite <- E, Hel. done.
Qed.

Lemma depth_le_length (j : json) : depth j ≤ String.length (Json.dumps float_repr j).
Proof.
  induction j as [| b | z | x | s | l IHl | kvs IHl] using json_nested_ind;
    try (simpl; lia).
  - change (Json.dumps float_repr (JList l))
      with ("[" +:+ Json.join ", " (map (Json.dumps float_repr) l) +:+ "]").
    rewrite !string_length_app. cbn [depth String.length].
    assert (foldr (λ v d, Nat.max (depth v) d) 0 l
            ≤ String.length (Json.join ", " (map (Json.dumps float_repr) l))); [|lia].
    assert (Hin : ∀ v, v ∈ l →
              depth v ≤ String.length (Json.join ", " (map (Json.dumps float_repr) l))).
    { intros v Hv. rewrite Forall_forall in IHl. etrans; [apply (IHl v Hv)|].
      apply join_longer. by apply list_elem_of_fmap_2. }
    revert Hin. generalize (String.length (Json.join ", " (map (Json.dumps float_repr) l))).
    intros m. clear. induction l as [|v l IH]; intros Hin; simpl; [lia|].
    apply Nat.max_lub; [apply Hin; left|]. apply IH. intros w Hw. apply Hin. by right.
  - set (item := λ kv : string * json,
                   Json.quote (fst kv) +:+ ": " +:+ Json.dumps float_repr (snd kv)).
    change (Json.dumps float_repr (JObj kvs))
      with ("{" +:+ Json.join ", " (map item kvs) +:+ "}").
    rewrite !string_length_app. cbn [depth String.length].
    assert (foldr (λ kv d, Nat.max (depth (snd kv)) d) 0 kvs
            ≤ String.length (Json.join ", " (map item kvs))); [|lia].
    assert (Hin : ∀ kv, kv ∈ kvs →
              depth (snd kv) ≤ String.length (Json.join ", " (map item kvs))).
    { intros kv Hv. rewrite Forall_forall in IHl. etrans; [apply (IHl kv Hv)|].
      etrans; [|apply (join_longer _ _ (item kv)); by apply list_elem_of_fmap_2].
      unfold item. rewrite !string_length_app. lia. }
    revert Hin. generalize (String.length (Json.join ", " (map item kvs))).
    intros m. clear. induction kvs as [|v l IH]; intros Hin; simpl; [lia|].
    apply Nat.max_lub; [apply Hin; left|]. apply IH. intros w Hw. apply Hin. by right.
Qed.

(** Round trip: what [Json.dumps] writes for a value without NaN is read
    back as that value. *)
Lemma loads_dumps (j : json) :
  finite j = true →
  loads (Json.dumps float_repr j) = Some (tree_of float_repr j).
Proof.
  intros Hfin. unfold loads.
  pose proof (value_dumps j Hfin (S (String.length (Json.dumps float_repr j)))) as Hv.
  specialize (Hv ltac:(pose proof (depth_le_length j); lia) EmptyString eq_refl).
  rewrite string_app_nil_r in Hv.
  rewrite (value_solid _ _ _ Hv), Hv. done.
Qed.

End floats.

End json_round_trip.

(** C6. Wherever the metrics file can be written, [guardarMetricas]
    succeeds and leaves at [file_path] a file of exactly four lines: the
    JSON texts of the train metrics, the test metrics, the train confusion
    matrix and the test confusion matrix, in this order, one per line.
    Where no metric is NaN and a float is written as a JSON number, a JSON
    reader reads each line back as an object, with the keys of the record
    in their order and its values.  What the file held before is gone, the
    directories of the path exist afterwards, and nothing else in the file
    system has changed. *)
Theorem guardarMetricas_writes_four_lines (float_repr : fval → string)
    (metrics_train metrics_test cm_metrics_train cm_metrics_test : dict)
    (file_path : path) (s : fs) :
  (∀ x, printable (float_repr x) = true) →
  writable s file_path →
  ∃ s' content,
    guardarMetricas float_repr metrics_train metrics_test cm_metrics_train
      cm_metrics_test file_path s = (s', Ok tt) ∧
    s' !! file_path = Some (File content) ∧
    content
      = Json.dumps float_repr (JObj metrics_train) +:+ newline
        +:+ Json.dumps float_repr (JObj metrics_test) +:+ newline
        +:+ Json.dumps float_repr (JObj cm_metrics_train) +:+ newline
        +:+ Json.dumps float_repr (JObj cm_metrics_test) +:+ newline ∧
    lines content
      = [ Json.dumps float_repr (JObj metrics_train);
          Json.dumps float_repr (JObj metrics_test);
          Json.dumps float_repr (JObj cm_metrics_train);
          Json.dumps float_repr (JObj cm_metrics_test) ] ∧
    ((∀ q, JsonText.is_number (float_repr (FNum q)) = true) →
     Forall (λ record, finite (JObj record) = true)
       [metrics_train; metrics_test; cm_metrics_train; cm_metrics_test] →
     map JsonText.loads (lines content)
     = map (λ record : dict,
              Some (JsonText.TObj
                      (map (λ kv, (fst kv, tree_of float_repr (snd kv))) record)))
         [metrics_train; metrics_test; cm_metrics_train; cm_metrics_test]) ∧
    s' !! dirname file_path = Some Dir ∧
    (∀ k, 1 ≤ k ≤ length (dirname file_path) →
          s' !! take k (dirname file_path) = Some Dir) ∧
    (∀ q, q ≠ file_path → ¬ q `prefix_of` dirname file_path → s' !! q = s !! q).
Proof.
  intros Hrepr Hw.
  destruct (guardarMetricas_run float_repr metrics_train metrics_test
              cm_metrics_train cm_metrics_test file_path s Hw)
    as (s' & Hrun & Hfile & Hdirs & Hframe).
  eexists s', _. split; [exact Hrun|]. split; [exact Hfile|].
  split; [reflexivity|].
  assert (Hlines : lines
            (Json.dumps float_repr (JObj metrics_train) +:+ newline
             +:+ Json.dumps float_repr (JObj metrics_test) +:+ newline
             +:+ Json.dumps float_repr (JObj cm_metrics_train) +:+ newline
             +:+ Json.dumps float_repr (JObj cm_metrics_test) +:+ newline)
          = [ Json.dumps float_repr (JObj metrics_train);
              Json.dumps float_repr (JObj metrics_test);
              Json.dumps float_repr (JObj cm_metrics_train);
              Json.dumps float_repr (JObj cm_metrics_test) ]).
  { rewrite !lines_app_newline by (by apply dumps_printable).
    by rewrite lines_newline_end by (by apply dumps_printable). }
  split_and!; try done.
  - intros Hnum Hfin. rewrite Hlines.
    apply Forall_cons in Hfin as [F1 Hfin]. apply Forall_cons in Hfin as [F2 Hfin].
    apply Forall_cons in Hfin as [F3 Hfin]. apply Forall_cons in Hfin as [F4 _].
    cbn [map].
    by rewrite !(loads_dumps float_repr Hnum) by done.
  - rewrite <- (firstn_all (dirname file_path)) at 1. apply Hdirs.
    destruct Hw as (Hd & _). destruct (dirname file_path); [done|simpl; lia].
Qed.

Lemma guardarMetricas_writes_four_lines_witness :
  ((∀ x, printable (sample_float_repr x) = true) ∧
   writable sample_fs default_metrics_path) ∧
  ∃ s' content,
    guardarMetricas sample_float_repr sample_metrics sample_metrics sample_cm
      sample_cm default_metrics_path sample_fs = (s', Ok tt) ∧
    s' !! default_metrics_path = Some (File content) ∧
    content
      = Json.dumps sample_float_repr (JObj sample_metrics) +:+ newline
        +:+ Json.dumps sample_float_repr (JObj sample_metrics) +:+ newline
        +:+ Json.dumps sample_float_repr (JObj sample_cm) +:+ newline
        +:+ Json.dumps sample_float_repr (JObj sample_cm) +:+ newline ∧
    lines content
      = [ Json.dumps sample_float_repr (JObj sample_metrics);
          Json.dumps sample_float_repr (JObj sample_metrics);
          Json.dumps sample_float_repr (JObj sample_cm);
          Json.dumps sample_float_repr (JObj sample_cm) ] ∧
    map JsonText.loads (lines content)
      = [ Some (JsonText.TObj
                  [ ("type", JsonText.TStr "metrics");
                    ("dataset", JsonText.TStr "train");
                    ("precision", JsonText.TNum "0.5") ]);
          Some (JsonText.TObj
                  [ ("type", JsonText.TStr "metrics");
                    ("dataset", JsonText.TStr "train");
                    ("precision", JsonText.TNum "0.5") ]);
          Some (JsonText.TObj
                  [ ("type", JsonText.TStr "cm_matrix");
                    ("dataset", JsonText.TStr "train");
                    ("true_0", JsonText.TObj
                                 [ ("predicted_0", JsonText.TNum "2");
                                   ("predicted_1", JsonText.TNum "0") ]) ]);
          Some (JsonText.TObj
                  [ ("type", JsonText.TStr "cm_matrix");
                    ("dataset", JsonText.TStr "train");
                    ("true_0", JsonText.TObj
                                 [ ("predicted_0", JsonText.TNum "2");
                                   ("predicted_1", JsonText.TNum "0") ]) ]) ] ∧
    s' !! dirname default_metrics_path = Some Dir ∧
    (∀ k, 1 ≤ k ≤ length (dirname default_metrics_path) →
          s' !! take k (dirname default_metrics_path) = Some Dir) ∧
    (∀ q, q ≠ default_metrics_path →
          ¬ q `prefix_of` dirname default_metrics_path → s' !! q = sample_fs !! q).
Proof.
  assert (Hrepr : ∀ x, printable (sample_float_repr x) = true)
    by (intros [q|]; reflexivity).
  assert (Hw : writable sample_fs default_metrics_path)
    by (apply (bool_decide_unpack _); vm_compute; reflexivity).
  split; [split; [exact Hrepr|exact Hw]|].
  destruct (guardarMetricas_writes_four_lines sample_float_repr sample_metrics
              sample_metrics sample_cm sample_cm default_metrics_path sample_fs
              Hrepr Hw)
    as (s' & content & Hrun & Hfile & Hcontent & Hlines & Hjson & Hdir & Hdirs & Hframe).
  exists s', content. split_and!; try done.
  apply Hjson; [intros q; reflexivity|].
  repeat constructor.
Defined.

(** * The end-to-end scenario of the specification *)

(** Ten rows, two of them with education 0: eight rows are left. *)
Example scenario_cleaning :
  raw_dataset scenario_raw ∧
  ∃ h' ld lx d x y,
    limpiarDatos 0 [scenario_raw] = (h', Ok (ld, lx, y)) ∧
    h' !! ld = Some d ∧ h' !! lx = Some x ∧
    nrows d = 8 ∧ nrows x = 8 ∧ series_length y = 8 ∧
    index d = [0; 1; 2; 4; 5; 6; 8; 9]%Z ∧
    map (field "EDUCATION") (frame_rows d)
      = [Some 1; Some 2; Some 3; Some 4; Some 4; Some 4; Some 2; Some 1]%Z.
Proof.
  split; [by apply (bool_decide_unpack _); vm_compute|].
  eexists _, _, _, _, _, _. split; [by vm_compute|].
  split; [reflexivity|]. split; [reflexivity|]. by vm_compute.
Qed.

(** Labels 1, 0, 1, 0 predicted as 1, 0, 0, 0. *)
Example scenario_metrics :
  let y_true := labels_series [1; 0; 1; 0]%Z in
  let y_pred := [1; 0; 0; 0]%Z in
  confusion_matrix y_true y_pred = Ok [[2; 0]; [1; 1]] ∧
  precision_score y_true y_pred 0 = Ok (FNum 1%Qc) ∧
  recall_score y_true y_pred 0 = Ok (FNum (Q2Qc (1 # 2))) ∧
  cm_record "train" [[2; 0]; [1; 1]]
  = Ok [ ("type", JStr "cm_matrix");
         ("dataset", JStr "train");
         ("true_0", JObj [ ("predicted_0", JInt 2); ("predicted_1", JInt 0) ]);
         ("true_1", JObj [ ("predicted_0", JInt 1); ("predicted_1", JInt 1) ]) ].
Proof. by vm_compute. Qed.

(** * Further properties: errors and edges of the Data Cleaner *)

Section store_errors.
Implicit Types (h : heap) (f : DataFrame) (r : loc).

Lemma drop_raise h r f cs e :
  h !! r = Some f → frame_drop cs f = Raise e → drop r cs h = (h, Raise e).
Proof.
  intros E D. unfold drop. erewrite bind_ok; [|by apply load_ok].
  erewrite bind_raise; [done|]. unfold lift, lift_result. by rewrite D.
Qed.

Lemma getitem_raise h r f c e :
  h !! r = Some f → frame_getitem c f = Raise e → getitem r c h = (h, Raise e).
Proof.
  intros E G. unfold getitem. erewrite bind_ok; [|by apply load_ok].
  unfold lift, lift_result. by rewrite G.
Qed.

Lemma getitem_mask_raise h r f b e :
  h !! r = Some f → frame_getitem_mask b f = Raise e →
  getitem_mask r b h = (h, Raise e).
Proof.
  intros E G. unfold getitem_mask. erewrite bind_ok; [|by apply load_ok].
  erewrite bind_raise; [done|]. unfold lift, lift_result. by rewrite G.
Qed.

Lemma setitem_raise h r f c s e :
  h !! r = Some f → frame_setitem c s f = Raise e →
  setitem r c s h = (h, Raise e).
Proof.
  intros E G. unfold setitem. erewrite bind_ok; [|by apply load_ok].
  erewrite bind_raise; [done|]. unfold lift, lift_result. by rewrite G.
Qed.

End store_errors.

(** Whether [limpiarDatos] returns, and with which exception it stops, is
    decided by the value-level reading. *)
Lemma limpiarDatos_raises (h : heap) (r : loc) (raw : DataFrame) (e : exn) :
  h !! r = Some raw → clean_value raw = Raise e →
  (limpiarDatos r h).2 = Raise e.
Proof.
  intros Hr. unfold clean_value, limpiarDatos.
  erewrite bind_ok; [|by apply copy_ok].
  erewrite bind_ok; [|apply rename_ok, lookup_snoc].
  destruct (frame_drop ["ID"] _) as [f2|e2] eqn:E2.
  2:{ rewrite (bind_raise _ _ _ _ _ (drop_raise _ _ _ _ _ (lookup_snoc _ _) E2)).
      by intros [= ->]. }
  erewrite bind_ok; [|eapply drop_ok; [apply lookup_snoc|exact E2]].
  erewrite bind_ok; [|apply dropna_ok, lookup_snoc].
  rewrite result_bind_ok.
  destruct (frame_getitem "EDUCATION" (frame_dropna f2)) as [e3|e3] eqn:E3.
  2:{ rewrite (bind_raise _ _ _ _ _ (getitem_raise _ _ _ _ _ (lookup_snoc _ _) E3)).
      by intros [= ->]. }
  erewrite bind_ok; [|eapply getitem_ok; [apply lookup_snoc|exact E3]].
  rewrite result_bind_ok.
  destruct (frame_getitem "MARRIAGE" (frame_dropna f2)) as [m3|m3] eqn:E4.
  2:{ rewrite (bind_raise _ _ _ _ _ (getitem_raise _ _ _ _ _ (lookup_snoc _ _) E4)).
      by intros [= ->]. }
  erewrite bind_ok; [|eapply getitem_ok; [apply lookup_snoc|exact E4]].
  rewrite result_bind_ok.
  destruct (bool_and _ _) as [keep|e5] eqn:E5.
  2:{ erewrite bind_raise; [|reflexivity]. by intros [= ->]. }
  erewrite bind_ok; [|reflexivity].
  rewrite result_bind_ok.
  destruct (frame_getitem_mask keep _) as [f4|e6] eqn:E6.
  2:{ rewrite (bind_raise _ _ _ _ _ (getitem_mask_raise _ _ _ _ _ (lookup_snoc _ _) E6)).
      by intros [= ->]. }
  erewrite bind_ok; [|eapply getitem_mask_ok; [apply lookup_snoc|exact E6]].
  rewrite result_bind_ok.
  destruct (frame_getitem "EDUCATION" f4) as [e4|e7] eqn:E7.
  2:{ rewrite (bind_raise _ _ _ _ _ (getitem_raise _ _ _ _ _ (lookup_snoc _ _) E7)).
      by intros [= ->]. }
  erewrite bind_ok; [|eapply getitem_ok; [apply lookup_snoc|exact E7]].
  rewrite result_bind_ok.
  destruct (frame_setitem _ _ f4) as [d|e8] eqn:E8.
  2:{ rewrite (bind_raise _ _ _ _ _ (setitem_raise _ _ _ _ _ _ (lookup_snoc _ _) E8)).
      by intros [= ->]. }
  erewrite bind_ok; [|eapply setitem_ok; [apply lookup_snoc|exact E8]].
  rewrite result_bind_ok.
  set (h4 := ((((h ++ [raw]) ++ _) ++ _) ++ _)).
  assert (Hd : <[length h4 := d]> (h4 ++ [f4]) !! length h4 = Some d).
  { apply list_lookup_insert_eq. rewrite length_app. simpl. lia. }
  destruct (frame_drop ["default"] d) as [x|e9] eqn:E9.
  2:{ rewrite (bind_raise _ _ _ _ _ (drop_raise _ _ _ _ _ Hd E9)).
      by intros [= ->]. }
  erewrite bind_ok; [|eapply drop_ok; [exact Hd|exact E9]].
  rewrite result_bind_ok.
  assert (Hd' : (<[length h4 := d]> (h4 ++ [f4]) ++ [x]) !! length h4 = Some d).
  { rewrite lookup_app_l; [done|]. rewrite length_insert, length_app. simpl. lia. }
  destruct (frame_getitem "default" d) as [y|e10] eqn:E10.
  2:{ rewrite (bind_raise _ _ _ _ _ (getitem_raise _ _ _ _ _ Hd' E10)).
      by intros [= ->]. }
  done.
Qed.

Section more_operations.
Implicit Types (f : DataFrame) (c k : string).

Lemma renamed_not_elem old new (l : list string) c :
  c ∉ l → c ≠ new → c ∉ map (rename_label [(old, new)]) l.
Proof.
  intros Hc Hne (n & E & Hn)%list_elem_of_fmap.
  rewrite rename_label_single in E.
  destruct (String.eqb_spec n old); congruence.
Qed.

Lemma renamed_absent old new (l : list string) :
  old ∉ l → map (rename_label [(old, new)]) l = l.
Proof.
  intros Ho. rewrite <- (map_id l) at 2. apply map_ext_in.
  intros n Hn%list_elem_of_In. rewrite rename_label_single.
  destruct (String.eqb_spec n old); congruence.
Qed.

Lemma frame_getitem_missing c f :
  c ∉ names f → frame_getitem c f = Raise (KeyError c).
Proof. intros Hc. unfold frame_getitem. by rewrite labelled_none. Qed.

Lemma drop_column_not_elem k f c : c ∉ names f → c ∉ names (drop_column k f).
Proof.
  intros Hc. rewrite drop_column_names, list_elem_of_In, filter_In.
  rewrite <- list_elem_of_In. by intros [? _].
Qed.

Lemma drop_column_gone k f : k ∉ names (drop_column k f).
Proof.
  rewrite drop_column_names, list_elem_of_In, filter_In.
  intros [_ H]. by rewrite String.eqb_refl in H.
Qed.

End more_operations.

(** The stages from the missing-value filter to the recoding, for a frame
    that need not have a label column. *)
Lemma stage_core (f : DataFrame) :
  usable f →
  ∃ e m keep f4 e' f5,
    frame_getitem "EDUCATION" (frame_dropna f) = Ok e ∧
    frame_getitem "MARRIAGE" (frame_dropna f) = Ok m ∧
    bool_and (series_ne e 0) (series_ne m 0) = Ok keep ∧
    frame_getitem_mask keep (frame_dropna f) = Ok f4 ∧
    frame_getitem "EDUCATION" f4 = Ok e' ∧
    frame_setitem "EDUCATION"
      (series_astype_category
         (series_apply (λ x, if cell_ge x 4 then Some 4%Z else x) e')) f4 = Ok f5 ∧
    usable f5 ∧ names f5 = names f ∧
    to_table f5
    = Cleaner.collapse_education
        (Cleaner.drop_unavailable (Cleaner.drop_missing (to_table f))).
Proof.
  intros (Hr & Hd & HE & HM).
  (* dropna *)
  set (f3 := frame_dropna f).
  assert (N3 : names f3 = names f) by apply frame_select_names.
  assert (R3 : rectangular f3) by (by apply frame_dropna_rect).
  assert (T3 : to_table f3 = Cleaner.drop_missing (to_table f))
    by (by apply frame_dropna_table).
  assert (D3 : NoDup (names f3)) by (by rewrite N3).
  (* selection *)
  destruct (frame_getitem_rows "EDUCATION" f3 R3 D3) as [dte Ee]; [by rewrite N3|].
  destruct (frame_getitem_rows "MARRIAGE" f3 R3 D3) as [dtm Em]; [by rewrite N3|].
  set (mask := map Cleaner.available (frame_rows f3)).
  assert (Hlen : length mask = length (index f3))
    by (unfold mask; by rewrite length_map, frame_rows_length).
  set (f4 := frame_select mask f3).
  assert (N4 : names f4 = names f) by (unfold f4; by rewrite frame_select_names).
  assert (R4 : rectangular f4) by (by apply frame_select_rect).
  assert (D4 : NoDup (names f4)) by (by rewrite N4).
  assert (T4 : to_table f4 = Cleaner.drop_unavailable (to_table f3)).
  { unfold f4. rewrite frame_select_table by done. unfold Cleaner.drop_unavailable.
    f_equal. unfold mask. simpl. apply mask_select_filter. }
  assert (E4 : frame_getitem_mask (mkBool (index f3) mask) f3 = Ok f4).
  { unfold frame_getitem_mask. simpl. by rewrite !decide_True. }
  clearbody f4.
  (* recoding *)
  destruct (frame_getitem_rows "EDUCATION" f4 R4 D4) as [dte' Ee']; [by rewrite N4|].
  set (g := λ x : cell, if cell_ge x 4 then Some 4%Z else x).
  set (data := map g (map (field "EDUCATION") (frame_rows f4))).
  set (f5 := mkFrame (index f4)
               (map (λ col, if String.eqb (cname col) "EDUCATION"
                            then mkColumn "EDUCATION" Category data else col)
                    (columns f4))).
  assert (Hlen5 : length data = length (index f4))
    by (unfold data; by rewrite !length_map, frame_rows_length).
  assert (N5 : names f5 = names f4).
  { unfold names, f5. simpl. rewrite map_map. apply map_ext. intros col.
    by destruct (String.eqb_spec (cname col) "EDUCATION"). }
  eexists _, _, (mkBool (index f3) mask), f4, _, f5.
  split; [exact Ee|]. split; [exact Em|]. split_and!.
  - unfold bool_and, series_ne. simpl. rewrite decide_True by done.
    do 2 f_equal. rewrite !map_map. apply zip_with_map_diag.
  - exact E4.
  - exact Ee'.
  - unfold frame_setitem. simpl. rewrite !decide_True by done.
    assert (HE4 : "EDUCATION" ∈ names f4) by (by rewrite N4).
    apply mem_string_spec in HE4. by rewrite HE4.
  - unfold usable. rewrite N5, N4. split_and!; try done.
    unfold rectangular, f5. simpl. rewrite Forall_fmap.
    eapply Forall_impl; [exact R4|]. simpl. intros col Hc.
    by destruct (String.eqb (cname col) "EDUCATION").
  - by rewrite N5.
  - rewrite <- T3, <- T4.
    unfold to_table, Cleaner.collapse_education, frame_rows, f5. simpl. f_equal.
    + rewrite !map_map. apply map_ext. intros col.
      unfold Cleaner.mark_categorical. simpl.
      by destruct (String.eqb_spec (cname col) "EDUCATION") as [->|].
    + rewrite rows_of_assign by done. unfold data, frame_rows. rewrite map_map.
      rewrite zip_with_map_r. apply map_ext_in. intros r Hin%list_elem_of_In.
      apply set_field_collapse. by rewrite (rows_of_keys _ _ _ Hin).
Qed.

(** The first two stages, for a frame that need not have a label column. *)
Lemma stage_identifier (raw : DataFrame) :
  rectangular raw →
  NoDup (map (rename_label [("default payment next month", "default")]) (names raw)) →
  "ID" ∈ names raw → "EDUCATION" ∈ names raw → "MARRIAGE" ∈ names raw →
  ∃ f2,
    frame_drop ["ID"]
      (frame_rename [("default payment next month", "default")] raw) = Ok f2 ∧
    usable f2 ∧
    names f2
    = List.filter (λ n, negb (String.eqb n "ID"))
        (map (rename_label [("default payment next month", "default")]) (names raw)) ∧
    to_table f2
    = Cleaner.drop_identifier (Cleaner.rename_label_column (to_table raw)).
Proof.
  intros Hr Hd HID HE HM.
  set (f1 := frame_rename _ raw).
  assert (Hn1 : names f1 = map (rename_label [("default payment next month", "default")]) (names raw))
    by apply frame_rename_names.
  exists (drop_column "ID" f1). unfold usable. split_and!.
  - apply frame_drop_single. rewrite Hn1. by apply renamed_elem.
  - by apply drop_column_rect, frame_rename_rect.
  - apply drop_column_NoDup. by rewrite Hn1.
  - apply drop_column_elem; [|done]. rewrite Hn1. by apply renamed_elem.
  - apply drop_column_elem; [|done]. rewrite Hn1. by apply renamed_elem.
  - by rewrite drop_column_names, Hn1.
  - rewrite drop_column_table. unfold f1. by rewrite frame_rename_table.
Qed.

(** Where the value-level reading ends for a frame that has the identifier
    and the two code columns: with the three results if a label column is
    there after the renaming, with a KeyError for [default] if not. *)
Lemma clean_value_label (raw : DataFrame) :
  rectangular raw →
  NoDup (map (rename_label [("default payment next month", "default")]) (names raw)) →
  "ID" ∈ names raw → "EDUCATION" ∈ names raw → "MARRIAGE" ∈ names raw →
  let renamed := map (rename_label [("default payment next month", "default")]) (names raw) in
  ("default" ∉ renamed → clean_value raw = Raise (KeyError "default")) ∧
  ("default" ∈ renamed →
     ∃ d x y,
       clean_value raw = Ok (d, x, y) ∧
       (to_table d, to_table x, series_rows y) = Cleaner.clean (to_table raw)).
Proof.
  intros Hr Hd HID HE HM renamed.
  destruct (stage_identifier raw Hr Hd HID HE HM) as (f2 & E2 & U2 & N2 & T2).
  destruct (stage_core f2 U2)
    as (e & m & keep & f4 & e' & f5 & Ee & Em & Ek & E4 & Ee' & E5 & U5 & N5 & T5).
  assert (Hcv : clean_value raw
                = (x ← frame_drop ["default"] f5;
                   y ← frame_getitem "default" f5; mret (f5, x, y))).
  { unfold clean_value.
    rewrite E2, result_bind_ok, Ee, result_bind_ok, Em, result_bind_ok.
    by rewrite Ek, result_bind_ok, E4, result_bind_ok, Ee', result_bind_ok, E5, result_bind_ok. }
  assert (Hin : "default" ∈ names f5 ↔ "default" ∈ renamed).
  { rewrite N5, N2, list_elem_of_In, filter_In, <- list_elem_of_In. fold renamed.
    split; [by intros [? _]|]. intros H. by split. }
  split.
  - intros Hno. rewrite Hcv, frame_drop_missing; [done|]. by rewrite Hin.
  - intros Hyes. apply Hin in Hyes.
    destruct (stage_split f5) as (x & y & Ex & Ey & Tx & Ty & _).
    { destruct U5 as (? & ? & ? & ?). by unfold ready. }
    exists f5, x, y. split.
    + by rewrite Hcv, Ex, result_bind_ok, Ey, result_bind_ok.
    + unfold Cleaner.clean. by rewrite Tx, Ty, T5, T2.
Qed.

Lemma limpiarDatos_missing_ID_aux (h : heap) (r : loc) (raw : DataFrame) :
  h !! r = Some raw → "ID" ∉ names raw →
  (limpiarDatos r h).2 = Raise (KeyError "ID").
Proof.
  intros Hr HID. apply (limpiarDatos_raises h r raw); [done|].
  unfold clean_value. rewrite frame_drop_missing; [done|].
  rewrite frame_rename_names. by apply renamed_not_elem.
Qed.

(** X1. Without an [ID] column [limpiarDatos] stops with [KeyError: ID],
    whatever else the frame holds, and the caller's frames are as they
    were. *)
Theorem limpiarDatos_missing_ID (h : heap) (r : loc) (raw : DataFrame) :
  h !! r = Some raw → "ID" ∉ names raw →
  (limpiarDatos r h).2 = Raise (KeyError "ID") ∧
  ∀ l f, h !! l = Some f → (limpiarDatos r h).1 !! l = Some f.
Proof.
  intros Hr HID. split; [by apply (limpiarDatos_missing_ID_aux h r raw)|].
  destruct (limpiarDatos r h) as [h' res] eqn:E.
  destruct (kept_limpiarDatos (length h) r h h' res (le_n _) E) as (Ht & _).
  rewrite firstn_all in Ht. simpl.
  intros l f Hlf. rewrite <- Ht in Hlf. by apply lookup_take_Some in Hlf as [? _].
Qed.

Lemma limpiarDatos_missing_ID_witness :
  ([sample_no_id] !! 0 = Some sample_no_id ∧ "ID" ∉ names sample_no_id) ∧
  (limpiarDatos 0 [sample_no_id]).2 = Raise (KeyError "ID") ∧
  ∀ l f, [sample_no_id] !! l = Some f → (limpiarDatos 0 [sample_no_id]).1 !! l = Some f.
Proof.
  assert (H : "ID" ∉ names sample_no_id)
    by (apply (bool_decide_unpack _); vm_compute; reflexivity).
  split; [split; [reflexivity|exact H]|].
  apply (limpiarDatos_missing_ID [sample_no_id] 0 sample_no_id); [reflexivity|exact H].
Defined.

(** X2. With an [ID] column but without [EDUCATION] the call stops with
    [KeyError: EDUCATION]; with [EDUCATION] but without [MARRIAGE] it stops
    with [KeyError: MARRIAGE]. *)
Theorem limpiarDatos_missing_code_column (h : heap) (r : loc) (raw : DataFrame) :
  h !! r = Some raw → unique_when_renamed raw → "ID" ∈ names raw →
  ("EDUCATION" ∉ names raw →
     (limpiarDatos r h).2 = Raise (KeyError "EDUCATION")) ∧
  ("EDUCATION" ∈ names raw → "MARRIAGE" ∉ names raw →
     (limpiarDatos r h).2 = Raise (KeyError "MARRIAGE")).
Proof.
  intros Hr Hd HID. unfold unique_when_renamed in Hd.
  set (f1 := frame_rename [("default payment next month", "default")] raw) in *.
  assert (Hn1 : names f1 = map (rename_label [("default payment next month", "default")]) (names raw))
    by apply frame_rename_names.
  assert (E2 : frame_drop ["ID"] f1 = Ok (drop_column "ID" f1)).
  { apply frame_drop_single. rewrite Hn1. by apply renamed_elem. }
  assert (N3 : names (frame_dropna (drop_column "ID" f1)) = names (drop_column "ID" f1))
    by apply frame_select_names.
  split.
  - intros HE. apply (limpiarDatos_raises h r raw); [done|].
    unfold clean_value. fold f1. rewrite E2, result_bind_ok.
    rewrite (frame_getitem_missing "EDUCATION"); [done|].
    rewrite N3. apply drop_column_not_elem. rewrite Hn1. by apply renamed_not_elem.
  - intros HE HM. apply (limpiarDatos_raises h r raw); [done|].
    unfold clean_value. fold f1. rewrite E2, result_bind_ok.
    destruct (labelled_unique "EDUCATION"
                (columns (frame_dropna (drop_column "ID" f1)))) as (col & Ec & _).
    { fold (names (frame_dropna (drop_column "ID" f1))). rewrite N3.
      by apply drop_column_NoDup. }
    { fold (names (frame_dropna (drop_column "ID" f1))). rewrite N3.
      apply drop_column_elem; [|done]. rewrite Hn1. by apply renamed_elem. }
    rewrite (frame_getitem_unique _ _ _ Ec), result_bind_ok.
    rewrite (frame_getitem_missing "MARRIAGE"); [done|].
    rewrite N3. apply drop_column_not_elem. rewrite Hn1. by apply renamed_not_elem.
Qed.

Lemma limpiarDatos_missing_code_column_witness :
  ([sample_no_marriage] !! 0 = Some sample_no_marriage ∧
   unique_when_renamed sample_no_marriage ∧ "ID" ∈ names sample_no_marriage) ∧
  ("EDUCATION" ∉ names sample_no_marriage →
     (limpiarDatos 0 [sample_no_marriage]).2 = Raise (KeyError "EDUCATION")) ∧
  ("EDUCATION" ∈ names sample_no_marriage → "MARRIAGE" ∉ names sample_no_marriage →
     (limpiarDatos 0 [sample_no_marriage]).2 = Raise (KeyError "MARRIAGE")).
Proof.
  assert (H1 : unique_when_renamed sample_no_marriage)
    by (apply (bool_decide_unpack _); vm_compute; reflexivity).
  assert (H2 : "ID" ∈ names sample_no_marriage)
    by (apply (bool_decide_unpack _); vm_compute; reflexivity).
  split; [split_and!; [reflexivity|exact H1|exact H2]|].
  apply (limpiarDatos_missing_code_column [sample_no_marriage] 0 sample_no_marriage);
    [reflexivity|exact H1|exact H2].
Defined.

(** X3. A frame with the identifier and the two code columns but without a
    label column, under either name, is cleaned all the way and then
    refused with [KeyError: default]. *)
Theorem limpiarDatos_missing_label (h : heap) (r : loc) (raw : DataFrame) :
  h !! r = Some raw →
  rectangular raw → NoDup (names raw) →
  "ID" ∈ names raw → "EDUCATION" ∈ names raw → "MARRIAGE" ∈ names raw →
  "default payment next month" ∉ names raw → "default" ∉ names raw →
  (limpiarDatos r h).2 = Raise (KeyError "default").
Proof.
  intros Hr Hrect Hd HID HE HM Hold Hnew.
  apply (limpiarDatos_raises h r raw); [done|].
  apply clean_value_label; try done; by rewrite renamed_absent.
Qed.

Lemma limpiarDatos_missing_label_witness :
  ([sample_no_label] !! 0 = Some sample_no_label ∧
   rectangular sample_no_label ∧ NoDup (names sample_no_label) ∧
   "ID" ∈ names sample_no_label ∧ "EDUCATION" ∈ names sample_no_label ∧
   "MARRIAGE" ∈ names sample_no_label ∧
   ("default payment next month" ∉ names sample_no_label) ∧
   "default" ∉ names sample_no_label) ∧
  (limpiarDatos 0 [sample_no_label]).2 = Raise (KeyError "default").
Proof.
  assert (H : rectangular sample_no_label ∧ NoDup (names sample_no_label) ∧
              "ID" ∈ names sample_no_label ∧ "EDUCATION" ∈ names sample_no_label ∧
              "MARRIAGE" ∈ names sample_no_label ∧
              ("default payment next month" ∉ names sample_no_label) ∧
              "default" ∉ names sample_no_label)
    by (apply (bool_decide_unpack _); vm_compute; reflexivity).
  split; [split; [reflexivity|exact H]|].
  destruct H as (H1 & H2 & H3 & H4 & H5 & H6 & H7).
  by apply (limpiarDatos_missing_label [sample_no_label] 0 sample_no_label).
Defined.

Lemma frame_rename_absent (old new : string) (f : DataFrame) :
  old ∉ names f → frame_rename [(old, new)] f = f.
Proof.
  intros Ho. destruct f as [idx cols]. unfold frame_rename, names in *. simpl in *.
  f_equal. rewrite <- (map_id cols) at 2. apply map_ext_in.
  intros [n dt d] Hin%list_elem_of_In. simpl. f_equal.
  rewrite rename_label_single. destruct (String.eqb_spec n old) as [->|]; [|done].
  exfalso. apply Ho. by apply (list_elem_of_fmap_2 cname) in Hin.
Qed.

(** X4. A frame whose label column is already called [default] is cleaned
    like any other: the renaming finds nothing to do and the remaining five
    steps apply. *)
Theorem limpiarDatos_label_already_renamed (h : heap) (r : loc) (raw : DataFrame) :
  h !! r = Some raw →
  rectangular raw → NoDup (names raw) →
  "ID" ∈ names raw → "EDUCATION" ∈ names raw → "MARRIAGE" ∈ names raw →
  "default" ∈ names raw → "default payment next month" ∉ names raw →
  ∃ h' ld lx d x y,
    limpiarDatos r h = (h', Ok (ld, lx, y)) ∧
    h' !! ld = Some d ∧ h' !! lx = Some x ∧
    let t2 := Cleaner.drop_identifier (to_table raw) in
    let t3 := Cleaner.drop_missing t2 in
    let t4 := Cleaner.drop_unavailable t3 in
    let t5 := Cleaner.collapse_education t4 in
    to_table d = t5 ∧ to_table x = Cleaner.features t5 ∧
    series_rows y = Cleaner.labels t5.
Proof.
  intros Hr Hrect Hd HID HE HM Hnew Hold.
  destruct (clean_value_label raw) as [_ Hok]; try done.
  { by rewrite renamed_absent. }
  destruct Hok as (d & x & y & Ev & Ht); [by rewrite renamed_absent|].
  destruct (limpiarDatos_value h r raw d x y Hr Ev) as (h' & ld & lx & Hrun & Hld & Hlx & _).
  exists h', ld, lx, d, x, y. do 3 (split; [done|]).
  unfold Cleaner.clean in Ht.
  rewrite <- frame_rename_table, frame_rename_absent in Ht by done.
  apply triple_inv in Ht as (Td & Tx & Ty). by cbv zeta.
Qed.

Lemma limpiarDatos_label_already_renamed_witness :
  ([sample_renamed] !! 0 = Some sample_renamed ∧
   rectangular sample_renamed ∧ NoDup (names sample_renamed) ∧
   "ID" ∈ names sample_renamed ∧ "EDUCATION" ∈ names sample_renamed ∧
   "MARRIAGE" ∈ names sample_renamed ∧ "default" ∈ names sample_renamed ∧
   "default payment next month" ∉ names sample_renamed) ∧
  ∃ h' ld lx d x y,
    limpiarDatos 0 [sample_renamed] = (h', Ok (ld, lx, y)) ∧
    h' !! ld = Some d ∧ h' !! lx = Some x ∧
    let t2 := Cleaner.drop_identifier (to_table sample_renamed) in
    let t3 := Cleaner.drop_missing t2 in
    let t4 := Cleaner.drop_unavailable t3 in
    let t5 := Cleaner.collapse_education t4 in
    to_table d = t5 ∧ to_table x = Cleaner.features t5 ∧
    series_rows y = Cleaner.labels t5.
Proof.
  assert (H : rectangular sample_renamed ∧ NoDup (names sample_renamed) ∧
              "ID" ∈ names sample_renamed ∧ "EDUCATION" ∈ names sample_renamed ∧
              "MARRIAGE" ∈ names sample_renamed ∧ "default" ∈ names sample_renamed ∧
              "default payment next month" ∉ names sample_renamed)
    by (apply (bool_decide_unpack _); vm_compute; reflexivity).
  split; [split; [reflexivity|exact H]|].
  destruct H as (H1 & H2 & H3 & H4 & H5 & H6 & H7).
  by apply (limpiarDatos_label_already_renamed [sample_renamed] 0 sample_renamed).
Defined.

(** ** What the cleaned frames hold *)

Section cleaned_frames.
Import Cleaner.

Lemma table_names (f : DataFrame) : map fst (theader (to_table f)) = names f.
Proof. unfold to_table, names. simpl. by rewrite map_map. Qed.

Lemma without_key_keys {V} (k : string) (kvs : list (string * V)) :
  map fst (without_key k kvs)
  = List.filter (λ n, negb (String.eqb n k)) (map fst kvs).
Proof. unfold without_key. symmetry. by apply filter_map_comm. Qed.

Lemma clean_header_names (t : Table) :
  map fst (theader (clean t).1.1)
  = List.filter (λ n, negb (String.eqb n "ID")) (map short_label (map fst (theader t))).
Proof.
  unfold clean, collapse_education, drop_unavailable, drop_missing,
    drop_identifier, rename_label_column. simpl.
  rewrite map_map. rewrite (map_ext (λ kd, fst (mark_categorical kd)) fst).
  2:{ intros kd. unfold mark_categorical. by destruct (String.eqb _ _). }
  rewrite without_key_keys. f_equal. by rewrite !map_map.
Qed.

Lemma short_label_filter (l : list string) :
  "default" ∉ l →
  List.filter (λ n, negb (String.eqb n "default"))
    (List.filter (λ n, negb (String.eqb n "ID")) (map short_label l))
  = List.filter (λ n, negb (String.eqb n "ID")
                      && negb (String.eqb n "default payment next month")) l.
Proof.
  induction l as [|n l IH]; [done|].
  rewrite not_elem_of_cons. intros [Hn Hl]. specialize (IH Hl).
  rewrite map_cons. unfold short_label at 1. simpl.
  destruct (String.eqb_spec n "default payment next month") as [->|Hne]; simpl.
  - exact IH.
  - destruct (String.eqb_spec n "ID") as [->|Hid]; simpl; [exact IH|].
    destruct (String.eqb_spec n "default"); [done|]. simpl. by rewrite IH.
Qed.

(** The cleaned surviving rows keep every field present. *)
Lemma complete_recoded (r : row) : complete (recoded r) = complete r.
Proof.
  unfold complete, recoded, on_fields, fields. simpl.
  induction (snd r) as [|kv kvs IH]; simpl; [done|]. rewrite IH. f_equal.
  unfold collapse_field. destruct (String.eqb _ _); [|done].
  simpl. destruct (snd kv) as [v|]; [|done]. simpl. by destruct (4 <=? v)%Z.
Qed.

Lemma complete_without_key (k : string) (r : row) :
  complete r = true → complete (on_fields (without_key k) r) = true.
Proof.
  unfold complete, on_fields, fields, without_key. simpl.
  induction (snd r) as [|kv kvs IH]; simpl; [done|].
  intros [H1 H2]%andb_prop. destruct (negb _); simpl; [|auto].
  by rewrite H1, IH.
Qed.

Lemma complete_field (c : string) (r : row) :
  complete r = true → c ∈ map fst (fields r) → ∃ v, field c r = Some v.
Proof.
  unfold complete, field, fields.
  induction (snd r) as [|kv kvs IH]; simpl.
  - by intros _ ?%elem_of_nil.
  - intros [H1 H2]%andb_prop Hin.
    destruct (String.eqb_spec (fst kv) c) as [E|E].
    + destruct (snd kv) as [v|]; [by exists v|done].
    + apply elem_of_cons in Hin as [Hin|Hin]; [congruence|]. by apply IH.
Qed.

Lemma collapse_le (x : cell) (e : Z) : collapse x = Some e → (e ≤ 4)%Z.
Proof.
  destruct x as [v|]; simpl; [|done].
  destruct (Z.leb_spec 4 v); intros [= <-]; lia.
Qed.

Lemma values_present (ys : list Z) : values (map Some ys) = Ok ys.
Proof. induction ys as [|v ys IH]; simpl; [done|]. by rewrite IH. Qed.

Lemma filter_length_le {A} (p : A → bool) (l : list A) :
  length (List.filter p l) ≤ length l.
Proof. induction l as [|a l IH]; simpl; [done|]. destruct (p a); simpl; lia. Qed.

Lemma filter_length_all {A} (p : A → bool) (l : list A) :
  length (List.filter p l) = length l ↔ ∀ a, a ∈ l → p a = true.
Proof.
  induction l as [|a l IH]; simpl.
  - split; [|done]. by intros _ a ?%elem_of_nil.
  - pose proof (filter_length_le p l). destruct (p a) eqn:E; simpl.
    + rewrite Nat.succ_inj_wd, IH. split.
      * intros H' b [->|Hb]%elem_of_cons; auto.
      * intros H' b Hb. apply H'. by right.
    + split; [lia|]. intros H'. rewrite H' in E; [done|by left].
Qed.

End cleaned_frames.

(** Everything the later properties use about a successful call. *)
Lemma limpiarDatos_facts (h : heap) (r : loc) (raw : DataFrame) :
  h !! r = Some raw → raw_dataset raw →
  ∃ h' ld lx d x y,
    limpiarDatos r h = (h', Ok (ld, lx, y)) ∧
    h' !! ld = Some d ∧ h' !! lx = Some x ∧
    frame_rows d = map Cleaner.cleaned (List.filter Cleaner.survives (frame_rows raw)) ∧
    frame_rows x = map (Cleaner.on_fields (Cleaner.without_key "default")) (frame_rows d) ∧
    sdata y = map (field "default") (frame_rows d) ∧
    names d = List.filter (λ n, negb (String.eqb n "ID")) (map short_label (names raw)) ∧
    names x = List.filter (λ n, negb (String.eqb n "default")) (names d) ∧
    map (λ c, (cname c, cdtype c)) (columns d)
      = map Cleaner.mark_categorical
          (Cleaner.without_key "ID"
             (map (Cleaner.rename_key "default payment next month" "default")
                  (map (λ c, (cname c, cdtype c)) (columns raw)))) ∧
    map (λ c, (cname c, cdtype c)) (columns x)
      = Cleaner.without_key "default" (map (λ c, (cname c, cdtype c)) (columns d)) ∧
    index x = index d ∧ sindex y = index d.
Proof.
  intros Hr Hraw.
  destruct (limpiarDatos_table h r raw Hr Hraw)
    as (h' & ld & lx & d & x & y & Hrun & Hd & Hx & Ht & Rd & Rx & Ix & Iy & Ly).
  apply clean_results_inv in Ht as (Td & Tx & Ty).
  exists h', ld, lx, d, x, y. do 3 (split; [done|]).
  assert (Hrows : frame_rows d
            = map Cleaner.cleaned (List.filter Cleaner.survives (frame_rows raw))).
  { change (frame_rows d) with (trows (to_table d)). by rewrite Td, clean_rows. }
  assert (Hnd : names d
            = List.filter (λ n, negb (String.eqb n "ID")) (map short_label (names raw))).
  { by rewrite <- (table_names d), Td, clean_header_names, table_names. }
  split_and!; try done.
  - change (frame_rows x) with (trows (to_table x)).
    change (frame_rows d) with (trows (to_table d)). by rewrite Tx, Td.
  - assert (E : (series_rows y).*2 = sdata y).
    { unfold series_rows. apply snd_zip. rewrite Iy. lia. }
    rewrite <- E, Ty, clean_labels. change (frame_rows d) with (trows (to_table d)).
    rewrite Td.
    generalize (trows (Cleaner.clean (to_table raw)).1.1). intros l.
    induction l as [|a l IH]; simpl; [done|]. by f_equal.
  - rewrite <- (table_names x), Tx.
    change (theader (Cleaner.clean (to_table raw)).1.2)
      with (Cleaner.without_key "default" (theader (Cleaner.clean (to_table raw)).1.1)).
    by rewrite without_key_keys, <- Td, table_names.
  - change (map (λ c, (cname c, cdtype c)) (columns d)) with (theader (to_table d)).
    by rewrite Td.
  - change (map (λ c, (cname c, cdtype c)) (columns x)) with (theader (to_table x)).
    change (map (λ c, (cname c, cdtype c)) (columns d)) with (theader (to_table d)).
    by rewrite Tx, Td.
Qed.

Lemma filter_not_elem (k : string) (l : list string) :
  k ∉ List.filter (λ n, negb (String.eqb n k)) l.
Proof.
  rewrite list_elem_of_In, filter_In. intros [_ H].
  by rewrite String.eqb_refl in H.
Qed.

(** X5. The cleaned frame and X cannot be cleaned again: they have no
    [ID] column left, and a second call on either stops with
    [KeyError: ID]. *)
Theorem limpiarDatos_not_rerunnable (h : heap) (r : loc) (raw : DataFrame) :
  h !! r = Some raw → raw_dataset raw →
  ∃ h' ld lx y,
    limpiarDatos r h = (h', Ok (ld, lx, y)) ∧
    (limpiarDatos ld h').2 = Raise (KeyError "ID") ∧
    (limpiarDatos lx h').2 = Raise (KeyError "ID").
Proof.
  intros Hr Hraw.
  destruct (limpiarDatos_facts h r raw Hr Hraw)
    as (h' & ld & lx & d & x & y & Hrun & Hd & Hx & _ & _ & _ & Nd & Nx & _).
  assert (Hid : "ID" ∉ names d) by (rewrite Nd; apply filter_not_elem).
  exists h', ld, lx, y. split; [done|]. split.
  - by apply (limpiarDatos_missing_ID_aux h' ld d).
  - apply (limpiarDatos_missing_ID_aux h' lx x); [done|].
    rewrite Nx, list_elem_of_In, filter_In, <- list_elem_of_In. by intros [? _].
Qed.

Lemma limpiarDatos_not_rerunnable_witness :
  ([sample_raw] !! 0 = Some sample_raw ∧ raw_dataset sample_raw) ∧
  ∃ h' ld lx y,
    limpiarDatos 0 [sample_raw] = (h', Ok (ld, lx, y)) ∧
    (limpiarDatos ld h').2 = Raise (KeyError "ID") ∧
    (limpiarDatos lx h').2 = Raise (KeyError "ID").
Proof.
  assert (H : raw_dataset sample_raw)
    by (apply (bool_decide_unpack _); vm_compute; reflexivity).
  split; [split; [reflexivity|exact H]|].
  apply (limpiarDatos_not_rerunnable [sample_raw] 0 sample_raw); [reflexivity|exact H].
Defined.

Lemma default_in_cleaned_names (raw : DataFrame) :
  raw_dataset raw →
  "default" ∈ List.filter (λ n, negb (String.eqb n "ID")) (map short_label (names raw)).
Proof.
  intros (_ & _ & _ & _ & _ & HL & _).
  rewrite list_elem_of_In, filter_In, <- list_elem_of_In. split; [|done].
  apply list_elem_of_fmap. by exists "default payment next month".
Qed.

Lemma code_in_cleaned_names (raw : DataFrame) (c : string) :
  c ∈ names raw → c ≠ "ID" → c ≠ "default payment next month" →
  c ∈ List.filter (λ n, negb (String.eqb n "ID")) (map short_label (names raw)).
Proof.
  intros Hc Hid Hl.
  rewrite list_elem_of_In, filter_In, <- list_elem_of_In. split.
  - apply list_elem_of_fmap. exists c. split; [|done]. unfold short_label.
    by destruct (String.eqb_spec c "default payment next month").
  - by destruct (String.eqb_spec c "ID").
Qed.

Lemma all_present (cs : list cell) :
  Forall (λ c : cell, ∃ v, c = Some v) cs → ∃ vs, cs = map Some vs.
Proof.
  induction cs as [|c cs IH]; [by exists []|].
  intros [[v ->] [vs ->]%IH]%Forall_cons. by exists (v :: vs).
Qed.

(** X6. No missing value leaves the cleaner: every field of every row of
    the cleaned frame and of X is present, and so is every label in y, so
    that the NaN check of the metrics lets y pass. *)
Theorem limpiarDatos_output_complete (h : heap) (r : loc) (raw : DataFrame) :
  h !! r = Some raw → raw_dataset raw →
  ∃ h' ld lx d x y,
    limpiarDatos r h = (h', Ok (ld, lx, y)) ∧
    h' !! ld = Some d ∧ h' !! lx = Some x ∧
    (∀ row, row ∈ frame_rows d → Cleaner.complete row = true) ∧
    (∀ row, row ∈ frame_rows x → Cleaner.complete row = true) ∧
    ∃ labels, sdata y = map Some labels ∧ values (sdata y) = Ok labels.
Proof.
  intros Hr Hraw.
  destruct (limpiarDatos_facts h r raw Hr Hraw)
    as (h' & ld & lx & d & x & y & Hrun & Hd & Hx & Rd & Rx & Ry & Nd & _).
  assert (Hcomplete : ∀ row, row ∈ frame_rows d → Cleaner.complete row = true).
  { intros row. rewrite Rd. intros (r0 & -> & Hin)%list_elem_of_fmap.
    apply list_elem_of_In, filter_In in Hin as [_ Hs].
    unfold Cleaner.cleaned. rewrite complete_recoded.
    unfold Cleaner.survives in Hs. by apply andb_prop in Hs as [? _]. }
  exists h', ld, lx, d, x, y. do 3 (split; [done|]). split; [done|]. split.
  - intros row. rewrite Rx. intros (r0 & -> & Hin)%list_elem_of_fmap.
    by apply complete_without_key, Hcomplete.
  - assert (Hall : Forall (λ c : cell, ∃ v, c = Some v) (sdata y)).
    { rewrite Ry. apply Forall_forall. intros c (row & -> & Hin)%list_elem_of_fmap.
      apply complete_field; [by apply Hcomplete|].
      rewrite (rows_of_keys _ _ _ Hin). fold (names d). rewrite Nd.
      by apply default_in_cleaned_names. }
    assert (Hex : ∃ labels, sdata y = map Some labels).
    { by apply all_present. }
    destruct Hex as (labels & E). exists labels. split; [done|].
    rewrite E. apply values_present.
Qed.

Lemma limpiarDatos_output_complete_witness :
  ([sample_raw] !! 0 = Some sample_raw ∧ raw_dataset sample_raw) ∧
  ∃ h' ld lx d x y,
    limpiarDatos 0 [sample_raw] = (h', Ok (ld, lx, y)) ∧
    h' !! ld = Some d ∧ h' !! lx = Some x ∧
    (∀ row, row ∈ frame_rows d → Cleaner.complete row = true) ∧
    (∀ row, row ∈ frame_rows x → Cleaner.complete row = true) ∧
    ∃ labels, sdata y = map Some labels ∧ values (sdata y) = Ok labels.
Proof.
  assert (H : raw_dataset sample_raw)
    by (apply (bool_decide_unpack _); vm_compute; reflexivity).
  split; [split; [reflexivity|exact H]|].
  apply (limpiarDatos_output_complete [sample_raw] 0 sample_raw); [reflexivity|exact H].
Defined.

(** X7. In the cleaned frame every education code is present, at most 4
    and not 0, and every marital-status code is present and not 0. *)
Theorem limpiarDatos_code_bounds (h : heap) (r : loc) (raw : DataFrame) :
  h !! r = Some raw → raw_dataset raw →
  ∃ h' ld lx d y,
    limpiarDatos r h = (h', Ok (ld, lx, y)) ∧ h' !! ld = Some d ∧
    ∀ row, row ∈ frame_rows d →
      ∃ e m, field "EDUCATION" row = Some e ∧ (e ≤ 4)%Z ∧ e ≠ 0%Z ∧
             field "MARRIAGE" row = Some m ∧ m ≠ 0%Z.
Proof.
  intros Hr Hraw.
  destruct (limpiarDatos_facts h r raw Hr Hraw)
    as (h' & ld & lx & d & x & y & Hrun & Hd & Hx & Rd & Rx & Ry & Nd & _).
  exists h', ld, lx, d, y. do 2 (split; [done|]).
  intros row Hrow.
  assert (Hkeys := rows_of_keys _ _ _ Hrow). fold (names d) in Hkeys.
  revert Hrow. rewrite Rd. intros (r0 & -> & Hin)%list_elem_of_fmap.
  apply list_elem_of_In, filter_In in Hin as [_ Hs].
  assert (Hc : Cleaner.complete (Cleaner.cleaned r0) = true).
  { unfold Cleaner.cleaned. rewrite complete_recoded.
    unfold Cleaner.survives in Hs. by apply andb_prop in Hs as [? _]. }
  destruct Hraw as (_ & _ & _ & HE & HM & _).
  destruct (complete_field "EDUCATION" _ Hc) as [e He].
  { rewrite Hkeys, Nd. by apply code_in_cleaned_names. }
  destruct (complete_field "MARRIAGE" _ Hc) as [m Hm].
  { rewrite Hkeys, Nd. by apply code_in_cleaned_names. }
  exists e, m. apply survives_available in Hs as [HE0 HM0].
  unfold Cleaner.cleaned in *.
  rewrite field_recoded_education, field_prepared in He by done.
  rewrite field_recoded_other, field_prepared in Hm by done.
  rewrite field_recoded_education, field_recoded_other, !field_prepared by done.
  split; [done|]. split; [by apply (collapse_le _ _ He)|].
  split; [|split; [done|congruence]].
  intros ->. by apply collapse_zero in He.
Qed.

Lemma limpiarDatos_code_bounds_witness :
  ([sample_raw] !! 0 = Some sample_raw ∧ raw_dataset sample_raw) ∧
  ∃ h' ld lx d y,
    limpiarDatos 0 [sample_raw] = (h', Ok (ld, lx, y)) ∧ h' !! ld = Some d ∧
    ∀ row, row ∈ frame_rows d →
      ∃ e m, field "EDUCATION" row = Some e ∧ (e ≤ 4)%Z ∧ e ≠ 0%Z ∧
             field "MARRIAGE" row = Some m ∧ m ≠ 0%Z.
Proof.
  assert (H : raw_dataset sample_raw)
    by (apply (bool_decide_unpack _); vm_compute; reflexivity).
  split; [split; [reflexivity|exact H]|].
  apply (limpiarDatos_code_bounds [sample_raw] 0 sample_raw); [reflexivity|exact H].
Defined.

(** X8. X has the columns of the raw frame except the identifier and the
    label, in their raw order; the cleaned frame has the label among its
    columns; [EDUCATION] is categorical in both, and every other column
    keeps the dtype it had. *)
Theorem limpiarDatos_columns (h : heap) (r : loc) (raw : DataFrame) :
  h !! r = Some raw → raw_dataset raw →
  ∃ h' ld lx d x y,
    limpiarDatos r h = (h', Ok (ld, lx, y)) ∧
    h' !! ld = Some d ∧ h' !! lx = Some x ∧
    names x
      = List.filter (λ n, negb (String.eqb n "ID")
                          && negb (String.eqb n "default payment next month"))
          (names raw) ∧
    names d = List.filter (λ n, negb (String.eqb n "ID")) (map short_label (names raw)) ∧
    "default" ∈ names d ∧
    (∀ col, col ∈ columns d ∨ col ∈ columns x →
       if String.eqb (cname col) "EDUCATION" then cdtype col = Category
       else ∃ col0, col0 ∈ columns raw ∧ short_label (cname col0) = cname col ∧
                    cdtype col0 = cdtype col).
Proof.
  intros Hr Hraw.
  destruct (limpiarDatos_facts h r raw Hr Hraw)
    as (h' & ld & lx & d & x & y & Hrun & Hd & Hx & _ & _ & _ & Nd & Nx & Td & Tx & _).
  exists h', ld, lx, d, x, y. do 3 (split; [done|]).
  split; [|split; [done|split]].
  - rewrite Nx, Nd. apply short_label_filter. by destruct Hraw as (_ & _ & _ & _ & _ & _ & ?).
  - rewrite Nd. by apply default_in_cleaned_names.
  - assert (Hd_cols : ∀ col, col ∈ columns d →
        if String.eqb (cname col) "EDUCATION" then cdtype col = Category
        else ∃ col0, col0 ∈ columns raw ∧ short_label (cname col0) = cname col ∧
                     cdtype col0 = cdtype col).
    { intros col Hin.
      apply list_elem_of_In, (in_map (λ c, (cname c, cdtype c))) in Hin.
      rewrite Td in Hin. apply in_map_iff in Hin as (kd & E & Hkd).
      unfold Cleaner.without_key in Hkd. apply filter_In in Hkd as [Hkd _].
      apply in_map_iff in Hkd as (kd0 & <- & Hkd0).
      apply in_map_iff in Hkd0 as (col0 & <- & Hcol0%list_elem_of_In).
      unfold Cleaner.mark_categorical, Cleaner.rename_key in E. simpl in E.
      fold (short_label (cname col0)) in E.
      destruct (String.eqb (short_label (cname col0)) "EDUCATION") eqn:Ee;
        injection E as E1 E2; rewrite <- E1, Ee.
      - done.
      - by exists col0. }
    intros col [Hin|Hin]; [by apply Hd_cols|].
    apply list_elem_of_In, (in_map (λ c, (cname c, cdtype c))) in Hin.
    rewrite Tx in Hin. unfold Cleaner.without_key in Hin.
    apply filter_In in Hin as [Hin _].
    apply in_map_iff in Hin as (col' & E & Hin'%list_elem_of_In).
    injection E as E1 E2. rewrite <- E1, <- E2. by apply Hd_cols.
Qed.

Lemma limpiarDatos_columns_witness :
  ([sample_raw] !! 0 = Some sample_raw ∧ raw_dataset sample_raw) ∧
  ∃ h' ld lx d x y,
    limpiarDatos 0 [sample_raw] = (h', Ok (ld, lx, y)) ∧
    h' !! ld = Some d ∧ h' !! lx = Some x ∧
    names x
      = List.filter (λ n, negb (String.eqb n "ID")
                          && negb (String.eqb n "default payment next month"))
          (names sample_raw) ∧
    names d = List.filter (λ n, negb (String.eqb n "ID")) (map short_label (names sample_raw)) ∧
    "default" ∈ names d ∧
    (∀ col, col ∈ columns d ∨ col ∈ columns x →
       if String.eqb (cname col) "EDUCATION" then cdtype col = Category
       else ∃ col0, col0 ∈ columns sample_raw ∧ short_label (cname col0) = cname col ∧
                    cdtype col0 = cdtype col).
Proof.
  assert (H : raw_dataset sample_raw)
    by (apply (bool_decide_unpack _); vm_compute; reflexivity).
  split; [split; [reflexivity|exact H]|].
  apply (limpiarDatos_columns [sample_raw] 0 sample_raw); [reflexivity|exact H].
Defined.

(** X9. Cleaning never adds a row, and it keeps the row count exactly
    when every input row is complete (the identifier aside) and has
    education and marital-status codes other than 0. *)
Theorem limpiarDatos_row_count (h : heap) (r : loc) (raw : DataFrame) :
  h !! r = Some raw → raw_dataset raw →
  ∃ h' ld lx d y,
    limpiarDatos r h = (h', Ok (ld, lx, y)) ∧ h' !! ld = Some d ∧
    nrows d ≤ nrows raw ∧
    (nrows d = nrows raw ↔
       ∀ row, row ∈ frame_rows raw → Cleaner.survives row = true).
Proof.
  intros Hr Hraw.
  destruct (limpiarDatos_facts h r raw Hr Hraw)
    as (h' & ld & lx & d & x & y & Hrun & Hd & Hx & Rd & _).
  exists h', ld, lx, d, y. do 2 (split; [done|]).
  unfold nrows. rewrite <- (frame_rows_length d), <- (frame_rows_length raw).
  rewrite Rd, length_map. split; [apply filter_length_le|apply filter_length_all].
Qed.

Lemma limpiarDatos_row_count_witness :
  ([sample_raw] !! 0 = Some sample_raw ∧ raw_dataset sample_raw) ∧
  ∃ h' ld lx d y,
    limpiarDatos 0 [sample_raw] = (h', Ok (ld, lx, y)) ∧ h' !! ld = Some d ∧
    nrows d ≤ nrows sample_raw ∧
    (nrows d = nrows sample_raw ↔
       ∀ row, row ∈ frame_rows sample_raw → Cleaner.survives row = true).
Proof.
  assert (H : raw_dataset sample_raw)
    by (apply (bool_decide_unpack _); vm_compute; reflexivity).
  split; [split; [reflexivity|exact H]|].
  apply (limpiarDatos_row_count [sample_raw] 0 sample_raw); [reflexivity|exact H].
Defined.

(** * Further properties: the reporter's records *)

Section report_runs.
Context {S : Type} (model : Model S).

(** With a deterministic [predict] the second pair of predictions, made by
    [matrizConfusion], is the first pair again. *)
Lemma report_run (x_train : DataFrame) (y_train : Series)
    (x_test : DataFrame) (y_test : Series) (s s1 s2 : S) (p_train p_test : list Z) :
  deterministic model →
  predict model x_train s = (s1, Ok p_train) →
  predict model x_test s1 = (s2, Ok p_test) →
  (report model x_train y_train x_test y_test s).2
  = (metrics ← (m_train ← scalar_record "train" y_train p_train;
                m_test ← scalar_record "test" y_test p_test;
                Ok (m_train, m_test));
     cm_metrics ← (cm_train ← confusion_matrix y_train p_train;
                   cm_test ← confusion_matrix y_test p_test;
                   m_train ← cm_record "train" cm_train;
                   m_test ← cm_record "test" cm_test;
                   Ok (m_train, m_test));
     Ok (metrics, cm_metrics)).
Proof.
  intros Hdet E1 E2. unfold report.
  pose proof (metricas_run model x_train y_train x_test y_test _ _ _ _ _ E1 E2) as Hm.
  unfold mbind at 1, State_bind. rewrite Hm.
  destruct (m_train ← scalar_record "train" y_train p_train;
            m_test ← scalar_record "test" y_test p_test;
            Ok (m_train, m_test)) as [m|e]; [|reflexivity].
  rewrite result_bind_ok.
  pose proof (Hdet x_train s2 s) as D1. rewrite E1 in D1. simpl in D1.
  destruct (predict model x_train s2) as [s3 r3] eqn:E3. simpl in D1. subst r3.
  pose proof (Hdet x_test s3 s1) as D2. rewrite E2 in D2. simpl in D2.
  destruct (predict model x_test s3) as [s4 r4] eqn:E4. simpl in D2. subst r4.
  pose proof (matrizConfusion_run model x_train y_train x_test y_test _ _ _ _ _ E3 E4) as Hc.
  unfold mbind at 1, State_bind. rewrite Hc.
  match goal with |- (match ?R with _ => _ end).2 = _ => by destruct R end.
Qed.

End report_runs.

(** ** Metric values as rationals *)

Lemma Qcdiv_unit (s n : Qc) :
  Qclt 0 n → Qcle 0 s → Qcle s n → Qcle 0 (Qcdiv s n) ∧ Qcle (Qcdiv s n) 1.
Proof.
  unfold Qcle, Qclt, Qcdiv, Qcmult, Qcinv. simpl. intros Hn H0 Hs.
  rewrite !Qred_correct.
  change (this s * / this n)%Q with (this s / this n)%Q.
  split.
  - apply Qle_shift_div_l; [done|]. by rewrite Qmult_0_l.
  - apply Qle_shift_div_r; [done|]. by rewrite Qmult_1_l.
Qed.

Lemma of_nat_pos (b : nat) : 0 < b → Z.pos (Pos.of_nat b) = Z.of_nat b.
Proof. intros Hb. rewrite <- positive_nat_Z, Nat2Pos.id; [done|lia]. Qed.

Lemma ratio_unit (a b : nat) :
  a ≤ b → 0 < b → Qcle 0 (ratio a b) ∧ Qcle (ratio a b) 1.
Proof.
  intros Hab Hb. unfold ratio, Qcle. simpl. rewrite !Qred_correct.
  unfold Qle. simpl. rewrite of_nat_pos by done. lia.
Qed.

Lemma ratio_same (a : nat) : 0 < a → ratio a a = 1%Qc.
Proof.
  intros Ha. apply Qc_is_canon. unfold ratio. simpl. rewrite Qred_correct.
  unfold Qeq. simpl. rewrite of_nat_pos by done. lia.
Qed.

Lemma prf_divide_unit (num den : nat) : num ≤ den → in_unit (prf_divide num den 0).
Proof.
  intros H. unfold prf_divide. destruct (Nat.eqb_spec den 0) as [->|Hd]; simpl.
  - split; [apply Qcle_refl|]. by vm_compute.
  - apply ratio_unit; lia.
Qed.

Lemma prf_divide_same (a : nat) : 0 < a → prf_divide a a 0 = FNum 1%Qc.
Proof.
  intros Ha. unfold prf_divide. destruct (Nat.eqb_spec a 0); [lia|].
  by rewrite ratio_same.
Qed.


Lemma Qc_of_nat_S n : Qc_of_nat (S n) = (1 + Qc_of_nat n)%Qc.
Proof.
  apply Qc_is_canon. unfold Qc_of_nat, Qcplus. simpl. rewrite !Qred_correct.
  unfold Qeq, Qplus. simpl. lia.
Qed.

Lemma sum_unit (l : list Qc) :
  Forall (λ q, Qcle 0 q ∧ Qcle q 1) l →
  Qcle 0 (foldr Qcplus 0%Qc l) ∧ Qcle (foldr Qcplus 0%Qc l) (Qc_of_nat (length l)).
Proof.
  induction 1 as [|q l [H0 H1] Hl [IH0 IH1]].
  - split; apply Qcle_refl.
  - cbn [foldr length]. rewrite Qc_of_nat_S. split.
    + rewrite <- (Qcplus_0_l 0). by apply Qcplus_le_compat.
    + by apply Qcplus_le_compat.
Qed.

Lemma mean_unit (l : list Qc) :
  l ≠ [] → Forall (λ q, Qcle 0 q ∧ Qcle q 1) l → in_unit (mean l).
Proof.
  intros Hne Hl. destruct (sum_unit l Hl) as [H0 H1].
  destruct l as [|q l]; [done|]. unfold mean.
  change (Q2Qc (Z.of_nat (length (q :: l)) # 1)) with (Qc_of_nat (length (q :: l))).
  apply Qcdiv_unit; try done.
  unfold Qclt, Qc_of_nat. cbn [this Q2Qc]. rewrite !Qred_correct.
  unfold Qlt. cbn [Qnum Qden length]. lia.
Qed.

(** ** Counting by true class and by predicted class *)

Lemma nth_le_sum (i : nat) (row : list nat) : nth i row 0 ≤ sum_list row.
Proof.
  revert i. induction row as [|a row IH]; intros [|i]; simpl; try lia.
  specialize (IH i). lia.
Qed.

Lemma omap_imap_Forall {A B} (P : B → Prop) (f : nat → A → option B) (l : list A) :
  (∀ i a b, f i a = Some b → P b) → Forall P (omap id (imap f l)).
Proof.
  revert f. induction l as [|a l IH]; intros f Hf; [constructor|].
  rewrite imap_cons. cbn [omap]. unfold id at 1.
  destruct (f 0 a) as [b|] eqn:E.
  - constructor; [by eapply Hf|]. apply IH. intros i a' b'. apply Hf.
  - apply IH. intros i a' b'. apply Hf.
Qed.

Lemma omap_imap_nonempty {A B} (f : nat → A → option B) (l : list A) :
  (∃ i a, l !! i = Some a ∧ is_Some (f i a)) → omap id (imap f l) ≠ [].
Proof.
  revert f. induction l as [|a l IH]; intros f (i & a' & Hi & Hs); [done|].
  rewrite imap_cons. cbn [omap]. unfold id at 1.
  destruct (f 0 a) as [b|] eqn:E; [done|].
  destruct i as [|i]; simpl in Hi.
  - injection Hi as <-. rewrite E in Hs. by destruct Hs.
  - apply IH. by exists i, a'.
Qed.

Lemma per_class_recall_unit (cm : list (list nat)) :
  Forall (λ q, Qcle 0 q ∧ Qcle q 1) (per_class_recall cm).
Proof.
  apply omap_imap_Forall. intros i row q. simpl.
  destruct (Nat.eqb_spec (sum_list row) 0) as [|Hne]; [done|].
  intros [= <-]. apply ratio_unit; [apply nth_le_sum|lia].
Qed.

Lemma per_class_recall_nonempty (cm : list (list nat)) :
  (∃ i row, cm !! i = Some row ∧ sum_list row ≠ 0) → per_class_recall cm ≠ [].
Proof.
  intros (i & row & Hi & Hs). apply omap_imap_nonempty.
  exists i, row. split; [done|]. simpl.
  by destruct (Nat.eqb_spec (sum_list row) 0).
Qed.

Lemma count_split_pred (v : Z) (y p : list Z) :
  length y = length p → Forall (λ v, v = 0%Z ∨ v = 1%Z) y →
  count v p = count_pairs 0 v y p + count_pairs 1 v y p.
Proof.
  unfold count, count_pairs. revert p.
  induction y as [|a y IH]; intros [|b p]; simpl; try done.
  intros [= Hl] [Ha Hy]%Forall_cons. specialize (IH p Hl Hy).
  destruct Ha as [->| ->]; destruct (b =? v)%Z; simpl; lia.
Qed.

Lemma count_split_true (v : Z) (y p : list Z) :
  length y = length p → Forall (λ v, v = 0%Z ∨ v = 1%Z) p →
  count v y = count_pairs v 0 y p + count_pairs v 1 y p.
Proof.
  unfold count, count_pairs. revert p.
  induction y as [|a y IH]; intros [|b p]; simpl; try done.
  intros [= Hl] [Hb Hp]%Forall_cons. specialize (IH p Hl Hp).
  destruct Hb as [->| ->]; destruct (a =? v)%Z; simpl; lia.
Qed.

Lemma count_pos (v : Z) (l : list Z) : v ∈ l → 0 < count v l.
Proof.
  unfold count. induction l as [|a l IH]; [by intros ?%elem_of_nil|].
  intros [->|H]%elem_of_cons; simpl.
  - rewrite Z.eqb_refl. simpl. lia.
  - destruct (a =? v)%Z; simpl; [lia|auto].
Qed.

Lemma count_pairs_diag (t q : Z) (p : list Z) :
  count_pairs t q p p = if (t =? q)%Z then count t p else 0.
Proof.
  unfold count_pairs, count. induction p as [|a p IH]; simpl.
  - by destruct (t =? q)%Z.
  - destruct (Z.eqb_spec a t) as [->|Ht], (Z.eqb_spec t q) as [->|Hq]; simpl;
      rewrite ?Z.eqb_refl in *; simpl; try (by rewrite IH).
Qed.

Lemma map_Some_inj {A} (l l' : list A) : map Some l = map Some l' → l = l'.
Proof.
  revert l'. induction l as [|a l IH]; intros [|a' l']; simpl; try done.
  intros [= -> E]. f_equal. by apply IH.
Qed.

(** The matrix of 0/1 targets in which both classes occur. *)
Lemma confusion_matrix_binary (y_true : Series) (y_pred y : list Z) :
  binary_targets y_true y_pred → sdata y_true = map Some y →
  check_targets y_true y_pred = Ok (y, y_pred) ∧
  length y = length y_pred ∧ Forall (λ v, v = 0%Z ∨ v = 1%Z) y ∧
  binary_counts y_true y_pred
  = Ok (count_pairs 1 1 y y_pred, count 1 y_pred, count 1 y) ∧
  confusion_matrix y_true y_pred
  = Ok (map (λ t, map (λ q, count_pairs t q y y_pred)
                    ((if decide (0%Z ∈ y ++ y_pred) then [0%Z] else [])
                     ++ (if decide (1%Z ∈ y ++ y_pred) then [1%Z] else [])))
            ((if decide (0%Z ∈ y ++ y_pred) then [0%Z] else [])
             ++ (if decide (1%Z ∈ y ++ y_pred) then [1%Z] else []))).
Proof.
  intros Hb Ey.
  destruct (check_targets_binary _ _ Hb) as (y1 & Et & Ey1 & Hl & Hy).
  destruct (binary_counts_binary _ _ Hb) as (y2 & Ey2 & Ec).
  assert (y1 = y) as -> by (apply map_Some_inj; congruence).
  assert (y2 = y) as -> by (apply map_Some_inj; congruence).
  split_and!; try done.
  rewrite (confusion_matrix_ok _ _ _ Et). unfold unique_labels.
  rewrite unique_binary; [done|]. apply Forall_app. split; [done|apply Hb].
Qed.

Lemma balanced_accuracy_unit (y_true : Series) (y_pred : list Z) :
  binary_targets y_true y_pred → sdata y_true ≠ [] →
  ∃ b, balanced_accuracy_score y_true y_pred = Ok b ∧ in_unit b.
Proof.
  intros Hb Hne.
  destruct (check_targets_binary _ _ Hb) as (y & _ & Ey & _).
  destruct (confusion_matrix_binary _ _ _ Hb Ey) as (_ & Hl & Hy & _ & Ecm).
  unfold balanced_accuracy_score. rewrite Ecm, result_bind_ok.
  eexists. split; [reflexivity|].
  apply mean_unit; [|apply per_class_recall_unit].
  apply per_class_recall_nonempty.
  pose proof (count_pairs_total y y_pred Hl Hy (proj2 (proj2 Hb))) as Htot.
  assert (Hlen : 0 < length y).
  { destruct y; [by rewrite Ey in Hne|simpl; lia]. }
  pose proof (count_pairs_le_pred 0 1 y y_pred).
  pose proof (count_pairs_le_pred 1 1 y y_pred).
  pose proof (count_pairs_le_pred 1 0 y y_pred).
  pose proof (count_pairs_le_true 1 0 y y_pred).
  pose proof (count_pairs_le_true 1 1 y y_pred).
  pose proof (count_pairs_le_true 0 0 y y_pred).
  pose proof (count_pairs_le_true 0 1 y y_pred).
  destruct (decide (0%Z ∈ y ++ y_pred)) as [I0|I0],
           (decide (1%Z ∈ y ++ y_pred)) as [I1|I1]; simpl.
  - destruct (decide (count_pairs 0 0 y y_pred + count_pairs 0 1 y y_pred = 0)).
    + exists 1, [count_pairs 1 0 y y_pred; count_pairs 1 1 y y_pred].
      split; [done|]. simpl. lia.
    + exists 0, [count_pairs 0 0 y y_pred; count_pairs 0 1 y y_pred].
      split; [done|]. simpl. lia.
  - exists 0, [count_pairs 0 0 y y_pred]. split; [done|]. simpl.
    apply not_elem_of_app in I1 as [H1y H1p].
    pose proof (count_none _ _ H1y). pose proof (count_none _ _ H1p). lia.
  - exists 0, [count_pairs 1 1 y y_pred]. split; [done|]. simpl.
    apply not_elem_of_app in I0 as [H0y H0p].
    pose proof (count_none _ _ H0y). pose proof (count_none _ _ H0p). lia.
  - exfalso. destruct y as [|a y]; [simpl in Hlen; lia|].
    apply Forall_cons in Hy as [[->| ->] _].
    + apply I0. left.
    + apply I1. left.
Qed.

Lemma scalar_record_unit (dataset : string) (y_true : Series) (y_pred : list Z) :
  binary_targets y_true y_pred → sdata y_true ≠ [] →
  ∃ m, scalar_record dataset y_true y_pred = Ok m ∧ unit_record m.
Proof.
  intros Hb Hne.
  destruct (binary_counts_binary _ _ Hb) as (y & Ey & Ec).
  destruct (balanced_accuracy_unit _ _ Hb Hne) as (b & Eb & Hbu).
  unfold scalar_record, precision_score, recall_score, f1_score.
  rewrite Ec, Eb, !result_bind_ok. eexists. split; [reflexivity|].
  pose proof (count_pairs_le_pred 1 1 y y_pred).
  pose proof (count_pairs_le_true 1 1 y y_pred).
  unfold unit_record. cbn.
  split_and!; try done; apply prf_divide_unit; lia.
Qed.

Lemma count_pairs_tally (t q : Z) (y p : list Z) :
  Z.of_nat (count_pairs t q y p) = tally t q (map Some y) p.
Proof.
  unfold count_pairs. revert p.
  induction y as [|a y IH]; intros [|b p]; simpl; try done.
  rewrite <- IH. clear IH.
  destruct (Z.eqb_spec a t) as [->|Ha], (Z.eqb_spec b q) as [->|Hb]; simpl.
  - rewrite decide_True by done. lia.
  - rewrite decide_False by (intros [_ ?]; done). lia.
  - rewrite decide_False by (intros [[= ?] _]; done). lia.
  - rewrite decide_False by (intros [[= ?] _]; done). lia.
Qed.

Lemma prf_divide_quotient (num den : nat) :
  quotient (prf_divide num den 0) (Z.of_nat num) (Z.of_nat den).
Proof.
  unfold prf_divide, quotient. destruct (Nat.eqb_spec den 0) as [->|Hd].
  - by rewrite decide_True.
  - rewrite decide_False by lia.
    apply Qc_is_canon. unfold ratio. simpl. rewrite !Qred_correct.
    unfold Qeq, Qmult. simpl. rewrite Pos.mul_1_r, of_nat_pos by lia. lia.
Qed.

Lemma split_agree (d d' : string) (y_true : Series) (y_pred : list Z) :
  binary_targets y_true y_pred → both_classes y_true y_pred →
  ∃ m cm c,
    scalar_record d y_true y_pred = Ok m ∧
    confusion_matrix y_true y_pred = Ok cm ∧
    cm_record d' cm = Ok c ∧
    records_agree m c y_true y_pred.
Proof.
  intros Hb Hc.
  destruct (check_targets_binary _ _ Hb) as (y & _ & Ey & _).
  destruct (confusion_matrix_binary _ _ _ Hb Ey) as (_ & Hl & Hy & Ec & Ecm).
  destruct Hc as [H0 H1].
  rewrite (occurs_labels _ _ _ _ Ey) in H0. rewrite (occurs_labels _ _ _ _ Ey) in H1.
  rewrite !decide_True in Ecm by done. simpl in Ecm.
  unfold scalar_record, precision_score, recall_score, f1_score,
    balanced_accuracy_score.
  rewrite Ec, Ecm, !result_bind_ok.
  eexists _, _, _. split; [reflexivity|]. split; [reflexivity|].
  split; [reflexivity|].
  unfold records_agree. rewrite Ey, <- !count_pairs_tally.
  split; [reflexivity|].
  eexists _, _, _, _. split; [reflexivity|]. cbn [fst snd].
  pose proof (count_split_pred 1 y y_pred Hl Hy) as Ep.
  pose proof (count_split_true 1 y y_pred Hl (proj2 (proj2 Hb))) as Et.
  set (fp := count_pairs 0 1 y y_pred) in *.
  set (fn := count_pairs 1 0 y y_pred) in *.
  set (tp := count_pairs 1 1 y y_pred) in *.
  split_and!.
  - replace (Z.of_nat fp + Z.of_nat tp)%Z with (Z.of_nat (count 1 y_pred)) by lia.
    apply prf_divide_quotient.
  - replace (Z.of_nat fn + Z.of_nat tp)%Z with (Z.of_nat (count 1 y)) by lia.
    apply prf_divide_quotient.
  - replace (2 * Z.of_nat tp)%Z with (Z.of_nat (2 * tp)) by lia.
    replace (Z.of_nat (2 * tp) + Z.of_nat fp + Z.of_nat fn)%Z
      with (Z.of_nat (count 1 y + count 1 y_pred)) by lia.
    apply prf_divide_quotient.
Qed.

Lemma perfect_binary (y : Series) (p : list Z) :
  sdata y = map Some p → Forall (λ v, v = 0%Z ∨ v = 1%Z) p → binary_targets y p.
Proof.
  intros E Hp. unfold binary_targets. rewrite E, length_map.
  split_and!; try done. apply Forall_forall. intros c Hc.
  apply list_elem_of_In, in_map_iff in Hc as (v & <- & Hv).
  rewrite Forall_forall in Hp. apply list_elem_of_In in Hv.
  destruct (Hp v Hv) as [->| ->]; auto.
Qed.

Lemma scalar_record_perfect (dataset : string) (y : Series) (p : list Z) :
  sdata y = map Some p → Forall (λ v, v = 0%Z ∨ v = 1%Z) p → (1%Z ∈ p) →
  ∃ m, scalar_record dataset y p = Ok m ∧
       scalar_values m = Some (FNum 1%Qc, FNum 1%Qc, FNum 1%Qc, FNum 1%Qc).
Proof.
  intros Ey Hp H1. pose proof (perfect_binary _ _ Ey Hp) as Hb.
  destruct (confusion_matrix_binary _ _ _ Hb Ey) as (_ & _ & _ & Ec & Ecm).
  pose proof (count_pos _ _ H1) as Hpos.
  unfold scalar_record, precision_score, recall_score, f1_score,
    balanced_accuracy_score.
  rewrite Ec, Ecm, !result_bind_ok. eexists. split; [reflexivity|].
  unfold scalar_values. cbn [dict_get List.find fst snd String.eqb Ascii.eqb Bool.eqb].
  rewrite !count_pairs_diag. cbn [Z.eqb Pos.eqb].
  replace (2 * count 1 p) with (count 1 p + count 1 p) by lia.
  rewrite !prf_divide_same by lia.
  assert (Hm : mean (per_class_recall
            (map (λ t, map (λ q, count_pairs t q p p)
               ((if decide (0%Z ∈ p ++ p) then [0%Z] else [])
                ++ (if decide (1%Z ∈ p ++ p) then [1%Z] else [])))
               ((if decide (0%Z ∈ p ++ p) then [0%Z] else [])
                ++ (if decide (1%Z ∈ p ++ p) then [1%Z] else []))))
          = FNum 1%Qc).
  { rewrite (decide_True (P := 1%Z ∈ p ++ p)) by (apply elem_of_app; auto).
    destruct (decide (0%Z ∈ p ++ p)) as [H0|H0].
    - assert (H0' : 0%Z ∈ p) by (apply elem_of_app in H0; tauto).
      pose proof (count_pos _ _ H0') as Hpos0.
      cbn [map app]. rewrite !count_pairs_diag. cbn [Z.eqb Pos.eqb].
      unfold per_class_recall. cbn [imap omap sum_list sum_list_with nth compose id].
      rewrite !Nat.add_0_r, Nat.add_0_l.
      rewrite !ratio_same by lia.
      rewrite (proj2 (Nat.eqb_neq (count 0 p) 0)), (proj2 (Nat.eqb_neq (count 1 p) 0)) by lia.
      unfold id. cbn. f_equal; try (apply Qc_is_canon; by vm_compute).
    - cbn [map app]. rewrite !count_pairs_diag. cbn [Z.eqb Pos.eqb].
      unfold per_class_recall. cbn [imap omap sum_list sum_list_with nth compose id].
      rewrite !Nat.add_0_r.
      rewrite !ratio_same by lia.
      rewrite (proj2 (Nat.eqb_neq (count 1 p) 0)) by lia.
      unfold id. cbn. f_equal; try (apply Qc_is_canon; by vm_compute). }
  by rewrite Hm.
Qed.

(** X10. With a model whose predictions do not depend on its state, and
    0/1 targets in which both classes occur, the report succeeds and the
    two records of each split agree.  The cells of the confusion-matrix
    record are the numbers of rows of the split with each pair of label
    and prediction, counted row by row; and with these cells tn, fp, fn,
    tp, the scalar record's precision is tp / (fp + tp), its recall
    tp / (fn + tp) and its F1 2 tp / (2 tp + fp + fn), each 0 where its
    denominator is 0.  The quotients are stated by cross-multiplication in
    the rationals.  Balanced accuracy is no part of the statement. *)
Theorem report_records_agree {S} (model : Model S)
    (x_train : DataFrame) (y_train : Series) (x_test : DataFrame) (y_test : Series)
    (s s1 s2 : S) (p_train p_test : list Z) :
  deterministic model →
  predict model x_train s = (s1, Ok p_train) →
  predict model x_test s1 = (s2, Ok p_test) →
  binary_targets y_train p_train → binary_targets y_test p_test →
  both_classes y_train p_train → both_classes y_test p_test →
  ∃ m_train m_test c_train c_test,
    (report model x_train y_train x_test y_test s).2
      = Ok ((m_train, m_test), (c_train, c_test)) ∧
    records_agree m_train c_train y_train p_train ∧
    records_agree m_test c_test y_test p_test.
Proof.
  intros Hdet E1 E2 B1 B2 C1 C2.
  destruct (split_agree "train" "train" _ _ B1 C1) as (m1 & cm1 & c1 & M1 & K1 & R1 & A1).
  destruct (split_agree "test" "test" _ _ B2 C2) as (m2 & cm2 & c2 & M2 & K2 & R2 & A2).
  exists m1, m2, c1, c2. split; [|done].
  rewrite (report_run model _ _ _ _ _ _ _ _ _ Hdet E1 E2).
  by rewrite M1, M2, K1, K2, !result_bind_ok, R1, R2.
Qed.

Lemma report_records_agree_witness :
  let y := labels_series [1; 0; 1; 0]%Z in
  (deterministic echo_model ∧
   predict echo_model sample_echo_x 0 = (1, Ok [1; 0; 0; 1]%Z) ∧
   binary_targets y [1; 0; 0; 1]%Z ∧ both_classes y [1; 0; 0; 1]%Z) ∧
  ∃ m_train m_test c_train c_test,
    (report echo_model sample_echo_x y sample_echo_x y 0).2
      = Ok ((m_train, m_test), (c_train, c_test)) ∧
    records_agree m_train c_train y [1; 0; 0; 1]%Z ∧
    records_agree m_test c_test y [1; 0; 0; 1]%Z.
Proof.
  intros y.
  assert (D : deterministic echo_model) by (intros x s s'; reflexivity).
  assert (B : binary_targets y [1; 0; 0; 1]%Z)
    by (apply (bool_decide_unpack _); vm_compute; reflexivity).
  assert (C : both_classes y [1; 0; 0; 1]%Z)
    by (apply (bool_decide_unpack _); vm_compute; reflexivity).
  split; [split_and!; [exact D|reflexivity|exact B|exact C]|].
  apply (report_records_agree echo_model sample_echo_x y sample_echo_x y
           0 1 2 [1; 0; 0; 1]%Z [1; 0; 0; 1]%Z);
    [exact D|reflexivity|reflexivity|exact B|exact B|exact C|exact C].
Defined.

(** X11. On splits that are not empty and have 0/1 labels and predictions,
    [metricas] returns its two records and every metric in them, balanced
    accuracy included, is a number between 0 and 1: none is NaN. *)
Theorem metricas_values_in_unit {S} (model : Model S)
    (x_train : DataFrame) (y_train : Series) (x_test : DataFrame) (y_test : Series)
    (s s1 s2 : S) (p_train p_test : list Z) :
  predict model x_train s = (s1, Ok p_train) →
  predict model x_test s1 = (s2, Ok p_test) →
  binary_targets y_train p_train → binary_targets y_test p_test →
  sdata y_train ≠ [] → sdata y_test ≠ [] →
  ∃ m_train m_test,
    metricas model x_train y_train x_test y_test s = (s2, Ok (m_train, m_test)) ∧
    unit_record m_train ∧ unit_record m_test.
Proof.
  intros E1 E2 B1 B2 N1 N2.
  destruct (scalar_record_unit "train" _ _ B1 N1) as (m1 & M1 & U1).
  destruct (scalar_record_unit "test" _ _ B2 N2) as (m2 & M2 & U2).
  exists m1, m2. split; [|done].
  rewrite (metricas_run model _ _ _ _ _ _ _ _ _ E1 E2).
  by rewrite M1, M2.
Qed.

Lemma metricas_values_in_unit_witness :
  let y := labels_series [1; 0; 1; 0]%Z in
  (predict echo_model sample_echo_x 0 = (1, Ok [1; 0; 0; 1]%Z) ∧
   binary_targets y [1; 0; 0; 1]%Z ∧ sdata y ≠ []) ∧
  ∃ m_train m_test,
    metricas echo_model sample_echo_x y sample_echo_x y 0 = (2, Ok (m_train, m_test)) ∧
    unit_record m_train ∧ unit_record m_test.
Proof.
  intros y.
  assert (B : binary_targets y [1; 0; 0; 1]%Z)
    by (apply (bool_decide_unpack _); vm_compute; reflexivity).
  assert (N : sdata y ≠ []) by discriminate.
  split; [split_and!; [reflexivity|exact B|exact N]|].
  apply (metricas_values_in_unit echo_model sample_echo_x y sample_echo_x y
           0 1 2 [1; 0; 0; 1]%Z [1; 0; 0; 1]%Z);
    [reflexivity|reflexivity|exact B|exact B|exact N|exact N].
Defined.

(** X12. Where the predictions of a split repeat its 0/1 labels and class
    1 occurs, precision, balanced accuracy, recall and F1 of that split
    are all the number 1. *)
Theorem metricas_perfect_predictions {S} (model : Model S)
    (x_train : DataFrame) (y_train : Series) (x_test : DataFrame) (y_test : Series)
    (s s1 s2 : S) (p_train p_test : list Z) :
  predict model x_train s = (s1, Ok p_train) →
  predict model x_test s1 = (s2, Ok p_test) →
  sdata y_train = map Some p_train → sdata y_test = map Some p_test →
  Forall (λ v, v = 0%Z ∨ v = 1%Z) p_train → Forall (λ v, v = 0%Z ∨ v = 1%Z) p_test →
  (1%Z ∈ p_train) → (1%Z ∈ p_test) →
  ∃ m_train m_test,
    metricas model x_train y_train x_test y_test s = (s2, Ok (m_train, m_test)) ∧
    scalar_values m_train = Some (FNum 1%Qc, FNum 1%Qc, FNum 1%Qc, FNum 1%Qc) ∧
    scalar_values m_test = Some (FNum 1%Qc, FNum 1%Qc, FNum 1%Qc, FNum 1%Qc).
Proof.
  intros E1 E2 Y1 Y2 P1 P2 H1 H2.
  destruct (scalar_record_perfect "train" _ _ Y1 P1 H1) as (m1 & M1 & V1).
  destruct (scalar_record_perfect "test" _ _ Y2 P2 H2) as (m2 & M2 & V2).
  exists m1, m2. split; [|done].
  rewrite (metricas_run model _ _ _ _ _ _ _ _ _ E1 E2).
  by rewrite M1, M2.
Qed.

Lemma metricas_perfect_predictions_witness :
  let y := labels_series [1; 0; 0; 1]%Z in
  (predict echo_model sample_echo_x 0 = (1, Ok [1; 0; 0; 1]%Z) ∧
   sdata y = map Some [1; 0; 0; 1]%Z ∧
   Forall (λ v, v = 0%Z ∨ v = 1%Z) [1; 0; 0; 1]%Z ∧ 1%Z ∈ [1; 0; 0; 1]%Z) ∧
  ∃ m_train m_test,
    metricas echo_model sample_echo_x y sample_echo_x y 0 = (2, Ok (m_train, m_test)) ∧
    scalar_values m_train = Some (FNum 1%Qc, FNum 1%Qc, FNum 1%Qc, FNum 1%Qc) ∧
    scalar_values m_test = Some (FNum 1%Qc, FNum 1%Qc, FNum 1%Qc, FNum 1%Qc).
Proof.
  intros y.
  assert (P : Forall (λ v, v = 0%Z ∨ v = 1%Z) [1; 0; 0; 1]%Z)
    by (apply (bool_decide_unpack _); vm_compute; reflexivity).
  assert (H : 1%Z ∈ [1; 0; 0; 1]%Z)
    by (apply (bool_decide_unpack _); vm_compute; reflexivity).
  split; [split_and!; [reflexivity|reflexivity|exact P|exact H]|].
  apply (metricas_perfect_predictions echo_model sample_echo_x y sample_echo_x y
           0 1 2 [1; 0; 0; 1]%Z [1; 0; 0; 1]%Z);
    [reflexivity|reflexivity|reflexivity|reflexivity|exact P|exact P|exact H|exact H].
Defined.

(** * Further properties: where the metrics file cannot be written *)

(** [makedirs] stops at the first file in the way; by then it has made
    directories only, at places that were free. *)
Lemma mkdirs_blocked walked rest s :
  (∃ k, 1 ≤ k ≤ length rest ∧ is_file (s !! (walked ++ take k rest)) = true) →
  ∃ s' e,
    mkdirs true walked rest s = (s', Raise e) ∧
    (e = FileExistsError ∨ e = NotADirectoryError) ∧
    (∀ q, (∀ k, 1 ≤ k ≤ length rest → q ≠ walked ++ take k rest) →
          s' !! q = s !! q) ∧
    (∀ q, s !! q ≠ None → s' !! q = s !! q).
Proof.
  revert walked s. induction rest as [|c rest IH]; intros walked s (k & Hk & Hfile).
  { simpl in Hk. lia. }
  set (p := walked ++ [c]).
  assert (Hchain : ∀ k, walked ++ take (S k) (c :: rest) = p ++ take k rest).
  { intros j. unfold p. by rewrite <- app_assoc. }
  assert (Hp : ∀ k, 1 ≤ k ≤ length rest → p ++ take k rest ≠ p).
  { intros j Hj. apply app_ne_self, take_cons_ne_nil; [lia|].
    destruct rest; simpl in *; [lia|done]. }
  assert (Hstep : ∀ s0, is_file (s0 !! p) = false →
            (∀ q, q ≠ p → s0 !! q = s !! q) →
            (∀ q, s !! q ≠ None → s0 !! q = s !! q) →
            ∃ s' e, mkdirs true p rest s0 = (s', Raise e) ∧
              (e = FileExistsError ∨ e = NotADirectoryError) ∧
              (∀ q, (∀ k, 1 ≤ k ≤ length (c :: rest) →
                          q ≠ walked ++ take k (c :: rest)) →
                    s' !! q = s !! q) ∧
              (∀ q, s !! q ≠ None → s' !! q = s !! q)).
  { intros s0 Hnf Hsame Hkeep.
    destruct k as [|[|k]]; [lia| |].
    { exfalso. rewrite (Hchain 0) in Hfile. simpl in Hfile.
      rewrite app_nil_r in Hfile.
      destruct (decide (s !! p = None)) as [En|En].
      - by rewrite En in Hfile.
      - rewrite <- (Hkeep _ En) in Hfile. congruence. }
    destruct (IH p s0) as (s' & e & Hrun & He & Hframe & Hkept).
    { exists (S k). simpl in Hk. split; [lia|].
      rewrite Hsame by (apply Hp; lia). by rewrite <- Hchain. }
    exists s', e. split; [done|]. split; [done|]. split.
    - intros q Hq. rewrite Hframe.
      + apply Hsame. specialize (Hq 1). simpl in Hq. apply Hq. lia.
      + intros j Hj. rewrite <- Hchain. apply Hq. simpl. lia.
    - intros q Hq. rewrite Hkept; [by apply Hkeep|].
      by rewrite (Hkeep _ Hq). }
  simpl. fold p. destruct (s !! p) as [[|content]|] eqn:E.
  - destruct rest as [|c' rest].
    + exfalso. simpl in Hk. assert (k = 1) as -> by lia.
      rewrite (Hchain 0) in Hfile. simpl in Hfile.
      rewrite app_nil_r in Hfile. by rewrite E in Hfile.
    + apply Hstep; [by rewrite E|done|done].
  - exists s. destruct rest; eexists; (split; [reflexivity|]); auto.
  - apply Hstep.
    + by rewrite lookup_insert_eq.
    + intros q Hq. by apply lookup_insert_ne.
    + intros q Hq. apply lookup_insert_ne. intros <-. by rewrite E in Hq.
Qed.

(** What a successful [makedirs] leaves untouched. *)
Lemma mkdirs_keeps walked rest s s' :
  mkdirs true walked rest s = (s', Ok tt) →
  ∀ q, s !! q ≠ None → s' !! q = s !! q.
Proof.
  revert walked s. induction rest as [|c rest IH]; intros walked s.
  { simpl. by intros [= <-]. }
  simpl. destruct (s !! (walked ++ [c])) as [[|content]|] eqn:E.
  - destruct rest as [|c' rest]; [by intros [= <-]|]. apply IH.
  - by destruct rest.
  - intros Hrun q Hq. rewrite (IH _ _ Hrun).
    + apply lookup_insert_ne. intros <-. by rewrite E in Hq.
    + rewrite lookup_insert_ne; [done|]. intros <-. by rewrite E in Hq.
Qed.

Section writer_failures.
Variable float_repr : fval → string.

Lemma guardarMetricas_stops (m1 m2 m3 m4 : dict) (file_path : path) (s : fs) :
  ¬ writable s file_path →
  ∃ s' e,
    guardarMetricas float_repr m1 m2 m3 m4 file_path s = (s', Raise e) ∧
    e ∈ [FileNotFoundError; FileExistsError; NotADirectoryError; IsADirectoryError] ∧
    (∀ q, s !! q ≠ None → s' !! q = s !! q).
Proof.
  intros Hnw. unfold guardarMetricas, makedirs.
  destruct (dirname file_path) as [|d ds] eqn:Ed.
  { exists s, FileNotFoundError. split; [done|]. split; [|done]. rewrite !elem_of_cons. tauto. }
  destruct (decide (Forall (λ k, is_file (s !! take k (dirname file_path)) = false)
                      (seq 1 (length (dirname file_path))))) as [Hfree|Hblocked].
  - assert (Hdir : s !! file_path = Some Dir).
    { destruct (decide (s !! file_path = Some Dir)) as [|Hn]; [done|].
      destruct Hnw. split_and!; [by rewrite Ed|done|done]. }
    rewrite Forall_forall in Hfree.
    destruct (mkdirs_ok [] (dirname file_path) s) as (s1 & Hmk & _ & _).
    { intros k Hk. simpl. apply Hfree, elem_of_seq. lia. }
    rewrite Ed in Hmk.
    pose proof (mkdirs_keeps _ _ _ _ Hmk) as Hkeep.
    exists s1, IsADirectoryError. split.
    + unfold mbind at 1, State_bind. rewrite Hmk.
      unfold mbind at 1, State_bind.
      assert (Hopen : open_w file_path s1 = (s1, Raise IsADirectoryError)).
      { unfold open_w. destruct file_path as [|c fp]; [done|].
        rewrite Hkeep by (by rewrite Hdir). by rewrite Hdir. }
      by rewrite Hopen.
    + split; [rewrite !elem_of_cons; tauto|done].
  - apply not_Forall_Exists in Hblocked; [|apply _].
    apply Exists_exists in Hblocked as (k & Hk & Hfile).
    apply elem_of_seq in Hk.
    destruct (mkdirs_blocked [] (dirname file_path) s) as (s1 & e & Hmk & He & _ & Hkeep).
    { exists k. split; [lia|]. simpl. by apply not_false_iff_true. }
    rewrite Ed in Hmk. exists s1, e. split.
    + unfold mbind at 1, State_bind. by rewrite Hmk.
    + split; [|done]. rewrite !elem_of_cons. tauto.
Qed.

End writer_failures.

(** X13. [guardarMetricas] succeeds exactly where the metrics file can be
    written.  Elsewhere it stops with FileNotFoundError (a path without a
    directory part), FileExistsError or NotADirectoryError (a file where a
    directory of the path has to be) or IsADirectoryError (the path is a
    directory), and every file and directory that existed is as it was:
    an earlier metrics file is not truncated. *)
Theorem guardarMetricas_succeeds_iff_writable (float_repr : fval → string)
    (metrics_train metrics_test cm_metrics_train cm_metrics_test : dict)
    (file_path : path) (s : fs) :
  let run := guardarMetricas float_repr metrics_train metrics_test
               cm_metrics_train cm_metrics_test file_path s in
  (run.2 = Ok tt ↔ writable s file_path) ∧
  (¬ writable s file_path →
   ∃ e, run.2 = Raise e ∧
        e ∈ [FileNotFoundError; FileExistsError; NotADirectoryError;
             IsADirectoryError] ∧
        ∀ q, s !! q ≠ None → run.1 !! q = s !! q).
Proof.
  intros run. split.
  - split.
    + intros Hok. destruct (decide (writable s file_path)) as [|Hnw]; [done|].
      destruct (guardarMetricas_stops float_repr metrics_train metrics_test
                  cm_metrics_train cm_metrics_test file_path s Hnw)
        as (s' & e & Hrun & _).
      unfold run in Hok. by rewrite Hrun in Hok.
    + intros Hw.
      destruct (guardarMetricas_run float_repr metrics_train metrics_test
                  cm_metrics_train cm_metrics_test file_path s Hw)
        as (s' & Hrun & _).
      unfold run. by rewrite Hrun.
  - intros Hnw.
    destruct (guardarMetricas_stops float_repr metrics_train metrics_test
                cm_metrics_train cm_metrics_test file_path s Hnw)
      as (s' & e & Hrun & He & Hkeep).
    exists e. unfold run. rewrite Hrun. done.
Qed.

(** X14. Where the metrics file can be written, it can be written again
    after [guardarMetricas] has run, and the second run leaves the four
    lines it would have left without the first: the file is replaced, not
    appended to. *)
Theorem guardarMetricas_rerun (float_repr : fval → string)
    (m1 m2 m3 m4 n1 n2 n3 n4 : dict) (file_path : path) (s : fs) :
  writable s file_path →
  let s' := (guardarMetricas float_repr m1 m2 m3 m4 file_path s).1 in
  writable s' file_path ∧
  (guardarMetricas float_repr n1 n2 n3 n4 file_path s').2 = Ok tt ∧
  (guardarMetricas float_repr n1 n2 n3 n4 file_path s').1 !! file_path
  = (guardarMetricas float_repr n1 n2 n3 n4 file_path s).1 !! file_path.
Proof.
  intros Hw s'.
  destruct (guardarMetricas_run float_repr m1 m2 m3 m4 file_path s Hw)
    as (s1 & Hrun & Hfile & Hdirs & _).
  assert (Es : s' = s1) by (unfold s'; by rewrite Hrun). rewrite Es. clear Es s'.
  assert (Hw' : writable s1 file_path).
  { destruct Hw as (Hdir & _ & _). split_and!; [done| |by rewrite Hfile].
    apply Forall_forall. intros k Hk%elem_of_seq. rewrite Hdirs; [done|lia]. }
  split; [done|].
  destruct (guardarMetricas_run float_repr n1 n2 n3 n4 file_path s1 Hw')
    as (s2 & Hrun2 & Hfile2 & _).
  destruct (guardarMetricas_run float_repr n1 n2 n3 n4 file_path s Hw)
    as (s3 & Hrun3 & Hfile3 & _).
  rewrite Hrun2, Hrun3. simpl. split; [done|]. by rewrite Hfile2, Hfile3.
Qed.

Lemma guardarMetricas_rerun_witness :
  writable sample_fs default_metrics_path ∧
  let s' := (guardarMetricas sample_float_repr sample_metrics sample_metrics
               sample_cm sample_cm default_metrics_path sample_fs).1 in
  writable s' default_metrics_path ∧
  (guardarMetricas sample_float_repr sample_cm sample_cm sample_metrics
     sample_metrics default_metrics_path s').2 = Ok tt ∧
  (guardarMetricas sample_float_repr sample_cm sample_cm sample_metrics
     sample_metrics default_metrics_path s').1 !! default_metrics_path
  = (guardarMetricas sample_float_repr sample_cm sample_cm sample_metrics
       sample_metrics default_metrics_path sample_fs).1 !! default_metrics_path.
Proof.
  assert (W : writable sample_fs default_metrics_path)
    by (apply (bool_decide_unpack _); vm_compute; reflexivity).
  split; [exact W|].
  apply (guardarMetricas_rerun sample_float_repr sample_metrics sample_metrics
           sample_cm sample_cm sample_cm sample_cm sample_metrics sample_metrics
           default_metrics_path sample_fs W).
Defined.
(** * Further properties: [guardar] *)

(** Making the directories of a writable path and opening it. *)
Lemma open_after_makedirs (p : path) (s : fs) :
  writable s p →
  ∃ s1,
    mkdirs true [] (dirname p) s = (s1, Ok tt) ∧
    open_w p s1 = (<[p := File EmptyString]> s1, Ok p) ∧
    (∀ k, 1 ≤ k ≤ length (dirname p) → s1 !! take k (dirname p) = Some Dir) ∧
    (∀ k, p ≠ take k (dirname p)) ∧
    (∀ q, (∀ k, 1 ≤ k ≤ length (dirname p) → q ≠ take k (dirname p)) →
          s1 !! q = s !! q).
Proof.
  intros (Hdir & Hfree & Hfile).
  rewrite Forall_forall in Hfree.
  destruct (mkdirs_ok [] (dirname p) s) as (s1 & Hmk & Hdirs & Hframe).
  { intros k Hk. simpl. apply Hfree, elem_of_seq. lia. }
  simpl in Hdirs, Hframe.
  assert (Hlen := dirname_shorter _ Hdir).
  assert (Hne : ∀ k, p ≠ take k (dirname p)).
  { intros k E. apply (f_equal length) in E. rewrite length_take in E. lia. }
  assert (Hs1 : s1 !! p = s !! p) by (by apply Hframe).
  assert (Hparent : s1 !! dirname p = Some Dir).
  { rewrite <- (firstn_all (dirname p)) at 1. apply Hdirs.
    destruct (dirname p); [done|simpl; lia]. }
  exists s1. split_and!; try done.
  unfold open_w. destruct p as [|c fp]; [done|].
  assert (Hnd : s1 !! (c :: fp) ≠ Some Dir) by (by rewrite Hs1).
  unfold is_dir. rewrite Hparent.
  destruct (dirname (c :: fp)) as [|? ?] eqn:Ed; [done|].
  by destruct (s1 !! (c :: fp)) as [[|?]|].
Qed.

Section saver_proofs.
Context {Obj : Type} (pickle_gz : Obj → string).

Lemma guardar_run (model : Obj) (s : fs) :
  writable s model_path →
  ∃ s',
    guardar pickle_gz model s = (s', Ok tt) ∧
    s' !! model_path = Some (File (pickle_gz model)) ∧
    s' !! ["files"] = Some Dir ∧
    s' !! ["files"; "models"] = Some Dir ∧
    (∀ q, q ∉ [["files"]; ["files"; "models"]; model_path] → s' !! q = s !! q).
Proof.
  intros Hw.
  destruct (open_after_makedirs _ _ Hw) as (s1 & Hmk & Hopen & Hdirs & Hne & Hframe).
  change (dirname model_path) with ["files"; "models"] in *.
  eexists. split.
  { unfold guardar, makedirs.
    unfold mbind at 1, State_bind. rewrite Hmk.
    unfold mbind at 1, State_bind. rewrite Hopen.
    erewrite write_ok; [|apply lookup_insert_eq]. reflexivity. }
  rewrite insert_insert_eq. split_and!.
  - by rewrite lookup_insert_eq.
  - rewrite lookup_insert_ne by done. apply (Hdirs 1). simpl. lia.
  - rewrite lookup_insert_ne by done. apply (Hdirs 2). simpl. lia.
  - intros q Hq. rewrite !not_elem_of_cons in Hq. destruct Hq as (Q1 & Q2 & Q3 & _).
    rewrite lookup_insert_ne by done. apply Hframe.
    intros k Hk. simpl in Hk.
    destruct k as [|[|[|k]]]; simpl; try lia; done.
Qed.

Lemma guardar_stops (model : Obj) (s : fs) :
  ¬ writable s model_path →
  ∃ s' e,
    guardar pickle_gz model s = (s', Raise e) ∧
    e ∈ [FileExistsError; NotADirectoryError; IsADirectoryError] ∧
    (∀ q, s !! q ≠ None → s' !! q = s !! q).
Proof.
  intros Hnw. unfold guardar, makedirs.
  destruct (decide (Forall (λ k, is_file (s !! take k (dirname model_path)) = false)
                      (seq 1 (length (dirname model_path))))) as [Hfree|Hblocked].
  - assert (Hdir : s !! model_path = Some Dir).
    { destruct (decide (s !! model_path = Some Dir)) as [|Hn]; [done|].
      destruct Hnw. split_and!; done. }
    rewrite Forall_forall in Hfree.
    destruct (mkdirs_ok [] (dirname model_path) s) as (s1 & Hmk & _ & _).
    { intros k Hk. simpl. apply Hfree, elem_of_seq. lia. }
    change (dirname model_path) with ["files"; "models"] in Hmk.
    pose proof (mkdirs_keeps _ _ _ _ Hmk) as Hkeep.
    exists s1, IsADirectoryError. split.
    + unfold mbind at 1, State_bind. rewrite Hmk.
      unfold mbind at 1, State_bind.
      assert (Hopen : open_w model_path s1 = (s1, Raise IsADirectoryError)).
      { unfold open_w, model_path. fold model_path.
        rewrite Hkeep by (by rewrite Hdir). by rewrite Hdir. }
      by rewrite Hopen.
    + split; [rewrite !elem_of_cons; tauto|done].
  - apply not_Forall_Exists in Hblocked; [|apply _].
    apply Exists_exists in Hblocked as (k & Hk & Hfile).
    apply elem_of_seq in Hk.
    destruct (mkdirs_blocked [] (dirname model_path) s) as (s1 & e & Hmk & He & _ & Hkeep).
    { exists k. split; [lia|]. simpl. by apply not_false_iff_true. }
    change (dirname model_path) with ["files"; "models"] in Hmk.
    exists s1, e. split.
    + unfold mbind at 1, State_bind. by rewrite Hmk.
    + split; [|done]. rewrite !elem_of_cons. tauto.
Qed.

End saver_proofs.

(** X15. [guardar] succeeds exactly where the model file can be written:
    no file stands at [files] or [files/models] and the path of the model
    file is not a directory.  It then leaves the two directories and, at
    [files/models/model.pkl.gz], the serialized model alone, whatever the
    file held before; nothing else changes.  Elsewhere it stops with
    FileExistsError, NotADirectoryError or IsADirectoryError, and what
    existed is as it was. *)
Theorem guardar_saves_model {Obj : Type} (pickle_gz : Obj → string)
    (model : Obj) (s : fs) :
  let run := guardar pickle_gz model s in
  (run.2 = Ok tt ↔ writable s model_path) ∧
  (writable s model_path →
     run.1 !! model_path = Some (File (pickle_gz model)) ∧
     run.1 !! ["files"] = Some Dir ∧
     run.1 !! ["files"; "models"] = Some Dir ∧
     ∀ q, q ∉ [["files"]; ["files"; "models"]; model_path] → run.1 !! q = s !! q) ∧
  (¬ writable s model_path →
     ∃ e, run.2 = Raise e ∧
          e ∈ [FileExistsError; NotADirectoryError; IsADirectoryError] ∧
          ∀ q, s !! q ≠ None → run.1 !! q = s !! q).
Proof.
  intros run. split_and!.
  - split.
    + intros Hok. destruct (decide (writable s model_path)) as [|Hnw]; [done|].
      destruct (guardar_stops pickle_gz model s Hnw) as (s' & e & Hrun & _).
      unfold run in Hok. by rewrite Hrun in Hok.
    + intros Hw. destruct (guardar_run pickle_gz model s Hw) as (s' & Hrun & _).
      unfold run. by rewrite Hrun.
  - intros Hw. destruct (guardar_run pickle_gz model s Hw) as (s' & Hrun & H).
    unfold run. by rewrite Hrun.
  - intros Hnw.
    destruct (guardar_stops pickle_gz model s Hnw) as (s' & e & Hrun & He & Hkeep).
    exists e. unfold run. by rewrite Hrun.
Qed.

(** Saving the model leaves the metrics file writable. *)
Lemma guardar_keeps_metrics_path {Obj : Type} (pickle_gz : Obj → string)
    (model : Obj) (s : fs) :
  writable s model_path → writable s default_metrics_path →
  ∃ s1,
    guardar pickle_gz model s = (s1, Ok tt) ∧
    s1 !! model_path = Some (File (pickle_gz model)) ∧
    s1 !! default_metrics_path = s !! default_metrics_path ∧
    writable s1 default_metrics_path.
Proof.
  intros Hw1 Hw2.
  destruct (guardar_run pickle_gz model s Hw1) as (s1 & Hrun1 & Hfile1 & Hd1 & Hd2 & Hframe1).
  assert (Hsame : s1 !! default_metrics_path = s !! default_metrics_path).
  { rewrite Hframe1; [done|]. rewrite !not_elem_of_cons.
    split_and!; try discriminate; apply not_elem_of_nil. }
  exists s1. split_and!; try done.
  destruct Hw2 as (Hdir & Hfree & Hnd). split_and!; [done| |by rewrite Hsame].
  rewrite Forall_forall in Hfree. apply Forall_forall.
  intros k Hk. specialize (Hfree k Hk). apply elem_of_seq in Hk.
  change (dirname default_metrics_path) with ["files"; "output"] in *.
  simpl in Hk. destruct k as [|[|[|k]]]; try lia; simpl in *.
  - by rewrite Hd1.
  - rewrite Hframe1; [done|]. rewrite !not_elem_of_cons.
    split_and!; try discriminate; apply not_elem_of_nil.
Qed.

(** X16. Where both output files can be written, [guardar] followed by
    [guardarMetricas] at its default path succeeds, and afterwards the
    model file still holds the serialized model and the metrics file its
    four lines: the two writers share the directory [files] and do not
    disturb each other. *)
Theorem guardar_then_guardarMetricas {Obj : Type} (pickle_gz : Obj → string)
    (float_repr : fval → string) (model : Obj) (m1 m2 m3 m4 : dict) (s : fs) :
  writable s model_path → writable s default_metrics_path →
  ∃ s1 s2,
    guardar pickle_gz model s = (s1, Ok tt) ∧
    guardarMetricas float_repr m1 m2 m3 m4 default_metrics_path s1 = (s2, Ok tt) ∧
    s2 !! model_path = Some (File (pickle_gz model)) ∧
    s2 !! default_metrics_path
      = Some (File (Json.dumps float_repr (JObj m1) +:+ newline
                    +:+ Json.dumps float_repr (JObj m2) +:+ newline
                    +:+ Json.dumps float_repr (JObj m3) +:+ newline
                    +:+ Json.dumps float_repr (JObj m4) +:+ newline)).
Proof.
  intros Hw1 Hw2.
  destruct (guardar_keeps_metrics_path pickle_gz model s Hw1 Hw2)
    as (s1 & Hrun1 & Hfile1 & _ & Hw2').
  destruct (guardarMetricas_run float_repr m1 m2 m3 m4 _ s1 Hw2')
    as (s2 & Hrun2 & Hfile2 & _ & Hframe2).
  exists s1, s2. split_and!; try done.
  rewrite Hframe2; [done|done|].
  change (dirname default_metrics_path) with ["files"; "output"].
  intros [l Hl]. discriminate Hl.
Qed.

Lemma guardar_then_guardarMetricas_witness :
  (writable sample_fs model_path ∧ writable sample_fs default_metrics_path) ∧
  ∃ s1 s2,
    guardar (λ n : nat, "model") 0 sample_fs = (s1, Ok tt) ∧
    guardarMetricas sample_float_repr sample_metrics sample_metrics sample_cm
      sample_cm default_metrics_path s1 = (s2, Ok tt) ∧
    s2 !! model_path = Some (File "model") ∧
    s2 !! default_metrics_path
      = Some (File (Json.dumps sample_float_repr (JObj sample_metrics) +:+ newline
                    +:+ Json.dumps sample_float_repr (JObj sample_metrics) +:+ newline
                    +:+ Json.dumps sample_float_repr (JObj sample_cm) +:+ newline
                    +:+ Json.dumps sample_float_repr (JObj sample_cm) +:+ newline)).
Proof.
  assert (W1 : writable sample_fs model_path)
    by (apply (bool_decide_unpack _); vm_compute; reflexivity).
  assert (W2 : writable sample_fs default_metrics_path)
    by (apply (bool_decide_unpack _); vm_compute; reflexivity).
  split; [split; [exact W1|exact W2]|].
  apply (guardar_then_guardarMetricas (λ n : nat, "model") sample_float_repr 0
           sample_metrics sample_metrics sample_cm sample_cm sample_fs W1 W2).
Defined.
(** * Further properties: what cleaning leaves as it was *)

Lemma field_renamed (old new : string) (r : row) :
  new ∉ map fst (fields r) →
  field new (Cleaner.on_fields (map (Cleaner.rename_key old new)) r) = field old r.
Proof.
  unfold field, Cleaner.on_fields, fields, Cleaner.rename_key. simpl.
  induction (snd r) as [|kv kvs IH]; simpl; [done|].
  rewrite not_elem_of_cons. intros [Hne Hrest].
  destruct (String.eqb_spec (fst kv) old) as [E|E]; simpl.
  - by rewrite String.eqb_refl.
  - destruct (String.eqb_spec (fst kv) new) as [E'|E']; [congruence|]. auto.
Qed.

Lemma field_cleaned_label (r : row) :
  "default" ∉ map fst (fields r) →
  field "default" (Cleaner.cleaned r) = field "default payment next month" r.
Proof.
  intros Hfree. unfold Cleaner.cleaned, Cleaner.prepared.
  rewrite field_recoded_other, field_without_key by done.
  by apply field_renamed.
Qed.

Lemma field_cleaned_other (c : string) (r : row) :
  c ∉ ["ID"; "EDUCATION"; "default payment next month"; "default"] →
  field c (Cleaner.cleaned r) = field c r.
Proof.
  rewrite !not_elem_of_cons. intros (H1 & H2 & H3 & H4 & _).
  unfold Cleaner.cleaned. rewrite field_recoded_other by done.
  by apply field_prepared.
Qed.

(** X17. Cleaning changes no value but education codes.  Every row of the
    cleaned frame comes from a row of the input with the same index
    label; its label [default] is that row's
    [default payment next month], and every other field, the identifier
    and the education code aside, is that row's field.  The labels in y
    are the raw labels of the rows that are kept, in their order. *)
Theorem limpiarDatos_changes_only_education (h : heap) (r : loc) (raw : DataFrame) :
  h !! r = Some raw → raw_dataset raw →
  ∃ h' ld lx d y,
    limpiarDatos r h = (h', Ok (ld, lx, y)) ∧ h' !! ld = Some d ∧
    (∀ row, row ∈ frame_rows d →
       ∃ row0, row0 ∈ frame_rows raw ∧ label row = label row0 ∧
         field "default" row = field "default payment next month" row0 ∧
         ∀ c, c ∉ ["ID"; "EDUCATION"; "default payment next month"; "default"] →
              field c row = field c row0) ∧
    sdata y = map (field "default payment next month")
                  (List.filter Cleaner.survives (frame_rows raw)).
Proof.
  intros Hr Hraw.
  destruct (limpiarDatos_facts h r raw Hr Hraw)
    as (h' & ld & lx & d & x & y & Hrun & Hd & Hx & Rd & Rx & Ry & _).
  exists h', ld, lx, d, y. do 2 (split; [done|]).
  assert (Hfree : ∀ row0, row0 ∈ frame_rows raw → "default" ∉ map fst (fields row0)).
  { intros row0 H0. rewrite (rows_of_keys _ _ _ H0). apply Hraw. }
  split.
  - intros row. rewrite Rd. intros (row0 & -> & Hin)%list_elem_of_fmap.
    apply list_elem_of_In, filter_In in Hin as [Hin _].
    apply list_elem_of_In in Hin.
    exists row0. split_and!; [done|done|by apply field_cleaned_label, Hfree|].
    intros c Hc. by apply field_cleaned_other.
  - rewrite Ry, Rd, map_map. apply map_ext_in.
    intros row0 [Hin _]%filter_In. apply field_cleaned_label, Hfree.
    by apply list_elem_of_In.
Qed.

Lemma limpiarDatos_changes_only_education_witness :
  ([sample_raw] !! 0 = Some sample_raw ∧ raw_dataset sample_raw) ∧
  ∃ h' ld lx d y,
    limpiarDatos 0 [sample_raw] = (h', Ok (ld, lx, y)) ∧ h' !! ld = Some d ∧
    (∀ row, row ∈ frame_rows d →
       ∃ row0, row0 ∈ frame_rows sample_raw ∧ label row = label row0 ∧
         field "default" row = field "default payment next month" row0 ∧
         ∀ c, c ∉ ["ID"; "EDUCATION"; "default payment next month"; "default"] →
              field c row = field c row0) ∧
    sdata y = map (field "default payment next month")
                  (List.filter Cleaner.survives (frame_rows sample_raw)).
Proof.
  assert (H : raw_dataset sample_raw)
    by (apply (bool_decide_unpack _); vm_compute; reflexivity).
  split; [split; [reflexivity|exact H]|].
  apply (limpiarDatos_changes_only_education [sample_raw] 0 sample_raw);
    [reflexivity|exact H].
Defined.
(** * Further properties: the script from end to end *)

Lemma on_frames_run {A : Type} (m : M A) (h h' : heap) (disk : fs) (r : result A) :
  m h = (h', r) → on_frames m (h, disk) = ((h', disk), r).
Proof. intros E. unfold on_frames. simpl. by rewrite E. Qed.

Lemma on_disk_run {A : Type} (m : State fs A) (h : heap) (disk disk' : fs) (r : result A) :
  m disk = (disk', r) → on_disk m (h, disk) = ((h, disk'), r).
Proof. intros E. unfold on_disk. simpl. by rewrite E. Qed.

Lemma world_bind_ok {A B : Type} (m : State World A) (k : A → State World B) w w' a :
  m w = (w', Ok a) → (m ≫= k) w = k a w'.
Proof. intros E. unfold mbind, State_bind. by rewrite E. Qed.

Lemma world_bind_raise {A B : Type} (m : State World A) (k : A → State World B) w w' e :
  m w = (w', Raise e) → (m ≫= k) w = (w', Raise e).
Proof. intros E. unfold mbind, State_bind. by rewrite E. Qed.

Lemma limpiarDatos_kept (h h' : heap) (r : loc) (out : result (loc * loc * Series)) :
  limpiarDatos r h = (h', out) → take (length h) h' = h.
Proof.
  intros E. destruct (kept_limpiarDatos (length h) r h h' out) as (Ht & _); [done|done|].
  by rewrite Ht, firstn_all.
Qed.

Lemma lookup_kept (h h' : heap) (l : loc) (f : DataFrame) :
  take (length h) h' = h → h !! l = Some f → h' !! l = Some f.
Proof.
  intros Ht Hl. rewrite <- Ht in Hl.
  apply lookup_take_Some in Hl. tauto.
Qed.

Section script_proofs.
Context {S Pipe : Type}.
Variable read_csv : path → fs → result DataFrame.
Variable pipeline : Pipe.
Variable hiperParametros : Pipe → DataFrame → Series → result (Model S * S).
Variable pickle_gz : Model S * S → string.
Variable float_repr : fval → string.

Lemma read_ok (p : path) (h : heap) (disk : fs) (f : DataFrame) :
  read_csv p disk = Ok f →
  read read_csv p (h, disk) = ((h ++ [f], disk), Ok (length h)).
Proof. intros E. unfold read, mbind, State_bind. simpl. by rewrite E. Qed.

(** Once both frames are read and cleaned and the model is fitted, the
    script is the saver, the reporter and the writer, one after the
    other. *)
Lemma script_run (h : heap) (disk : fs) (test train d_test x_test d_train x_train : DataFrame)
    (y_test y_train : Series) (model : Model S) (s0 : S) :
  read_csv test_path disk = Ok test →
  read_csv train_path disk = Ok train →
  clean_value test = Ok (d_test, x_test, y_test) →
  clean_value train = Ok (d_train, x_train, y_train) →
  hiperParametros pipeline x_train y_train = Ok (model, s0) →
  ∃ h',
    take (length h + 2) h' = h ++ [test; train] ∧
    script read_csv pipeline hiperParametros pickle_gz float_repr (h, disk)
    = match guardar pickle_gz (model, s0) disk with
      | (disk1, Raise e) => ((h', disk1), Raise e)
      | (disk1, Ok _) =>
          match (report model x_train y_train x_test y_test s0).2 with
          | Raise e => ((h', disk1), Raise e)
          | Ok reports =>
              on_disk (guardarMetricas float_repr reports.1.1 reports.1.2
                         reports.2.1 reports.2.2 default_metrics_path) (h', disk1)
          end
      end.
Proof.
  intros R1 R2 V1 V2 F.
  set (h2 := (h ++ [test]) ++ [train]).
  assert (L1 : h2 !! length h = Some test).
  { unfold h2. rewrite lookup_app_l by (rewrite length_app; simpl; lia).
    apply lookup_snoc. }
  assert (L2 : h2 !! Datatypes.S (length h) = Some train).
  { unfold h2. replace (Datatypes.S (length h)) with (length (h ++ [test]))
      by (rewrite length_app; simpl; lia). apply lookup_snoc. }
  destruct (limpiarDatos_value h2 _ _ _ _ _ L1 V1) as (h3 & ld1 & lx1 & E3 & _ & X1 & _).
  pose proof (limpiarDatos_kept _ _ _ _ E3) as K3.
  pose proof (lookup_kept _ _ _ _ K3 L2) as L3.
  destruct (limpiarDatos_value h3 _ _ _ _ _ L3 V2) as (h4 & ld2 & lx2 & E4 & _ & X2 & _).
  pose proof (limpiarDatos_kept _ _ _ _ E4) as K4.
  pose proof (lookup_kept _ _ _ _ K4 X1) as X1'.
  exists h4. split.
  { assert (length h2 = length h + 2) as <-.
    { unfold h2. rewrite !length_app. simpl. lia. }
    assert (E : take (length h2) h4 = take (length h2) (take (length h3) h4)).
    { rewrite take_take. f_equal.
      apply (f_equal length) in K3. rewrite length_take in K3. lia. }
    rewrite E, K4, K3. unfold h2. by rewrite <- app_assoc. }
  unfold script.
  rewrite (world_bind_ok _ _ _ _ _ (read_ok _ _ _ _ R1)).
  rewrite (world_bind_ok _ _ _ _ _ (read_ok _ _ _ _ R2)).
  replace (length (h ++ [test])) with (Datatypes.S (length h))
    by (rewrite length_app; simpl; lia).
  fold h2.
  rewrite (world_bind_ok _ _ _ _ _ (on_frames_run _ _ _ _ _ E3)).
  rewrite (world_bind_ok _ _ _ _ _ (on_frames_run _ _ _ _ _ E4)).
  unfold mret at 1, State_ret. unfold mbind at 1, State_bind. cbn [fst snd].
  assert (Ld2 : load lx2 h4 = (h4, Ok x_train)) by (unfold load; by rewrite X2).
  assert (Ld1 : load lx1 h4 = (h4, Ok x_test)) by (unfold load; by rewrite X1').
  rewrite (world_bind_ok _ _ _ _ _ (on_frames_run _ _ _ _ _ Ld2)).
  unfold mbind at 1, State_bind, lift_result. rewrite F.
  unfold mbind at 1, State_bind.
  destruct (guardar pickle_gz (model, s0) disk) as [disk1 [[]|e]] eqn:G;
    rewrite (on_disk_run _ _ _ _ _ G); [|done].
  rewrite (world_bind_ok _ _ _ _ _ (on_frames_run _ _ _ _ _ Ld1)).
  unfold mbind at 1, State_bind. cbn [fst snd].
  by destruct (report model x_train y_train x_test y_test s0).2.
Qed.

End script_proofs.

(** X18. Read from two frames that clean without error, with a fitted
    model whose 0/1 predictions do not depend on its state, both classes
    in each split and both output files writable, the script ends without
    error: the model file holds the serialized model, the metrics file
    holds the four records of the report, one per line, and the two frames
    read are still as they were read. *)
Theorem script_writes_outputs {S Pipe : Type}
    (read_csv : path → fs → result DataFrame) (pipeline : Pipe)
    (hiperParametros : Pipe → DataFrame → Series → result (Model S * S))
    (pickle_gz : Model S * S → string) (float_repr : fval → string)
    (h : heap) (disk : fs)
    (test train d_test x_test d_train x_train : DataFrame) (y_test y_train : Series)
    (model : Model S) (s0 s1 s2 : S) (p_train p_test : list Z) :
  read_csv test_path disk = Ok test →
  read_csv train_path disk = Ok train →
  clean_value test = Ok (d_test, x_test, y_test) →
  clean_value train = Ok (d_train, x_train, y_train) →
  hiperParametros pipeline x_train y_train = Ok (model, s0) →
  deterministic model →
  predict model x_train s0 = (s1, Ok p_train) →
  predict model x_test s1 = (s2, Ok p_test) →
  binary_targets y_train p_train → binary_targets y_test p_test →
  both_classes y_train p_train → both_classes y_test p_test →
  writable disk model_path → writable disk default_metrics_path →
  ∃ h' disk' m_train m_test c_train c_test,
    script read_csv pipeline hiperParametros pickle_gz float_repr (h, disk)
      = ((h', disk'), Ok tt) ∧
    (report model x_train y_train x_test y_test s0).2
      = Ok ((m_train, m_test), (c_train, c_test)) ∧
    disk' !! model_path = Some (File (pickle_gz (model, s0))) ∧
    disk' !! default_metrics_path
      = Some (File (Json.dumps float_repr (JObj m_train) +:+ newline
                    +:+ Json.dumps float_repr (JObj m_test) +:+ newline
                    +:+ Json.dumps float_repr (JObj c_train) +:+ newline
                    +:+ Json.dumps float_repr (JObj c_test) +:+ newline)) ∧
    take (length h + 2) h' = h ++ [test; train].
Proof.
  intros R1 R2 V1 V2 F Hdet P1 P2 B1 B2 C1 C2 W1 W2.
  destruct (script_run read_csv pipeline hiperParametros pickle_gz float_repr
              h disk _ _ _ _ _ _ _ _ _ _ R1 R2 V1 V2 F) as (h' & Hh & Hrun).
  destruct (split_agree "train" "train" _ _ B1 C1) as (m1 & cm1 & c1 & M1 & K1 & Q1 & _).
  destruct (split_agree "test" "test" _ _ B2 C2) as (m2 & cm2 & c2 & M2 & K2 & Q2 & _).
  assert (Hrep : (report model x_train y_train x_test y_test s0).2
                 = Ok ((m1, m2), (c1, c2))).
  { rewrite (report_run model _ _ _ _ _ _ _ _ _ Hdet P1 P2).
    by rewrite M1, M2, K1, K2, !result_bind_ok, Q1, Q2. }
  destruct (guardar_keeps_metrics_path pickle_gz (model, s0) disk W1 W2)
    as (disk1 & G1 & F1 & _ & W2').
  destruct (guardarMetricas_run float_repr m1 m2 c1 c2 _ disk1 W2')
    as (disk2 & G2 & F2 & _ & Hframe2).
  exists h', disk2, m1, m2, c1, c2. split_and!; try done.
  - rewrite Hrun, G1, Hrep. cbn [fst snd].
    by rewrite (on_disk_run _ _ _ _ _ G2).
  - rewrite Hframe2; [done|done|].
    change (dirname default_metrics_path) with ["files"; "output"].
    intros [l Hl]. discriminate Hl.
Qed.

Lemma script_writes_outputs_witness :
  clean_value sample_raw = Ok (sample_clean_d, sample_clean_x, sample_clean_y) ∧
  ∃ h' disk' m_train m_test c_train c_test,
    script (read_always sample_raw) tt fit_all_zero (λ _, "model") sample_float_repr
      ([], sample_fs) = ((h', disk'), Ok tt) ∧
    (report all_zero_model sample_clean_x sample_clean_y sample_clean_x
       sample_clean_y 0).2 = Ok ((m_train, m_test), (c_train, c_test)) ∧
    disk' !! model_path = Some (File "model") ∧
    disk' !! default_metrics_path
      = Some (File (Json.dumps sample_float_repr (JObj m_train) +:+ newline
                    +:+ Json.dumps sample_float_repr (JObj m_test) +:+ newline
                    +:+ Json.dumps sample_float_repr (JObj c_train) +:+ newline
                    +:+ Json.dumps sample_float_repr (JObj c_test) +:+ newline)) ∧
    take (length (@nil DataFrame) + 2) h' = [] ++ [sample_raw; sample_raw].
Proof.
  assert (V : clean_value sample_raw = Ok (sample_clean_d, sample_clean_x, sample_clean_y))
    by (vm_compute; reflexivity).
  assert (D : deterministic all_zero_model) by (intros x s s'; reflexivity).
  assert (B : binary_targets sample_clean_y [0; 0]%Z)
    by (apply (bool_decide_unpack _); vm_compute; reflexivity).
  assert (C : both_classes sample_clean_y [0; 0]%Z)
    by (apply (bool_decide_unpack _); vm_compute; reflexivity).
  assert (W1 : writable sample_fs model_path)
    by (apply (bool_decide_unpack _); vm_compute; reflexivity).
  assert (W2 : writable sample_fs default_metrics_path)
    by (apply (bool_decide_unpack _); vm_compute; reflexivity).
  split; [exact V|].
  apply (script_writes_outputs (read_always sample_raw) tt fit_all_zero
           (λ _, "model") sample_float_repr [] sample_fs
           sample_raw sample_raw sample_clean_d sample_clean_x
           sample_clean_d sample_clean_x sample_clean_y sample_clean_y
           all_zero_model 0 1 2 [0; 0]%Z [0; 0]%Z);
    [reflexivity|reflexivity|exact V|exact V|reflexivity|exact D
    |reflexivity|reflexivity|exact B|exact B|exact C|exact C|exact W1|exact W2].
Defined.

(** X19. Where a split holds a single class, among labels and predictions
    alike, the script stops with an IndexError in [matrizConfusion]: by
    then the model file is written, and no metrics file is: what was at
    its path, if anything, is still there. *)
Theorem script_stops_on_single_class {S Pipe : Type}
    (read_csv : path → fs → result DataFrame) (pipeline : Pipe)
    (hiperParametros : Pipe → DataFrame → Series → result (Model S * S))
    (pickle_gz : Model S * S → string) (float_repr : fval → string)
    (h : heap) (disk : fs)
    (test train d_test x_test d_train x_train : DataFrame) (y_test y_train : Series)
    (model : Model S) (s0 s1 s2 : S) (p_train p_test : list Z) :
  read_csv test_path disk = Ok test →
  read_csv train_path disk = Ok train →
  clean_value test = Ok (d_test, x_test, y_test) →
  clean_value train = Ok (d_train, x_train, y_train) →
  hiperParametros pipeline x_train y_train = Ok (model, s0) →
  deterministic model →
  predict model x_train s0 = (s1, Ok p_train) →
  predict model x_test s1 = (s2, Ok p_test) →
  binary_targets y_train p_train → binary_targets y_test p_test →
  ¬ (both_classes y_train p_train ∧ both_classes y_test p_test) →
  writable disk model_path →
  ∃ h' disk',
    script read_csv pipeline hiperParametros pickle_gz float_repr (h, disk)
      = ((h', disk'), Raise IndexError) ∧
    disk' !! model_path = Some (File (pickle_gz (model, s0))) ∧
    disk' !! default_metrics_path = disk !! default_metrics_path.
Proof.
  intros R1 R2 V1 V2 F Hdet P1 P2 B1 B2 Hnc W1.
  destruct (script_run read_csv pipeline hiperParametros pickle_gz float_repr
              h disk _ _ _ _ _ _ _ _ _ _ R1 R2 V1 V2 F) as (h' & Hh & Hrun).
  destruct (scalar_record_binary "train" _ _ B1) as (? & ? & ? & ? & _ & _ & _ & M1).
  destruct (scalar_record_binary "test" _ _ B2) as (? & ? & ? & ? & _ & _ & _ & M2).
  destruct (cm_record_binary "train" _ _ B1) as (y1 & cm1 & _ & _ & _ & K1 & Q1 & N1).
  destruct (cm_record_binary "test" _ _ B2) as (y2 & cm2 & _ & _ & _ & K2 & Q2 & N2).
  assert (Hrep : (report model x_train y_train x_test y_test s0).2 = Raise IndexError).
  { rewrite (report_run model _ _ _ _ _ _ _ _ _ Hdet P1 P2).
    rewrite M1, M2, K1, K2, !result_bind_ok.
    destruct (decide (both_classes y_train p_train)) as [C1|C1].
    - rewrite (Q1 C1), result_bind_ok.
      destruct (decide (both_classes y_test p_test)) as [C2|C2]; [by destruct Hnc|].
      by rewrite (proj2 (N2 C2)).
    - by rewrite (proj2 (N1 C1)). }
  destruct (guardar_run pickle_gz (model, s0) disk W1) as (disk1 & G & Hfile & _ & _ & Hframe).
  exists h', disk1. split_and!; [|done|].
  - by rewrite Hrun, G, Hrep.
  - apply Hframe. rewrite !not_elem_of_cons.
    split_and!; try discriminate; apply not_elem_of_nil.
Qed.

Lemma script_stops_on_single_class_witness :
  clean_value sample_single_class = Ok (single_class_d, single_class_x, single_class_y) ∧
  ∃ h' disk',
    script (read_always sample_single_class) tt fit_all_zero (λ _, "model")
      sample_float_repr ([], sample_fs) = ((h', disk'), Raise IndexError) ∧
    disk' !! model_path = Some (File "model") ∧
    disk' !! default_metrics_path = sample_fs !! default_metrics_path.
Proof.
  assert (V : clean_value sample_single_class
              = Ok (single_class_d, single_class_x, single_class_y))
    by (vm_compute; reflexivity).
  assert (D : deterministic all_zero_model) by (intros x s s'; reflexivity).
  assert (B : binary_targets single_class_y [0; 0; 0]%Z)
    by (apply (bool_decide_unpack _); vm_compute; reflexivity).
  assert (C : ¬ (both_classes single_class_y [0; 0; 0]%Z
                 ∧ both_classes single_class_y [0; 0; 0]%Z))
    by (apply (bool_decide_unpack _); vm_compute; reflexivity).
  assert (W1 : writable sample_fs model_path)
    by (apply (bool_decide_unpack _); vm_compute; reflexivity).
  split; [exact V|].
  apply (script_stops_on_single_class (read_always sample_single_class) tt
           fit_all_zero (λ _, "model") sample_float_repr [] sample_fs
           sample_single_class sample_single_class single_class_d single_class_x
           single_class_d single_class_x single_class_y single_class_y
           all_zero_model 0 1 2 [0; 0; 0]%Z [0; 0; 0]%Z);
    [reflexivity|reflexivity|exact V|exact V|reflexivity|exact D
    |reflexivity|reflexivity|exact B|exact B|exact C|exact W1].
Defined.

(** X20. The test frame is cleaned first, then the train frame.  If the
    cleaning of either stops with an error, the script stops with that
    error before the model is fitted, and the files are as they were:
    neither the model file nor the metrics file is written. *)
Theorem script_stops_in_cleaning {S Pipe : Type}
    (read_csv : path → fs → result DataFrame) (pipeline : Pipe)
    (hiperParametros : Pipe → DataFrame → Series → result (Model S * S))
    (pickle_gz : Model S * S → string) (float_repr : fval → string)
    (h : heap) (disk : fs) (test train : DataFrame) (e : exn) :
  read_csv test_path disk = Ok test →
  read_csv train_path disk = Ok train →
  clean_value test = Raise e
  ∨ (is_ok (clean_value test) = true ∧ clean_value train = Raise e) →
  ∃ h',
    script read_csv pipeline hiperParametros pickle_gz float_repr (h, disk)
      = ((h', disk), Raise e).
Proof.
  intros R1 R2 Hfail.
  set (h2 := (h ++ [test]) ++ [train]).
  assert (L1 : h2 !! length h = Some test).
  { unfold h2. rewrite lookup_app_l by (rewrite length_app; simpl; lia).
    apply lookup_snoc. }
  assert (L2 : h2 !! Datatypes.S (length h) = Some train).
  { unfold h2. replace (Datatypes.S (length h)) with (length (h ++ [test]))
      by (rewrite length_app; simpl; lia). apply lookup_snoc. }
  unfold script.
  rewrite (world_bind_ok _ _ _ _ _ (read_ok read_csv _ _ _ _ R1)).
  rewrite (world_bind_ok _ _ _ _ _ (read_ok read_csv _ _ _ _ R2)).
  replace (length (h ++ [test])) with (Datatypes.S (length h))
    by (rewrite length_app; simpl; lia).
  fold h2.
  destruct Hfail as [V1|[V1 V2]].
  - pose proof (limpiarDatos_raises h2 _ _ _ L1 V1) as E.
    destruct (limpiarDatos (length h) h2) as [h3 r3] eqn:E3. simpl in E. subst r3.
    exists h3. by rewrite (world_bind_raise _ _ _ _ _ (on_frames_run _ _ _ _ _ E3)).
  - destruct (clean_value test) as [[[d1 x1] y1]|] eqn:V; [|done].
    destruct (limpiarDatos_value h2 _ _ _ _ _ L1 V) as (h3 & ld1 & lx1 & E3 & _).
    pose proof (limpiarDatos_kept _ _ _ _ E3) as K3.
    pose proof (lookup_kept _ _ _ _ K3 L2) as L3.
    pose proof (limpiarDatos_raises h3 _ _ _ L3 V2) as E.
    destruct (limpiarDatos (Datatypes.S (length h)) h3) as [h4 r4] eqn:E4.
    simpl in E. subst r4. exists h4.
    rewrite (world_bind_ok _ _ _ _ _ (on_frames_run _ _ _ _ _ E3)).
    by rewrite (world_bind_raise _ _ _ _ _ (on_frames_run _ _ _ _ _ E4)).
Qed.

Lemma script_stops_in_cleaning_witness :
  clean_value sample_no_id = Raise (KeyError "ID") ∧
  ∃ h',
    script (read_always sample_no_id) tt fit_all_zero (λ _, "model")
      sample_float_repr ([], sample_fs) = ((h', sample_fs), Raise (KeyError "ID")).
Proof.
  assert (V : clean_value sample_no_id = Raise (KeyError "ID"))
    by (vm_compute; reflexivity).
  split; [exact V|].
  apply (script_stops_in_cleaning (read_always sample_no_id) tt fit_all_zero
           (λ _, "model") sample_float_repr [] sample_fs sample_no_id sample_no_id
           (KeyError "ID")); [reflexivity|reflexivity|left; exact V].
Defined.

(** * Further properties: the metrics file of a run is JSON *)

Lemma both_classes_nonempty (y : Series) (p : list Z) :
  binary_targets y p → both_classes y p → sdata y ≠ [].
Proof.
  intros (Hl & _) [[H0|H0] _] E; rewrite E in *.
  - by apply elem_of_nil in H0.
  - destruct p; [by apply elem_of_nil in H0|done].
Qed.

Lemma scalar_record_finite (dataset : string) (y : Series) (p : list Z) (m : dict) :
  binary_targets y p → sdata y ≠ [] →
  scalar_record dataset y p = Ok m → finite (JObj m) = true.
Proof.
  intros Hb Hne.
  destruct (binary_counts_binary _ _ Hb) as (ys & Ey & Ec).
  destruct (balanced_accuracy_unit _ _ Hb Hne) as (b & Eb & Hbu).
  unfold scalar_record, precision_score, recall_score, f1_score.
  rewrite Ec, Eb, !result_bind_ok. intros [= <-].
  destruct b as [q|]; [|done]. cbn [fst snd]. unfold prf_divide.
  by repeat match goal with |- context [Nat.eqb ?a ?b] => destruct (Nat.eqb a b) end.
Qed.

Lemma cm_record_finite (dataset : string) (cm : list (list nat)) (c : dict) :
  cm_record dataset cm = Ok c → finite (JObj c) = true.
Proof.
  unfold cm_record.
  destruct (matrix_get cm 0 0) as [c00|]; [|done].
  destruct (matrix_get cm 0 1) as [c01|]; [|done].
  destruct (matrix_get cm 1 0) as [c10|]; [|done].
  destruct (matrix_get cm 1 1) as [c11|]; [|done].
  by intros [= <-].
Qed.

(** The four lines [guardarMetricas] writes, read back. *)
Lemma four_lines_load (float_repr : fval → string) (m1 m2 m3 m4 : dict) :
  (∀ x, printable (float_repr x) = true) →
  (∀ q, JsonText.is_number (float_repr (FNum q)) = true) →
  Forall (λ record, finite (JObj record) = true) [m1; m2; m3; m4] →
  map JsonText.loads
    (lines (Json.dumps float_repr (JObj m1) +:+ newline
            +:+ Json.dumps float_repr (JObj m2) +:+ newline
            +:+ Json.dumps float_repr (JObj m3) +:+ newline
            +:+ Json.dumps float_repr (JObj m4) +:+ newline))
  = map (λ record : dict,
           Some (JsonText.TObj
                   (map (λ kv, (fst kv, tree_of float_repr (snd kv))) record)))
      [m1; m2; m3; m4].
Proof.
  intros Hrepr Hnum Hfin.
  rewrite !lines_app_newline by (by apply dumps_printable).
  rewrite lines_newline_end by (by apply dumps_printable).
  apply Forall_cons in Hfin as [F1 Hfin]. apply Forall_cons in Hfin as [F2 Hfin].
  apply Forall_cons in Hfin as [F3 Hfin]. apply Forall_cons in Hfin as [F4 _].
  cbn [map]. by rewrite !(loads_dumps float_repr Hnum) by done.
Qed.

(** X21. A run of the script that ends without error leaves a metrics
    file of JSON objects.  Under the conditions of the end-to-end run, and
    with floats written as printable JSON numbers, a JSON reader reads
    each of the four lines of the file back as an object: the first two
    with the keys and values of the scalar records of the report, the last
    two with those of its confusion-matrix records.  No metric of such a
    run is NaN. *)
Theorem script_metrics_file_is_json {S Pipe : Type}
    (read_csv : path → fs → result DataFrame) (pipeline : Pipe)
    (hiperParametros : Pipe → DataFrame → Series → result (Model S * S))
    (pickle_gz : Model S * S → string) (float_repr : fval → string)
    (h : heap) (disk : fs)
    (test train d_test x_test d_train x_train : DataFrame) (y_test y_train : Series)
    (model : Model S) (s0 s1 s2 : S) (p_train p_test : list Z) :
  (∀ x, printable (float_repr x) = true) →
  (∀ q, JsonText.is_number (float_repr (FNum q)) = true) →
  read_csv test_path disk = Ok test →
  read_csv train_path disk = Ok train →
  clean_value test = Ok (d_test, x_test, y_test) →
  clean_value train = Ok (d_train, x_train, y_train) →
  hiperParametros pipeline x_train y_train = Ok (model, s0) →
  deterministic model →
  predict model x_train s0 = (s1, Ok p_train) →
  predict model x_test s1 = (s2, Ok p_test) →
  binary_targets y_train p_train → binary_targets y_test p_test →
  both_classes y_train p_train → both_classes y_test p_test →
  writable disk model_path → writable disk default_metrics_path →
  ∃ h' disk' content m_train m_test c_train c_test,
    script read_csv pipeline hiperParametros pickle_gz float_repr (h, disk)
      = ((h', disk'), Ok tt) ∧
    (report model x_train y_train x_test y_test s0).2
      = Ok ((m_train, m_test), (c_train, c_test)) ∧
    disk' !! default_metrics_path = Some (File content) ∧
    Forall (λ record, finite (JObj record) = true)
      [m_train; m_test; c_train; c_test] ∧
    map JsonText.loads (lines content)
    = map (λ record : dict,
             Some (JsonText.TObj
                     (map (λ kv, (fst kv, tree_of float_repr (snd kv))) record)))
        [m_train; m_test; c_train; c_test].
Proof.
  intros Hrepr Hnum R1 R2 V1 V2 F Hdet P1 P2 B1 B2 C1 C2 W1 W2.
  destruct (script_run read_csv pipeline hiperParametros pickle_gz float_repr
              h disk _ _ _ _ _ _ _ _ _ _ R1 R2 V1 V2 F) as (h' & Hh & Hrun).
  destruct (split_agree "train" "train" _ _ B1 C1) as (m1 & cm1 & c1 & M1 & K1 & Q1 & _).
  destruct (split_agree "test" "test" _ _ B2 C2) as (m2 & cm2 & c2 & M2 & K2 & Q2 & _).
  assert (Hrep : (report model x_train y_train x_test y_test s0).2
                 = Ok ((m1, m2), (c1, c2))).
  { rewrite (report_run model _ _ _ _ _ _ _ _ _ Hdet P1 P2).
    by rewrite M1, M2, K1, K2, !result_bind_ok, Q1, Q2. }
  assert (Hfin : Forall (λ record, finite (JObj record) = true) [m1; m2; c1; c2]).
  { repeat constructor.
    - apply (scalar_record_finite "train" y_train p_train);
        [done|by apply (both_classes_nonempty _ p_train)|done].
    - apply (scalar_record_finite "test" y_test p_test);
        [done|by apply (both_classes_nonempty _ p_test)|done].
    - by apply (cm_record_finite "train" cm1).
    - by apply (cm_record_finite "test" cm2). }
  destruct (guardar_keeps_metrics_path pickle_gz (model, s0) disk W1 W2)
    as (disk1 & G1 & _ & _ & W2').
  destruct (guardarMetricas_run float_repr m1 m2 c1 c2 _ disk1 W2')
    as (disk2 & G2 & F2 & _).
  eexists h', disk2, _, m1, m2, c1, c2. split_and!; [|exact Hrep|exact F2|exact Hfin|].
  - rewrite Hrun, G1, Hrep. cbn [fst snd].
    by rewrite (on_disk_run _ _ _ _ _ G2).
  - by apply four_lines_load.
Qed.

Lemma script_metrics_file_is_json_witness :
  clean_value sample_raw = Ok (sample_clean_d, sample_clean_x, sample_clean_y) ∧
  ∃ h' disk' content m_train m_test c_train c_test,
    script (read_always sample_raw) tt fit_all_zero (λ _, "model") sample_float_repr
      ([], sample_fs) = ((h', disk'), Ok tt) ∧
    (report all_zero_model sample_clean_x sample_clean_y sample_clean_x
       sample_clean_y 0).2 = Ok ((m_train, m_test), (c_train, c_test)) ∧
    disk' !! default_metrics_path = Some (File content) ∧
    Forall (λ record, finite (JObj record) = true)
      [m_train; m_test; c_train; c_test] ∧
    map JsonText.loads (lines content)
    = map (λ record : dict,
             Some (JsonText.TObj
                     (map (λ kv, (fst kv, tree_of sample_float_repr (snd kv))) record)))
        [m_train; m_test; c_train; c_test].
Proof.
  assert (V : clean_value sample_raw = Ok (sample_clean_d, sample_clean_x, sample_clean_y))
    by (vm_compute; reflexivity).
  assert (Hrepr : ∀ x, printable (sample_float_repr x) = true)
    by (intros [q|]; reflexivity).
  assert (Hnum : ∀ q, JsonText.is_number (sample_float_repr (FNum q)) = true)
    by (intros q; reflexivity).
  assert (D : deterministic all_zero_model) by (intros x s s'; reflexivity).
  assert (B : binary_targets sample_clean_y [0; 0]%Z)
    by (apply (bool_decide_unpack _); vm_compute; reflexivity).
  assert (C : both_classes sample_clean_y [0; 0]%Z)
    by (apply (bool_decide_unpack _); vm_compute; reflexivity).
  assert (W1 : writable sample_fs model_path)
    by (apply (bool_decide_unpack _); vm_compute; reflexivity).
  assert (W2 : writable sample_fs default_metrics_path)
    by (apply (bool_decide_unpack _); vm_compute; reflexivity).
  split; [exact V|].
  apply (script_metrics_file_is_json (read_always sample_raw) tt fit_all_zero
           (λ _, "model") sample_float_repr [] sample_fs
           sample_raw sample_raw sample_clean_d sample_clean_x
           sample_clean_d sample_clean_x sample_clean_y sample_clean_y
           all_zero_model 0 1 2 [0; 0]%Z [0; 0]%Z);
    [exact Hrepr|exact Hnum|reflexivity|reflexivity|exact V|exact V|reflexivity
    |exact D|reflexivity|reflexivity|exact B|exact B|exact C|exact C
    |exact W1|exact W2].
Defined.
